(** * Plenario sensor-network observation engine

    A shallow embedding of [plenario/sensor_network/api/sensor_networks.py]
    (with the response helpers of [plenario/api/response.py]) and the
    properties of its planner, fan-out executor, merger and chunked
    datadump runner; with it the detail and export responses of
    [plenario/api/response.py], the catalog models of
    [plenario/models/SensorNetwork.py] and the dataset form of
    [plenario/views.py].

    Conventions.  The source is Python 2: [/] on two ints is floor
    division ([Z.div]), [dict.get] answers [None] for a missing key,
    [d[k]] and [d.pop(k)] raise [KeyError].  A Python [dict] is a
    [gmap string _]; Python values are the inductive [value]; an
    exception is the [Raise] branch of [result]. *)

From stdpp Require Import gmap strings list sorting pretty.
From Stdlib Require Import ZArith Lia Ascii.

Local Open Scope Z_scope.

(** ** Python strings *)

Module PyStr.

(** [str.lower] on ASCII letters (also SQL [lower]). *)
Definition lower_ascii (c : ascii) : ascii :=
  let n := nat_of_ascii c in
  if ((65 <=? n)%nat && (n <=? 90)%nat)%bool then ascii_of_nat (n + 32) else c.

Fixpoint lower (s : string) : string :=
  match s with
  | EmptyString => EmptyString
  | String c s' => String (lower_ascii c) (lower s')
  end.

(** [s.split(sep)] for a one-character separator: never the empty list. *)
Fixpoint split (sep : ascii) (s : string) : list string :=
  match s with
  | EmptyString => [EmptyString]
  | String c s' =>
      if Ascii.eqb c sep then EmptyString :: split sep s'
      else match split sep s' with
           | [] => [String c EmptyString]
           | h :: t => String c h :: t
           end
  end.

(** [s.split(sep)[0]] *)
Definition split_head (sep : ascii) (s : string) : string :=
  match split sep s with
  | [] => EmptyString
  | h :: _ => h
  end.

Definition is_digit (c : ascii) : bool :=
  let n := nat_of_ascii c in ((48 <=? n)%nat && (n <=? 57)%nat)%bool.

(** Maximal runs of decimal digits of a string, left to right. *)
Fixpoint digit_runs_aux (cur : string) (s : string) : list string :=
  match s with
  | EmptyString => match cur with EmptyString => [] | _ => [cur] end
  | String c s' =>
      if is_digit c then digit_runs_aux (cur +:+ String c EmptyString) s'
      else match cur with
           | EmptyString => digit_runs_aux EmptyString s'
           | _ => cur :: digit_runs_aux EmptyString s'
           end
  end.

Definition digit_runs (s : string) : list string := digit_runs_aux EmptyString s.

Fixpoint Z_of_digits_aux (acc : Z) (s : string) : Z :=
  match s with
  | EmptyString => acc
  | String c s' => Z_of_digits_aux (10 * acc + (Z.of_nat (nat_of_ascii c) - 48)) s'
  end.

(** [int(s)] for a string of decimal digits. *)
Definition Z_of_digits (s : string) : Z := Z_of_digits_aux 0 s.

Definition digit (n : Z) : ascii := ascii_of_nat (Z.to_nat (48 + n mod 10)).

(** ["%0wd" % n] for [0 <= n < 10^w] *)
Fixpoint pad (w : nat) (n : Z) : string :=
  match w with
  | O => EmptyString
  | S w' => pad w' (n / 10) +:+ String (digit n) EmptyString
  end.

Fixpoint take (n : nat) (s : string) : string :=
  match n, s with
  | S n', String c s' => String c (take n' s')
  | _, _ => EmptyString
  end.

Fixpoint all_digits (s : string) : bool :=
  match s with
  | EmptyString => true
  | String c s' => is_digit c && all_digits s'
  end.

Fixpoint no_plus (s : string) : bool :=
  match s with
  | EmptyString => true
  | String c s' => negb (Ascii.eqb c "+"%char) && no_plus s'
  end.

(** [sep.join(l)] *)
Fixpoint join (sep : string) (l : list string) : string :=
  match l with
  | [] => EmptyString
  | [x] => x
  | x :: l' => x +:+ sep +:+ join sep l'
  end.

End PyStr.

(** ** Naive datetimes ([datetime.datetime] without tzinfo)

    The observation tables declare [Column('datetime', DateTime)]: rows
    carry naive datetimes. *)

Record datetime := mkDatetime {
  year : Z; month : Z; day : Z;
  hour : Z; minute : Z; second : Z; microsecond : Z
}.

(** Chronological position of a datetime with in-range fields; datetimes
    are compared through it. *)
Definition dt_key (d : datetime) : Z :=
  (((((year d * 13 + month d) * 32 + day d) * 24 + hour d) * 60 + minute d) * 60
     + second d) * 1000000 + microsecond d.

(** [datetime.isoformat()] of a naive datetime. *)
Definition isoformat (d : datetime) : string :=
  PyStr.pad 4 (year d) +:+ "-" +:+ PyStr.pad 2 (month d) +:+ "-" +:+ PyStr.pad 2 (day d)
  +:+ "T" +:+ PyStr.pad 2 (hour d) +:+ ":" +:+ PyStr.pad 2 (minute d) +:+ ":"
  +:+ PyStr.pad 2 (second d)
  +:+ (if microsecond d =? 0 then EmptyString else "." +:+ PyStr.pad 6 (microsecond d)).

(** A datetime every field of which fits its printed width. *)
Definition printable (d : datetime) : Prop :=
  0 <= year d < 10000 /\ 0 <= month d < 100 /\ 0 <= day d < 100 /\
  0 <= hour d < 100 /\ 0 <= minute d < 100 /\ 0 <= second d < 100 /\
  0 <= microsecond d < 1000000.

(** [dateutil.parser.parse] on the strings this module gives it: ISO-8601
    date-times [YYYY-MM-DDTHH:MM:SS[.ffffff]].  The fields are the digit
    runs in order; a shorter fraction is read as a decimal fraction of a
    second; an absent field reads as 0. *)
Definition parse (s : string) : datetime :=
  let runs := PyStr.digit_runs s in
  let field (i : nat) : Z := PyStr.Z_of_digits (nth i runs EmptyString) in
  let frac := PyStr.Z_of_digits (PyStr.take 6 (nth 6 runs EmptyString +:+ "000000")) in
  mkDatetime (field 0%nat) (field 1%nat) (field 2%nat) (field 3%nat) (field 4%nat)
             (field 5%nat) frac.


(** ** Python values, dictionaries and exceptions *)

Inductive value :=
| VNone
| VInt (z : Z)
| VStr (s : string)
| VList (l : list string).

#[global] Instance value_eq_dec : EqDecision value.
Proof. solve_decision. Defined.

(** Python truthiness ([if v:]). *)
Definition truthy (v : value) : bool :=
  match v with
  | VNone => false
  | VInt z => negb (z =? 0)
  | VStr s => negb (bool_decide (s = EmptyString))
  | VList l => negb (bool_decide (l = []))
  end.

Definition is_none (v : value) : bool :=
  match v with VNone => true | _ => false end.

(** [d.get(k)] *)
Definition get (d : gmap string value) (k : string) : value := default VNone (d !! k).

Inductive exn :=
| KeyError (k : string)
| TypeError (what : string)
| AttributeError (what : string)
| ZeroDivisionError
| DatabaseError (what : string).

Inductive result (A : Type) :=
| Ok (a : A)
| Raise (e : exn).
Arguments Ok {A} a.
Arguments Raise {A} e.

Definition bind {A B} (r : result A) (k : A -> result B) : result B :=
  match r with
  | Ok a => k a
  | Raise e => Raise e
  end.

Notation "'let!' x ':=' r 'in' k" := (bind r (fun x => k))
  (at level 10, x name, r at level 100, k at level 200).

(** [d[k]] *)
Definition getitem (d : gmap string value) (k : string) : result value :=
  match d !! k with
  | Some v => Ok v
  | None => Raise (KeyError k)
  end.

(** [d.pop(k)], keeping only the dictionary. *)
Definition pop (d : gmap string value) (k : string) : result (gmap string value) :=
  match d !! k with
  | Some _ => Ok (delete k d)
  | None => Raise (KeyError k)
  end.

(** The validator's result: the typed, defaulted argument bag [data]
    with the warnings it collected.  Only [data] is ever mutated. *)
Record ValidatorResult := mkArgs {
  data : gmap string value;
  errors : list string;
  warnings : list string
}.

Definition set_data (args : ValidatorResult) (d : gmap string value) : ValidatorResult :=
  mkArgs d (errors args) (warnings args).

(** [flask.request.args]: each key with the list of values sent for it. *)
Definition request_args_t := gmap string (list string).

(** What [dict.update(request.args)] copies into a plain dict. *)
Definition args_as_values (ra : gmap string (list string)) : gmap string value :=
  VList <$> ra.

(** ** Responses ([plenario/api/response.py]) *)

Module Obs.
(** A formatted observation, as built by [format_observation]. *)
Record t := mk {
  node_id : string;
  meta_id : Z;
  datetime : string;
  sensor : string;
  feature_of_interest : string;
  results : list (string * value)
}.
End Obs.

#[global] Instance obs_eq_dec : EqDecision Obs.t.
Proof. solve_decision. Defined.

Record Response := mkResponse {
  status_code : Z;
  meta_status : string;
  meta_message : value;
  meta_query : gmap string value;
  objects : list Obs.t
}.

(** [make_error(msg, status_code)]: [arguments] defaults to [request.args]. *)
Definition make_error (ra : gmap string (list string)) (msg : value) (status : Z) : Response :=
  mkResponse status "error" msg (args_as_values ra) [].

Definition bad_request (ra : gmap string (list string)) (msg : value) : Response :=
  make_error ra msg 400.

(** [json_response_base] followed by [make_response(json.dumps(resp), 200)]. *)
Definition json_response_base (validator : ValidatorResult) (objs : list Obs.t)
    (query : gmap string value) : Response :=
  mkResponse 200 "ok" (VList (warnings validator)) query objs.

(** ** The metadata catalog (Postgres [session])

    [NodeMeta] and [SensorMeta] of [plenario/models/SensorNetwork.py],
    with the columns the query engine reads. *)

Module NodeMeta.
Record t := mk {
  id : string;
  sensor_network : string;
  location : string
}.
End NodeMeta.

Module Sensor.
Record t := mk {
  name : string;
  observed_properties : list (string * string)   (* raw property |-> "feature.property" *)
}.
End Sensor.

(** The Postgres side: the two metadata tables and PostGIS'
    [ST_Within(location, ST_GeomFromGeoJSON(geojson))]. *)
Record Postgres := mkPostgres {
  node_rows : list NodeMeta.t;
  sensor_rows : list Sensor.t;
  ST_Within : string -> string -> bool
}.

(** SQL [lower(col) = lower(v)]: never true when [v] is NULL. *)
Definition sql_lower_eq (col : string) (v : value) : bool :=
  match v with
  | VStr s => bool_decide (PyStr.lower col = PyStr.lower s)
  | _ => false
  end.

(** SQL [lower(col) IN (l)] *)
Definition sql_lower_in (col : string) (v : value) : bool :=
  match v with
  | VList l => bool_decide (PyStr.lower col ∈ l)
  | _ => false
  end.

Definition sql_within (pg : Postgres) (loc : string) (v : value) : bool :=
  match v with
  | VStr g => ST_Within pg loc g
  | _ => false
  end.

(** [node_metadata_query]: the filter of the query it builds; each
    optional filter is added only when its argument is truthy. *)
Definition node_metadata_query (pg : Postgres) (args : ValidatorResult)
    (n : NodeMeta.t) : bool :=
  let network_name := get (data args) "network_name" in
  let node_id := get (data args) "node_id" in
  let nodes := get (data args) "nodes" in
  let geojson := get (data args) "geom" in
  sql_lower_eq (NodeMeta.sensor_network n) network_name
  && (if truthy node_id then sql_lower_eq (NodeMeta.id n) node_id else true)
  && (if truthy nodes then sql_lower_in (NodeMeta.id n) nodes else true)
  && (if truthy geojson then sql_within pg (NodeMeta.location n) geojson else true).

(** [query.all()] on node metadata. *)
Definition node_query_all (pg : Postgres) (q : NodeMeta.t -> bool) : list NodeMeta.t :=
  filter (fun n => q n = true) (node_rows pg).

(** ** The warehouse (Redshift) *)

Module ObsRow.
(** One stored observation.  [props] holds the observed-property columns. *)
Record t := mk {
  node_id : string;
  datetime : datetime;
  meta_id : Z;
  sensor : string;
  props : list (string * value)
}.
End ObsRow.

Module Table.
(** A reflected feature table: its name, column names [c] and rows. *)
Record t := mk {
  name : string;
  c : list string;
  rows : list ObsRow.t
}.
End Table.

Record Redshift := mkRedshift {
  tables : gmap string Table.t
}.

Module Query.
(** The range query [observation_query] builds on one table. *)
Record t := mk {
  from : Table.t;
  start_dt : value;              (* datetime >= start_dt *)
  end_dt : value;                (* datetime <  end_dt *)
  nodes : option (list string);  (* lower(node_id) IN nodes *)
  sensors : option (list string);(* lower(sensor) IN sensors *)
  limit : Z;
  offset : option Z
}.

(** SQL comparison of the [datetime] column with a literal: the literal
    is read as a timestamp; a comparison with NULL is not true. *)
Definition dt_ge (d : datetime) (v : value) : bool :=
  match v with
  | VStr s => dt_key (parse s) <=? dt_key d
  | _ => false
  end.

Definition dt_lt (d : datetime) (v : value) : bool :=
  match v with
  | VStr s => dt_key d <? dt_key (parse s)
  | _ => false
  end.

Definition in_opt (x : string) (o : option (list string)) : bool :=
  match o with
  | Some l => bool_decide (PyStr.lower x ∈ l)
  | None => true
  end.

Definition where_ (q : t) (r : ObsRow.t) : bool :=
  dt_ge (ObsRow.datetime r) (start_dt q)
  && dt_lt (ObsRow.datetime r) (end_dt q)
  && in_opt (ObsRow.node_id r) (nodes q)
  && in_opt (ObsRow.sensor r) (sensors q).

(** [q.all()]: WHERE, then OFFSET, then LIMIT, on the table's rows in
    storage order (the query has no ORDER BY). *)
Definition all (q : t) : list ObsRow.t :=
  take (Z.to_nat (limit q))
       (drop (Z.to_nat (default 0 (offset q)))
             (filter (fun r => where_ q r = true) (Table.rows (from q)))).
End Query.

Definition as_int (what : string) (v : value) : result Z :=
  match v with
  | VInt z => Ok z
  | _ => Raise (TypeError what)
  end.

(** Python 2 [a / b] on ints. *)
Definition py_div (a b : Z) : result Z :=
  if b =? 0 then Raise ZeroDivisionError else Ok (a / b).

(** A filter argument as the query uses it: applied only when truthy. *)
Definition filter_arg (v : value) : option (list string) :=
  match v with
  | VList l => if truthy v then Some l else None
  | _ => None
  end.

Definition observation_query (args : ValidatorResult) (num_tables : Z)
    (table : Table.t) : result Query.t :=
  let nodes := get (data args) "nodes" in
  let start_dt := get (data args) "start_datetime" in
  let end_dt := get (data args) "end_datetime" in
  let sensors := get (data args) "sensors" in
  let limit := get (data args) "limit" in
  let offset := get (data args) "offset" in
  let! l := as_int "limit" limit in
  let! lim := py_div l num_tables in
  let! off_v := getitem (data args) "offset" in
  let! off :=
    (if truthy off_v then
       let! o := as_int "offset" offset in
       let! o' := py_div o num_tables in
       Ok (Some o')
     else Ok None) in
  Ok (Query.mk table start_dt end_dt (filter_arg nodes) (filter_arg sensors) lim off).

Definition key_columns : list string := ["node_id"; "datetime"; "sensor"; "meta_id"].

Fixpoint assoc (k : string) (l : list (string * value)) : option value :=
  match l with
  | [] => None
  | (k', v) :: l' => if bool_decide (k' = k) then Some v else assoc k l'
  end.

(** [getattr(obs, prop)] on a row. *)
Definition getattr (obs : ObsRow.t) (prop : string) : value :=
  default VNone (assoc prop (ObsRow.props obs)).

Definition format_observation (obs : ObsRow.t) (table : Table.t) : Obs.t :=
  Obs.mk (ObsRow.node_id obs)
         (ObsRow.meta_id obs)
         (PyStr.split_head "+"%char (isoformat (ObsRow.datetime obs)))
         (ObsRow.sensor obs)
         (Table.name table)
         (map (fun prop => (prop, getattr obs prop))
              (filter (fun col => col ∉ key_columns) (remove_dups (Table.c table)))).

(** ** Query planner *)

(** What [get_observation_queries] hands back: the list of
    [(query, table)] pairs, or the [bad_request] response object it
    returns when a table is missing. *)
Inductive planned :=
| Plan (qs : list (Query.t * Table.t))
| Refused (r : Response).

(** [v.split("+")[0] if v else None] *)
Definition strip_offset (v : value) : result value :=
  if truthy v then
    match v with
    | VStr s => Ok (VStr (PyStr.split_head "+"%char s))
    | _ => Raise (AttributeError "split")
    end
  else Ok VNone.

(** [session.query(Sensor).filter(lower(Sensor.name).in_(target_sensors)).all()] *)
Definition target_sensor_rows (pg : Postgres) (target_sensors : value)
    : result (list Sensor.t) :=
  match target_sensors with
  | VList l => Ok (filter (fun s => PyStr.lower (Sensor.name s) ∈ l) (sensor_rows pg))
  | _ => Raise (TypeError "in_")
  end.

(** [set([prop.split('.')[0].lower() for prop in sensor.observed_properties.itervalues()])] *)
Definition sensor_features (s : Sensor.t) : list string :=
  remove_dups
    (map (fun kv => PyStr.lower (PyStr.split_head "."%char (snd kv)))
         (Sensor.observed_properties s)).

(** [set(features).intersection(all_features)], listed in the order of
    [features] (a Python set has no specified order). *)
Definition intersect_features (features all_features : list string) : list string :=
  remove_dups (filter (fun f => f ∈ all_features) features).

(** The loop that reflects one table per feature; [inr name] is the
    first [table_name] whose reflection raised [NoSuchTableError]. *)
Fixpoint load_tables (rs : Redshift) (features : list string)
    : list Table.t + string :=
  match features with
  | [] => inl []
  | feature :: rest =>
      let table_name := PyStr.lower feature in
      match tables rs !! table_name with
      | None => inr table_name
      | Some t =>
          match load_tables rs rest with
          | inl ts => inl (t :: ts)
          | inr missing => inr missing
          end
      end
  end.

Fixpoint build_queries (args : ValidatorResult) (num_tables : Z)
    (ts : list Table.t) : result (list (Query.t * Table.t)) :=
  match ts with
  | [] => Ok []
  | table :: rest =>
      let! q := observation_query args num_tables table in
      let! qs := build_queries args num_tables rest in
      Ok ((q, table) :: qs)
  end.

Definition as_list (what : string) (v : value) : result (list string) :=
  match v with
  | VList l => Ok l
  | _ => Raise (TypeError what)
  end.

(** [get_observation_queries]: returns the mutated [args] with what
    the function returns. *)
Definition get_observation_queries (pg : Postgres) (rs : Redshift)
    (ra : gmap string (list string)) (args : ValidatorResult)
    : result (ValidatorResult * planned) :=
  let start_dt := get (data args) "start_dt" in
  let end_dt := get (data args) "end_dt" in
  let! start_dt' := strip_offset start_dt in
  let args := set_data args (<["start_dt" := start_dt']> (data args)) in
  let! end_dt' := strip_offset end_dt in
  let args := set_data args (<["end_dt" := end_dt']> (data args)) in
  let nodes_to_query :=
    map (fun node => PyStr.lower (NodeMeta.id node))
        (node_query_all pg (node_metadata_query pg args)) in
  let args := set_data args (<["nodes" := VList nodes_to_query]> (data args)) in
  let! features_v := getitem (data args) "features_of_interest" in
  let target_sensors := get (data args) "sensors" in
  let! sensors := target_sensor_rows pg target_sensors in
  let all_features := concat (map sensor_features sensors) in
  let! features_l := as_list "set" features_v in
  let features := intersect_features features_l all_features in
  match load_tables rs features with
  | inr table_name =>
      Ok (args, Refused (bad_request ra (VStr ("Table " +:+ table_name +:+ " not found"))))
  | inl ts =>
      let! qs := build_queries args (Z.of_nat (length ts)) ts in
      Ok (args, Plan qs)
  end.

(** The three keys the planner writes into [args.data]. *)
Definition planner_data (d : gmap string value) (sd ed : value) (nodes : list string)
    : gmap string value :=
  <["nodes" := VList nodes]> (<["end_dt" := ed]> (<["start_dt" := sd]> d)).

(** The node ids the planner resolves: the lower-cased ids of the rows
    [node_metadata_query] selects. *)
Definition resolved_nodes (pg : Postgres) (args : ValidatorResult) : list string :=
  map (fun node => PyStr.lower (NodeMeta.id node))
      (node_query_all pg (node_metadata_query pg args)).





Definition str_or_none (v : value) : Prop :=
  v = VNone \/ exists s, v = VStr s.

(** A valid request: the typed, defaulted bag the validator returns. *)
Definition valid_request (args : ValidatorResult) : Prop :=
  str_or_none (get (data args) "start_dt") /\
  str_or_none (get (data args) "end_dt") /\
  (exists fs, data args !! "features_of_interest" = Some (VList fs)) /\
  (exists ss, data args !! "sensors" = Some (VList ss)) /\
  (exists L, data args !! "limit" = Some (VInt L)) /\
  (exists O, data args !! "offset" = Some (VInt O)).

(** ** Fan-out executor and merger *)

(** [for query, table in queries]: iterating the list, or failing on a
    response object, which is not iterable. *)
Definition iter_planned (queries : planned) : result (list (Query.t * Table.t)) :=
  match queries with
  | Plan qs => Ok qs
  | Refused _ => Raise (TypeError "'Response' object is not iterable")
  end.

(** What one worker thread appends, in order ([fetch_query_results]). *)
Definition fetch_query_results (qt : Query.t * Table.t) : list Obs.t :=
  map (fun obs => format_observation obs (snd qt)) (Query.all (fst qt)).

(** The shared [results] list once every thread is joined.  [sched]
    names, step by step, the thread that appends its next row (a step
    of an exhausted or unknown thread does nothing); threads still
    holding rows when [sched] ends append them in thread order. *)
Fixpoint fan_out {A} (sched : list nat) (bufs : list (list A)) : list A :=
  match sched with
  | [] => concat bufs
  | i :: sched' =>
      match bufs !! i with
      | Some (x :: rest) => x :: fan_out sched' (<[i := rest]> bufs)
      | _ => fan_out sched' bufs
      end
  end.

(** [list.sort(key=...)]: a stable sort, here by insertion; [ins]
    places [x] before the first element whose key is not smaller. *)
Section Sort.
Context {A : Type} (key : A -> Z).

Fixpoint ins (x : A) (l : list A) : list A :=
  match l with
  | [] => [x]
  | y :: l' => if key x <=? key y then x :: l else y :: ins x l'
  end.

Fixpoint py_sort (l : list A) : list A :=
  match l with
  | [] => []
  | x :: l' => ins x (py_sort l')
  end.

End Sort.

(** The sort key of [run_observation_queries]:
    [lambda x: parse(x["datetime"])]. *)
Definition sort_key (x : Obs.t) : Z := dt_key (parse (Obs.datetime x)).

(** [if k not in request.args: args.data.pop(k)] *)
Definition pop_unless_requested (ra : gmap string (list string)) (k : string)
    (d : gmap string value) : result (gmap string value) :=
  match ra !! k with
  | Some _ => Ok d
  | None => pop d k
  end.

(** [if k in request.args: args.data[k] = args.data[k].split("+")[0]] *)
Definition strip_if_requested (ra : gmap string (list string)) (k : string)
    (d : gmap string value) : result (gmap string value) :=
  match ra !! k with
  | None => Ok d
  | Some _ =>
      let! v := getitem d k in
      match v with
      | VStr s => Ok (<[k := VStr (PyStr.split_head "+"%char s)]> d)
      | _ => Raise (AttributeError "split")
      end
  end.

(** Dropping the keys whose value is [None]. *)
Definition drop_null_args (d : gmap string value) : gmap string value :=
  filter (fun kv => snd kv ≠ VNone) d.

(** The cleaning of [args.data] before it is echoed. *)
Definition echo_data (ra : gmap string (list string)) (d : gmap string value)
    : result (gmap string value) :=
  let! d := pop_unless_requested ra "nodes" d in
  let! d := pop_unless_requested ra "features_of_interest" d in
  let! d := pop_unless_requested ra "sensors" d in
  let d := delete "geom" d in
  let! d := strip_if_requested ra "start_datetime" d in
  let! d := strip_if_requested ra "end_datetime" d in
  Ok (drop_null_args d).

(** [display_args = {}; display_args.update(request.args);
    display_args.update(args.data)] *)
Definition display_args (ra : gmap string (list string)) (d : gmap string value)
    : gmap string value :=
  d ∪ args_as_values ra.

Definition run_observation_queries (sched : list nat)
    (ra : gmap string (list string)) (args : ValidatorResult)
    (queries : planned) : result Response :=
  let! qs := iter_planned queries in
  let results := fan_out sched (map fetch_query_results qs) in
  let! d := echo_data ra (data args) in
  let args := set_data args d in
  let shown := display_args ra (data args) in
  let results := py_sort sort_key results in
  Ok (json_response_base args results shown).

(** ** The observation endpoint *)

(** [request.args.to_dict()]: the first value of each key. *)
Definition to_dict (ra : gmap string (list string)) : gmap string value :=
  omap (fun vs => VStr <$> head vs) ra.

(** [if k in args: args[k] = args[k].split(','); args[k] = (x.lower() for x in args[k])] *)
Definition split_lower (k : string) (args : gmap string value) : gmap string value :=
  match args !! k with
  | Some (VStr s) => <[k := VList (map PyStr.lower (PyStr.split ","%char s))]> args
  | _ => args
  end.

(** [get_observations].  [validate] stands for
    [validate(Validator(only=fields), args)] of the sensor validator. *)
Definition get_observations (validate : gmap string value -> ValidatorResult)
    (pg : Postgres) (rs : Redshift) (sched : list nat)
    (ra : gmap string (list string)) (network_name : option string)
    : result Response :=
  let args := to_dict ra in
  match network_name with
  | None => Ok (bad_request ra (VStr "Must specify a network name"))
  | Some network_name =>
      let args := <["network_name" := VStr network_name]> args in
      let args := split_lower "nodes" args in
      let args := split_lower "features_of_interest" args in
      let args := split_lower "sensors" args in
      let validated_args := validate args in
      if bool_decide (errors validated_args = []) then
        let! planned := get_observation_queries pg rs ra validated_args in
        run_observation_queries sched ra (fst planned) (snd planned)
      else Ok (bad_request ra (VList (errors validated_args)))
  end.

(** ** Chunked datadump runner *)

Module DataDump.
(** [data] is either [json.dumps(chunk, default=str)], kept as the page
    it serialises, or the text of the metadata document. *)
Inductive payload :=
| Page (chunk : list Obs.t)
| Doc (text : string).

Record t := mk {
  id : string;
  request : string;
  part : Z;
  total : Z;
  data : payload
}.
End DataDump.

(** Modelled from the spec: the job status record of [plenario.api.jobs]
    (absent from the sources), [{meta, progress}] with the start time in
    [meta] and [progress = {done, total}] once a chunk was stored. *)
Record Status := mkStatus {
  startTime : string;
  progress : option (Z * Z)
}.

(** Everything the runner reads and writes outside its arguments. *)
Record World := mkWorld {
  committed : list DataDump.t;      (* rows of the datadump table *)
  pending : list DataDump.t;        (* added to the session, not committed *)
  statuses : gmap string Status;    (* job status store *)
  flags : gmap string (bool * Z);   (* flag |-> (value, ttl) *)
  commit_faults : list bool;        (* the commits to come: true = raises *)
  urandom : list string;            (* the ids to come *)
  now : string                      (* str(datetime.now()) *)
}.

Definition M (A : Type) : Type := World -> result A * World.

Definition ret {A} (a : A) : M A := fun w => (Ok a, w).
Definition raise {A} (e : exn) : M A := fun w => (Raise e, w).
Definition lift {A} (r : result A) : M A := fun w => (r, w).

Definition mbind {A B} (m : M A) (k : A -> M B) : M B :=
  fun w =>
    match m w with
    | (Ok a, w') => k a w'
    | (Raise e, w') => (Raise e, w')
    end.

Notation "'do!' x ':=' m 'in' k" := (mbind m (fun x => k))
  (at level 10, x name, m at level 100, k at level 200).

(** [try: m except Exception as e: h(e)] *)
Definition try_except {A} (m : M A) (h : exn -> M A) : M A :=
  fun w =>
    match m w with
    | (Ok a, w') => (Ok a, w')
    | (Raise e, w') => h e w'
    end.

Definition session_add (d : DataDump.t) : M unit :=
  fun w => (Ok tt, mkWorld (committed w) (pending w ++ [d]) (statuses w) (flags w)
                           (commit_faults w) (urandom w) (now w)).

Definition session_commit : M unit :=
  fun w =>
    match commit_faults w with
    | true :: faults =>
        (Raise (DatabaseError "commit"),
         mkWorld (committed w) (pending w) (statuses w) (flags w) faults (urandom w) (now w))
    | _ =>
        (Ok tt, mkWorld (committed w ++ pending w) [] (statuses w) (flags w)
                        (tail (commit_faults w)) (urandom w) (now w))
    end.

Definition session_rollback : M unit :=
  fun w => (Ok tt, mkWorld (committed w) [] (statuses w) (flags w)
                           (commit_faults w) (urandom w) (now w)).

(** [os.urandom(16).encode('hex')] *)
Definition os_urandom_hex : M string :=
  fun w => (Ok (default EmptyString (head (urandom w))),
            mkWorld (committed w) (pending w) (statuses w) (flags w)
                    (commit_faults w) (tail (urandom w)) (now w)).

Definition datetime_now : M string := fun w => (Ok (now w), w).

(** Modelled from the spec: [get_status(ticket) -> {meta, progress}] of
    the job status store; asking for an unknown ticket raises. *)
Definition get_status (ticket : string) : M Status :=
  fun w =>
    match statuses w !! ticket with
    | Some st => (Ok st, w)
    | None => (Raise (KeyError ticket), w)
    end.

(** Modelled from the spec: [set_status(ticket, status)], last writer wins. *)
Definition set_status (ticket : string) (st : Status) : M unit :=
  fun w => (Ok tt, mkWorld (committed w) (pending w) (<[ticket := st]> (statuses w))
                           (flags w) (commit_faults w) (urandom w) (now w)).

(** Modelled from the spec: [set_flag(key, value, ttl)]. *)
Definition set_flag (key : string) (v : bool) (ttl : Z) : M unit :=
  fun w => (Ok tt, mkWorld (committed w) (pending w) (statuses w)
                           (<[key := (v, ttl)]> (flags w)) (commit_faults w)
                           (urandom w) (now w)).

(** [try: session.commit() except Exception as e: session.rollback(); raise e] *)
Definition commit_or_rollback : M unit :=
  try_except session_commit (fun e => do! _ := session_rollback in raise e).

Definition store_chunk (chunk : list Obs.t) (chunk_count chunk_number : Z)
    (request_id : string) : M unit :=
  do! id := os_urandom_hex in
  let datadump_part :=
    DataDump.mk id request_id chunk_number chunk_count (DataDump.Page chunk) in
  do! _ := session_add datadump_part in
  do! _ := commit_or_rollback in
  do! status := get_status request_id in
  let status := mkStatus (startTime status) (Some (chunk_number, chunk_count)) in
  do! _ := set_status request_id status in
  set_flag (request_id +:+ "_suppresscleanup") true 10800.

(** *** [json.dumps] on what the runner serialises *)

Definition dquote : string := String (ascii_of_nat 34) EmptyString.

(** Escaping of a string literal: quote, backslash, and the control
    characters LF, CR and TAB (names here are printable ASCII). *)
Fixpoint json_escape (s : string) : string :=
  match s with
  | EmptyString => EmptyString
  | String ch s' =>
      let n := nat_of_ascii ch in
      (if Nat.eqb n 34 then "\" +:+ dquote
       else if Nat.eqb n 92 then "\\"
       else if Nat.eqb n 10 then "\n"
       else if Nat.eqb n 13 then "\r"
       else if Nat.eqb n 9 then "\t"
       else String ch EmptyString) +:+ json_escape s'
  end.

Definition json_str (s : string) : string := dquote +:+ json_escape s +:+ dquote.

(** [json.dumps(l)] for a list of strings. *)
Definition json_dumps_list (l : list string) : string :=
  "[" +:+ PyStr.join ", " (map json_str l) +:+ "]".

(** [json.dumps(v)] *)
Definition json_dumps (v : value) : string :=
  match v with
  | VNone => "null"
  | VInt z => pretty z
  | VStr s => json_str s
  | VList l => json_dumps_list l
  end.

(** [json.dumps([v])] *)
Definition json_dumps_singleton (v : value) : string := "[" +:+ json_dumps v +:+ "]".

(** The format string of the metadata document. *)
Definition meta_chunk (start_time end_time workers features : string) : string :=
  "{" +:+ dquote +:+ "startTime" +:+ dquote +:+ ": " +:+ dquote +:+ start_time +:+ dquote
  +:+ ", " +:+ dquote +:+ "endTime" +:+ dquote +:+ ": " +:+ dquote +:+ end_time +:+ dquote
  +:+ ", " +:+ dquote +:+ "workers" +:+ dquote +:+ ": " +:+ workers
  +:+ ", " +:+ dquote +:+ "features" +:+ dquote +:+ ": " +:+ features +:+ "}".

Definition as_str (what : string) (v : value) : result string :=
  match v with
  | VStr s => Ok s
  | _ => Raise (TypeError what)
  end.

(** [math.ceil(n / d)] for a float [d > 0] holding an integer. *)
Definition ceil_div (n d : Z) : Z := - ((- n) / d).

Definition chunk_size : Z := 1000.

(** [features.add(name)] on a set kept in insertion order. *)
Definition set_add (x : string) (s : list string) : list string :=
  if bool_decide (x ∈ s) then s else s ++ [x].

Section Runner.
(** [plenario.database] is absent from the sources: [fast_count(query)]
    is the row-count estimate of a query, and
    [windowed_query(query, column, windowsize)] the rows it yields,
    window after window. *)
Variable fast_count : Query.t -> Z.
Variable windowed_query : Query.t -> string -> Z -> list ObsRow.t.

(** [row_count] after the counting loop and the [limit] override. *)
Definition row_count_of (args : ValidatorResult) (qs : list (Query.t * Table.t))
    : result Z :=
  let row_count := fold_left (fun acc qt => acc + fast_count (fst qt)) qs 0 in
  let limit := get (data args) "limit" in
  if truthy limit then as_int "ceil" limit else Ok row_count.

(** The inner loop: one row at a time into [chunk]; a chunk longer
    than [chunk_size] is stored and a fresh one started. *)
Fixpoint drain_rows (chunk_count : Z) (request_id : string) (table : Table.t)
    (rows : list ObsRow.t) (chunk : list Obs.t) (chunk_number : Z)
    : M (list Obs.t * Z) :=
  match rows with
  | [] => ret (chunk, chunk_number)
  | row :: rest =>
      let chunk := chunk ++ [format_observation row table] in
      if chunk_size <? Z.of_nat (length chunk) then
        do! _ := store_chunk chunk chunk_count chunk_number request_id in
        drain_rows chunk_count request_id table rest [] (chunk_number + 1)
      else drain_rows chunk_count request_id table rest chunk chunk_number
  end.

(** The outer loop over the [(query, table)] pairs. *)
Fixpoint drain_tables (chunk_count : Z) (request_id : string)
    (qs : list (Query.t * Table.t)) (chunk : list Obs.t) (chunk_number : Z)
    (features : list string) : M (list Obs.t * Z * list string) :=
  match qs with
  | [] => ret (chunk, chunk_number, features)
  | (query, table) :: rest =>
      let features := set_add (PyStr.lower (Table.name table)) features in
      do! st := drain_rows chunk_count request_id table
                  (windowed_query query "datetime" chunk_size) chunk chunk_number in
      drain_tables chunk_count request_id rest (fst st) (snd st) features
  end.

(** [get_observation_datadump]; the answer is the [url] of the dump.
    The jobs framework passes the ticket as a string. *)
Definition get_observation_datadump (pg : Postgres) (rs : Redshift)
    (ra : gmap string (list string)) (args : ValidatorResult) : M string :=
  do! request_id := lift (as_str "jobsframework_ticket"
                                 (get (data args) "jobsframework_ticket")) in
  do! planned := lift (get_observation_queries pg rs ra args) in
  let args := fst planned in
  do! observation_queries := lift (iter_planned (snd planned)) in
  do! row_count := lift (row_count_of args observation_queries) in
  let chunk_count := ceil_div row_count chunk_size in
  let chunk_number := 1 in
  do! st := drain_tables chunk_count request_id observation_queries [] chunk_number [] in
  let chunk := fst (fst st) in
  let chunk_number := snd (fst st) in
  let features := snd st in
  do! _ := (if 0 <? Z.of_nat (length chunk)
            then store_chunk chunk chunk_count chunk_number request_id
            else ret tt) in
  do! status := get_status request_id in
  do! end_time := datetime_now in
  do! workerid := lift (getitem (data args) "jobsframework_workerid") in
  let doc := meta_chunk (startTime status) end_time
                        (json_dumps_singleton workerid) (json_dumps_list features) in
  let dump := DataDump.mk request_id request_id 0 chunk_count (DataDump.Doc doc) in
  do! _ := session_add dump in
  do! _ := commit_or_rollback in
  do! root_v := lift (getitem (data args) "datadump_urlroot") in
  do! root := lift (as_str "datadump_urlroot" root_v) in
  ret (root +:+ "v1/api/datadump/" +:+ request_id).
End Runner.

(** ** What is stored for a job *)

(** The features of a plan, as the runner collects them. *)
Definition plan_features (qs : list (Query.t * Table.t)) : list string :=
  fold_left (fun acc qt => set_add (PyStr.lower (Table.name (snd qt))) acc) qs [].

(** The data chunks stored for a ticket: its rows other than part 0. *)
Definition data_chunks (rid : string) (w : World) : list DataDump.t :=
  filter (fun d => DataDump.request d = rid /\ DataDump.part d <> 0) (committed w).

(** Every part from 1 up to, not including, [n] is stored for the ticket. *)
Definition covered (rid : string) (n : Z) (w : World) : Prop :=
  forall p, 1 <= p < n ->
    exists d, d ∈ committed w /\ DataDump.request d = rid /\ DataDump.part d = p.

(** The progress record of the ticket does not overstate the store:
    every part up to [done] is stored. *)
Definition progress_sound (rid : string) (w : World) : Prop :=
  forall st done total,
    statuses w !! rid = Some st -> progress st = Some (done, total) ->
    covered rid (done + 1) w.

(** From [w] to [w'] the chunks numbered [n], ..., [n' - 1] were stored
    for the ticket, each with the total [cc], and nothing else changed
    in the store; the job keeps its start time. *)
Definition chunks_stored (cc : Z) (rid : string) (n : Z) (w : World)
    (n' : Z) (w' : World) : Prop :=
  exists new,
    committed w' = committed w ++ new /\
    pending w' = [] /\ now w' = now w /\ n <= n' /\
    map DataDump.part new = seqZ n (n' - n) /\
    Forall (fun d => DataDump.request d = rid /\ DataDump.total d = cc) new /\
    (forall st', statuses w' !! rid = Some st' ->
       exists st, statuses w !! rid = Some st /\ startTime st = startTime st').

Definition is_ok {A} (r : result A) : bool :=
  match r with Ok _ => true | Raise _ => false end.

(** What a stretch of the run from [w] to [w'] may do to the store:
    rows are only ever appended; the commits it attempted all went
    through if it ended normally ([ok]); and a progress record that did
    not overstate the store still does not. *)
Definition run_effect (rid : string) (ok : bool) (w w' : World) : Prop :=
  (exists new, committed w' = committed w ++ new) /\
  (exists used, commit_faults w = used ++ commit_faults w' /\
                (ok = true -> Forall (fun b => b = false) used)) /\
  (progress_sound rid w -> progress_sound rid w').

(** The claim that the data chunks of a ticket are numbered exactly
    1, ..., total, for the total they carry. *)
Definition parts_match_total (rid : string) (w : World) : Prop :=
  forall d, d ∈ data_chunks rid w ->
    map DataDump.part (data_chunks rid w) ≡ₚ seqZ 1 (DataDump.total d).

(** The page a stored record holds (none for the metadata record). *)
Definition page_of (d : DataDump.t) : list Obs.t :=
  match DataDump.data d with
  | DataDump.Page chunk => chunk
  | DataDump.Doc _ => []
  end.

(** The records the job streams, in order: for each planned table, the
    rows [windowed_query] yields, formatted. *)
Definition streamed (windowed_query : Query.t -> string -> Z -> list ObsRow.t)
    (qs : list (Query.t * Table.t)) : list Obs.t :=
  concat (map (fun qt => map (fun row => format_observation row (snd qt))
                             (windowed_query (fst qt) "datetime" chunk_size)) qs).

(** From [w] to [w'] the pages [ps] were stored as the chunks [n], ...,
    [n' - 1] of the ticket, the job status and the clean-up flag being
    written with each. *)
Definition job_ran (cc : Z) (rid : string) (n : Z) (w : World) (n' : Z) (w' : World)
    (ps : list (list Obs.t)) : Prop :=
  exists new,
    committed w' = committed w ++ new /\ pending w' = [] /\
    map DataDump.data new = map DataDump.Page ps /\
    n' = n + Z.of_nat (length ps) /\
    (ps = [] -> statuses w' = statuses w /\ flags w' = flags w) /\
    (ps <> [] ->
     exists st, statuses w !! rid = Some st /\
       statuses w' = <[rid := mkStatus (startTime st) (Some (n' - 1, cc))]> (statuses w) /\
       flags w' = <[rid +:+ "_suppresscleanup" := (true, 10800)]> (flags w)).

(** ** The node metadata endpoint *)

(** The JSON document of a metadata response: [json_response_base(args,
    data, args.data)] sent with status 200. *)
Record MetaResponse (A : Type) := mkMeta {
  meta_code : Z;
  meta_warnings : list string;
  meta_echo : gmap string value;
  meta_objects : list A
}.
Arguments mkMeta {A}.
Arguments meta_code {A}.
Arguments meta_warnings {A}.
Arguments meta_echo {A}.
Arguments meta_objects {A}.

Section NodeMetadata.

(** [format_node_metadata]: the GeoJSON feature made of a node's
    columns, its sensors and its location read by shapely. *)
Variable node_response : Type.
Variable format_node_metadata : NodeMeta.t -> node_response.

(** [_get_node_metadata]: the null arguments are dropped first, then
    [nodes] is popped when the request did not send it. *)
Definition _get_node_metadata (pg : Postgres) (ra : gmap string (list string))
    (args : ValidatorResult) : result (MetaResponse node_response) :=
  let q := node_metadata_query pg args in
  let data_ := map format_node_metadata (node_query_all pg q) in
  let d := drop_null_args (data args) in
  let! d := pop_unless_requested ra "nodes" d in
  Ok (mkMeta 200 (warnings args) d data_).

End NodeMetadata.

(** * The catalog models ([plenario/models/SensorNetwork.py]) *)

Module Models.

(** A node with the sensors related to it, a network with its nodes,
    and a feature with its networks and its observed properties, each
    a [{"name": ..., "type": ...}]. *)
Record Node := mkNode {
  node : NodeMeta.t;
  sensors : list Sensor.t
}.

Record Network := mkNetwork {
  name : string;
  nodes : list Node
}.

Record Feature := mkFeature {
  feature_name : string;
  networks : list Network;
  observed_properties : list (string * string)
}.

(** A dict comprehension [{k: v for ...}]: a later item replaces an
    earlier one that has the same key. *)
Definition dict {V} (items : list (string * V)) : gmap string V :=
  list_to_map (reverse items).

Definition values {V} (d : gmap string V) : list V := (map_to_list d).*2.

(** [{e.split('.')[0] for e in keys}] *)
Definition prefixes (keys : gset string) : gset string :=
  set_map (PyStr.split_head "."%char) keys.

(** [SensorMeta.tree] and [SensorMeta.features] *)
Definition SensorMeta_tree (s : Sensor.t) : gmap string string :=
  dict (map (fun kv => (snd kv, fst kv)) (Sensor.observed_properties s)).

Definition SensorMeta_features (s : Sensor.t) : gset string :=
  prefixes (dom (SensorMeta_tree s)).

(** [NodeMeta.tree] *)
Definition NodeMeta_tree (n : Node) : gmap string (gmap string string) :=
  dict (map (fun s => (Sensor.name s, SensorMeta_tree s)) (sensors n)).

(** [NetworkMeta.tree] and [NetworkMeta.features] *)
Definition NetworkMeta_tree (net : Network)
    : gmap string (gmap string (gmap string string)) :=
  dict (map (fun n => (NodeMeta.id (node n), NodeMeta_tree n)) (nodes net)).

Definition NetworkMeta_features (net : Network) : gset string :=
  prefixes
    (⋃ ((fun sensor : gmap string (gmap string string) =>
           ⋃ (dom <$> values sensor)) <$> values (NetworkMeta_tree net))).

(** [FeatureMeta.sensors]: the sensors that report on the feature. *)
Definition FeatureMeta_sensors (f : Feature) : gset string :=
  ⋃ ((fun network =>
        ⋃ ((fun node_ : gmap string (gmap string string) =>
              dom (filter (fun kv => feature_name f ∈ prefixes (dom (snd kv))) node_))
           <$> values (NetworkMeta_tree network)))
     <$> networks f).










(** Node ids are unique in a network and sensor names on a node, as
    their primary keys make them. *)
Definition keyed (net : Network) : Prop :=
  NoDup (map (fun n => NodeMeta.id (node n)) (nodes net)) /\
  Forall (fun n => NoDup (map Sensor.name (sensors n))) (nodes net).

End Models.

(** * Detail responses ([plenario/api/response.py])

    The rows of a query result are dicts; they are kept as the list of
    their items in insertion order, which is the order of [keys()] and
    [values()]. *)

Module Detail.

(** A cell of a result row: a plain value, or a geometry element whose
    [desc] is its WKB in hex. *)
Inductive cell :=
| Val (v : value)
| WKB (desc : string).

(** A result row. *)
Abbreviation row := (list (string * cell)).

(** The value a row holds under a key. *)
Fixpoint item (name : string) (r : row) : option cell :=
  match r with
  | [] => None
  | (k, v) :: r' => if bool_decide (k = name) then Some v else item name r'
  end.

Definition without (name : string) (r : row) : row :=
  filter (fun kv => fst kv <> name) r.

(** [del row[name]] *)
Definition delitem (r : row) (name : string) : result row :=
  match item name r with
  | Some _ => Ok (without name r)
  | None => Raise (KeyError name)
  end.

(** [row.pop(name)]: the value with the row that is left. *)
Definition pop (r : row) (name : string) : result (cell * row) :=
  match item name r with
  | Some v => Ok (v, without name r)
  | None => Raise (KeyError name)
  end.

(** [try: del row[name] except KeyError: pass] *)
Definition try_del (r : row) (name : string) : result row :=
  match delitem r name with
  | Ok r' => Ok r'
  | Raise (KeyError _) => Ok r
  | Raise e => Raise e
  end.

Fixpoint remove_columns_from_row (r : row) (col_names : list string) : result row :=
  match col_names with
  | [] => Ok r
  | name :: rest =>
      let! r := try_del r name in
      remove_columns_from_row r rest
  end.

(** [remove_columns_from_dict]: the rows as the loop leaves them. *)
Fixpoint remove_columns_from_dict (rows : list row) (col_names : list string)
    : result (list row) :=
  match rows with
  | [] => Ok []
  | r :: rest =>
      let! r := remove_columns_from_row r col_names in
      let! rest := remove_columns_from_dict rest col_names in
      Ok (r :: rest)
  end.

(** The JSON document of a detail response with its status and
    content type. *)
Record JsonResponse := mkJson {
  json_status : Z;
  json_content_type : string;
  meta_status : string;
  meta_message : list string;
  meta_query : gmap string (list string);
  meta_total : Z;
  objects : list row
}.

(** [form_json_detail_response]: [json_response_base(validator, rows)]
    with [meta.total] and [meta.query] set. *)
Definition form_json_detail_response (ra : gmap string (list string))
    (to_remove : list string) (validator : ValidatorResult) (rows : list row)
    : result JsonResponse :=
  let to_remove := to_remove ++ ["geom"] in
  let! rows := remove_columns_from_dict rows to_remove in
  Ok (mkJson 200 "application/json" "ok" (warnings validator) ra
             (Z.of_nat (length rows)) rows).

Record CsvResponse := mkCsv {
  csv_status : Z;
  csv_body : string;
  csv_content_type : string;
  csv_content_disposition : string
}.

(** [csv_resp], the lines handed to [make_csv]. *)
Definition csv_lines (rows : list row) : list (list cell) :=
  match rows with
  | [] => [[Val (VStr "Sorry! Your query did not return any results.")];
           [Val (VStr "Try to modify your date or location parameters.")]]
  | first :: _ => map (fun kv => Val (VStr (fst kv))) first :: map (map snd) rows
  end.

(** [reduce(f, names)] without an initial value. *)
Definition reduce (f : string -> string -> string) (names : option (list string))
    : result string :=
  match names with
  | None => Raise (TypeError "reduce() arg 2 must support iteration")
  | Some [] => Raise (TypeError "reduce() of empty sequence with no initial value")
  | Some (x :: l) => Ok (foldl f x l)
  end.

(** [request.args.get(k)] *)
Definition request_get (ra : gmap string (list string)) (k : string) : option string :=
  ra !! k ≫= head.

Record Feature (geometry : Type) := mkFeature {
  feature_geometry : geometry;
  feature_properties : row
}.
Arguments mkFeature {geometry}.
Arguments feature_geometry {geometry}.
Arguments feature_properties {geometry}.

Record GeoResponse (geometry : Type) := mkGeo {
  geo_status : Z;
  geo_content_type : string;
  features : list (Feature geometry)
}.
Arguments mkGeo {geometry}.
Arguments geo_status {geometry}.
Arguments geo_content_type {geometry}.
Arguments features {geometry}.

Inductive response (geometry : Type) :=
| Json (r : JsonResponse)
| Csv (r : CsvResponse)
| GeoJson (r : GeoResponse geometry).
Arguments Json {geometry}.
Arguments Csv {geometry}.
Arguments GeoJson {geometry}.

Section Formats.

(** [make_csv] of [plenario.api.common], the geometries of shapely and
    [shapely.wkb.loads(desc, hex=True).__geo_interface__], and the
    date [datetime.now().strftime('%Y-%m-%d')]. *)
Variable make_csv : list (list cell) -> string.
Variable geometry : Type.
Variable wkb_loads : string -> result geometry.
Variable today : string.

Definition form_csv_detail_response (ra : gmap string (list string))
    (to_remove : list string) (rows : list row) (dataset_names : option (list string))
    : result CsvResponse :=
  let to_remove := to_remove ++ ["geom"] in
  let! rows := remove_columns_from_dict rows to_remove in
  let body := make_csv (csv_lines rows) in
  let! dname :=
    match request_get ra "dataset_name" with
    | Some dname => Ok dname
    | None => reduce (fun name1 name2 => name1 +:+ "_and_" +:+ name2) dataset_names
    end in
  Ok (mkCsv 200 body "text/csv"
            ("attachment; filename=" +:+ dname +:+ "_" +:+ today +:+ ".csv")).

(** [convert_result_geoms]: a row without [geom] ([KeyError]) or whose
    [geom] has no [desc] ([AttributeError]) is passed over, as is one
    on which reading the geometry raises either of the two. *)
Fixpoint convert_result_geoms (rows : list row) : result (list (Feature geometry)) :=
  match rows with
  | [] => Ok []
  | r :: rest =>
      match pop r "geom" with
      | Ok (WKB desc, r') =>
          match wkb_loads desc with
          | Ok geom =>
              let! fs := convert_result_geoms rest in
              Ok (mkFeature geom r' :: fs)
          | Raise (KeyError _) | Raise (AttributeError _) => convert_result_geoms rest
          | Raise e => Raise e
          end
      | Ok (Val _, _) => convert_result_geoms rest
      | Raise (KeyError _) | Raise (AttributeError _) => convert_result_geoms rest
      | Raise e => Raise e
      end
  end.

Definition form_geojson_detail_response (to_remove : list string) (rows : list row)
    : result (GeoResponse geometry) :=
  let! rows := remove_columns_from_dict rows to_remove in
  let! fs := convert_result_geoms rows in
  Ok (mkGeo 200 "application/json" fs).

(** [detail_response]: [None] when [data_type] is none of the three. *)
Definition detail_response (ra : gmap string (list string)) (query_result : list row)
    (query_args : ValidatorResult) : result (option (response geometry)) :=
  let to_remove := ["point_date"; "hash"] in
  let! data_type := getitem (data query_args) "data_type" in
  if bool_decide (data_type = VStr "json") then
    let! r := form_json_detail_response ra to_remove query_args query_result in
    Ok (Some (Json r))
  else if bool_decide (data_type = VStr "csv") then
    let! r := form_csv_detail_response ra to_remove query_result None in
    Ok (Some (Csv r))
  else if bool_decide (data_type = VStr "geojson") then
    let! r := form_geojson_detail_response to_remove query_result in
    Ok (Some (GeoJson r))
  else Ok None.

End Formats.

(** [_shape_format_to_content_header] and
    [_shape_format_to_file_extension]: [format_map[requested_format]]. *)
Definition _shape_format_to_content_header (requested_format : string) : option string :=
  (list_to_map [("json", "application/json");
                ("kml", "application/vnd.google-earth.kml+xml");
                ("shapefile", "application/zip")] : gmap string string)
    !! requested_format.

Definition _shape_format_to_file_extension (requested_format : string) : option string :=
  (list_to_map [("json", "json"); ("kml", "kml"); ("shapefile", "zip")]
     : gmap string string) !! requested_format.

(** The files on disk, by path. *)
Abbreviation files := (gmap string string).

Record ExportResponse := mkExport {
  export_status : Z;
  export_body : string;
  export_content_type : option string;
  export_content_disposition : option string
}.

Section ShapeExport.

(** [OgrExport(format, path, name, query).write_file()], which may
    fail and may leave files behind, and
    [ShapeMetadata.get_by_dataset_name(name).human_name]; [None] is
    any exception. *)
Variable write_file : string -> string -> string -> files -> option unit * files.
Variable human_name : string -> option string.

(** The [try] block of [export_dataset_to_response]. *)
Definition export_attempt (export_format export_path shapeset_name : string)
    (fs : files) : option ExportResponse * files :=
  match write_file export_format export_path shapeset_name fs with
  | (None, fs) => (None, fs)
  | (Some _, fs) =>
      (content ← fs !! export_path;
       extension ← _shape_format_to_file_extension export_format;
       shapemeta_human_name ← human_name shapeset_name;
       content_type ← _shape_format_to_content_header export_format;
       Some (mkExport 200 content (Some content_type)
               (Some ("attachment; filename='" +:+ shapemeta_human_name +:+ "."
                      +:+ extension +:+ "'"))),
       fs)
  end.

(** [export_dataset_to_response]; [tmp] is the name of the temporary
    file, which is closed, and so removed, before the export. *)
Definition export_dataset_to_response (tmp : string) (shapeset_name data_type : string)
    (fs : files) : ExportResponse * files :=
  let export_format := PyStr.lower data_type in
  let export_path := tmp in
  let fs := delete export_path fs in
  let '(outcome, fs) := export_attempt export_format export_path shapeset_name fs in
  let resp :=
    match outcome with
    | Some resp => resp
    | None => mkExport 500 ("Failed to export shape dataset " +:+ shapeset_name)
                       None None
    end in
  let fs := if bool_decide (is_Some (fs !! export_path)) then delete export_path fs
            else fs in
  (resp, fs).

End ShapeExport.

(** The rows that become features: those holding a geometry element
    under [geom]. *)
Definition geom_desc (r : row) : option string :=
  match item "geom" r with
  | Some (WKB desc) => Some desc
  | _ => None
  end.

End Detail.

(** * The dataset form ([plenario/views.py]) *)

Module EditDatasetForm.

(** A text field: its [data] and the [errors] collected on it. *)
Record Field := mkField {
  field_data : value;
  field_errors : list string
}.

(** The three fields [validate] reads; the others are checked by
    their [DataRequired] validators in [Form.validate]. *)
Record t := mk {
  latitude : Field;
  longitude : Field;
  location : Field
}.

Definition append (f : Field) (msg : string) : Field :=
  mkField (field_data f) (field_errors f ++ [msg]).

Definition location_required : string :=
  "You must either provide a Latitude and Longitude field name or a Location field name".

Definition both_required : string :=
  "You must provide both a Latitude field name and a Longitude field name".

Section Validate.

(** [Form.validate(self)] of wtforms: its verdict and the form with
    the errors of the field validators. *)
Variable Form_validate : t -> bool * t.

Definition validate (self : t) : bool * t :=
  let '(rv, self) := Form_validate self in
  if negb rv then (false, self)
  else
    let valid := true in
    let '(valid, self) :=
      if negb (truthy (field_data (location self)))
         && negb (truthy (field_data (latitude self)))
         && negb (truthy (field_data (longitude self)))
      then (false, mk (latitude self) (longitude self)
                      (append (location self) location_required))
      else (valid, self) in
    let '(valid, self) :=
      if truthy (field_data (longitude self))
         && negb (truthy (field_data (latitude self)))
      then (false, mk (append (latitude self) both_required) (longitude self)
                      (location self))
      else (valid, self) in
    let '(valid, self) :=
      if truthy (field_data (latitude self))
         && negb (truthy (field_data (longitude self)))
      then (false, mk (latitude self) (append (longitude self) both_required)
                      (location self))
      else (valid, self) in
    (valid, self).

End Validate.

End EditDatasetForm.

(** Whether a character occurs in a string. *)
Fixpoint occurs (c : ascii) (s : string) : bool :=
  match s with
  | EmptyString => false
  | String c' s' => Ascii.eqb c' c || occurs c s'
  end.

(** The argument bag [get_observations] hands to the validator. *)
Definition observation_args (ra : gmap string (list string)) (network_name : string)
    : gmap string value :=
  split_lower "sensors"
    (split_lower "features_of_interest"
       (split_lower "nodes" (<["network_name" := VStr network_name]> (to_dict ra)))).

(** The argument bag [set_sensor_datadump] hands to the validator. *)
Definition datadump_args (ra : gmap string (list string)) (network_name : string)
    : gmap string value :=
  split_lower "features_of_interest"
    (split_lower "sensors"
       (split_lower "nodes"
          (<["network_name" := VStr (PyStr.lower network_name)]> (to_dict ra)))).

(** The features the planner reflects tables for: the requested ones
    that the target sensors report on. *)
Definition candidate_features (pg : Postgres) (fs ss : list string) : list string :=
  intersect_features fs
    (concat (map sensor_features
                 (filter (fun s => PyStr.lower (Sensor.name s) ∈ ss) (sensor_rows pg)))).

(** ** Scenarios

    Concrete catalogs, warehouses and requests on which the functions
    above are evaluated. *)

Module Scenario.

(** Modelled from the spec: [fast_count] of [plenario.database], the
    row-count estimate of a query; here the true count of the rows that
    match its filters. *)
Definition fast_count (q : Query.t) : Z :=
  Z.of_nat (length (filter (fun r => Query.where_ q r = true)
                           (Table.rows (Query.from q)))).

(** Modelled from the spec: [windowed_query] of [plenario.database],
    the rows of the query in pages ordered by the column (datetime). *)
Definition windowed_query (q : Query.t) (column : string) (windowsize : Z)
    : list ObsRow.t :=
  py_sort (fun r => dt_key (ObsRow.datetime r)) (Query.all q).

Definition row (feature node : string) (d : datetime) (v : Z) : ObsRow.t :=
  ObsRow.mk node d 1 "tmp112" [(feature, VInt v)].

Definition feature_table (feature : string) (rows : list ObsRow.t) : Table.t :=
  Table.mk feature ["node_id"; "datetime"; "meta_id"; "sensor"; feature] rows.

Definition temperature : Table.t :=
  feature_table "temperature"
    [row "temperature" "n1" (mkDatetime 2016 1 1 10 0 0 0) 20;
     row "temperature" "n2" (mkDatetime 2016 1 1 9 0 0 0) 21;
     row "temperature" "n1" (mkDatetime 2016 1 2 0 0 0 0) 22].

Definition humidity : Table.t :=
  feature_table "humidity"
    [row "humidity" "n1" (mkDatetime 2016 1 1 10 0 0 0) 55;
     row "humidity" "n1" (mkDatetime 2015 12 31 23 59 59 0) 50].

(** Network [aot] with two nodes and one sensor reporting on two
    features; a third node belongs to another network.  PostGIS is
    stood in for: a location lies within a geometry that is this very
    point. *)
Definition pg : Postgres :=
  mkPostgres
    [NodeMeta.mk "n1" "aot" "POINT(0 0)"; NodeMeta.mk "n2" "aot" "POINT(1 1)";
     NodeMeta.mk "x9" "other" "POINT(2 2)"]
    [Sensor.mk "TMP112" [("temperature", "temperature.temperature");
                         ("humidity", "humidity.humidity")]]
    (fun location geojson => bool_decide (location = geojson)).

Definition rs : Redshift :=
  mkRedshift (<["temperature" := temperature]> (<["humidity" := humidity]> ∅)).

(** The warehouse without the [temperature] table. *)
Definition rs_without_temperature : Redshift :=
  mkRedshift (<["humidity" := humidity]> ∅).

(** A validated argument bag for the first of January 2016. *)
Definition bag (features : list string) (limit offset : Z) : gmap string value :=
  list_to_map
    [("network_name", VStr "aot"); ("nodes", VNone); ("node_id", VNone);
     ("geom", VNone);
     ("start_datetime", VStr "2016-01-01T00:00:00");
     ("end_datetime", VStr "2016-01-02T00:00:00");
     ("features_of_interest", VList features); ("sensors", VList ["tmp112"]);
     ("limit", VInt limit); ("offset", VInt offset)].

Definition args (features : list string) (limit offset : Z) : ValidatorResult :=
  mkArgs (bag features limit offset) [] [].

(** The query string [?features_of_interest=...]. *)
Definition ra (features : string) : gmap string (list string) :=
  <["features_of_interest" := [features]]> ∅.

(** A stand-in for the sensor validator on these requests: it keeps
    what the caller sent and fills in the defaults of [bag]. *)
Definition validate (sent : gmap string value) : ValidatorResult :=
  mkArgs (sent ∪ bag [] 1000 0) [] [].

(** A job: the bag with what the jobs framework adds. *)
Definition job_args (features : list string) (limit : value) : ValidatorResult :=
  mkArgs (<["limit" := limit]>
            (<["jobsframework_ticket" := VStr "ticket"]>
               (<["jobsframework_workerid" := VStr "worker-1"]>
                  (<["datadump_urlroot" := VStr "http://host/"]>
                     (bag features 1000 0)))))
         [] [].

(** A world in which the job was registered and nothing is stored. *)
Definition world (faults : list bool) : World :=
  mkWorld [] [] (<["ticket" := mkStatus "2016-06-01 12:00:00" None]> ∅) ∅
          faults ["id1"; "id2"; "id3"] "2016-06-01 12:00:05".

(** What the planner answers on a request for both features. *)
Definition plan_of (r : result (ValidatorResult * planned)) : list (Query.t * Table.t) :=
  match r with
  | Ok (_, Plan qs) => qs
  | _ => []
  end.

Definition args_of (r : result (ValidatorResult * planned)) : ValidatorResult :=
  match r with
  | Ok (a, _) => a
  | _ => mkArgs ∅ [] []
  end.

Definition both_features : result (ValidatorResult * planned) :=
  get_observation_queries pg rs (ra "temperature,humidity")
                          (args ["temperature"; "humidity"] 1000 0).

Definition response_of (r : result Response) : Response :=
  match r with
  | Ok resp => resp
  | Raise _ => mkResponse 0 EmptyString VNone ∅ []
  end.



(** The request for temperature when no sensor of the catalog is asked for. *)
Definition args_no_sensor : ValidatorResult :=
  mkArgs (<["sensors" := VList ["nosuchsensor"]]> (bag ["temperature"] 1000 0)) [] [].

Definition no_sensor : result (ValidatorResult * planned) :=
  get_observation_queries pg rs (ra "temperature") args_no_sensor.

(** The same request with a stray [geom] parameter in the query string. *)
Definition ra_with_geom : gmap string (list string) :=
  <["geom" := ["POINT(0 0)"]]> (ra "temperature,humidity").

Definition geom_response : Response :=
  response_of (run_observation_queries [] ra_with_geom
                 (args_of both_features) (Plan (plan_of both_features))).

(** The response to the request for both features under a schedule. *)
Definition both_response (sched : list nat) : Response :=
  response_of (run_observation_queries sched (ra "temperature,humidity")
                 (args_of both_features) (Plan (plan_of both_features))).

(** The job for temperature run with a given [limit] and commit faults. *)
Definition job_run (limit : value) (faults : list bool) : result string * World :=
  get_observation_datadump fast_count windowed_query pg rs (ra "temperature")
    (job_args ["temperature"] limit) (world faults).

End Scenario.

(** * Properties *)

(** ** The stable sort *)

Section SortFacts.
Context {A : Type} (key : A -> Z).

Lemma ins_perm x l : ins key x l ≡ₚ x :: l.
Proof.
  induction l as [|y l IH]; simpl; [done|].
  destruct (key x <=? key y); [done|].
  rewrite IH. apply Permutation_swap.
Qed.

Lemma py_sort_perm l : py_sort key l ≡ₚ l.
Proof.
  induction l as [|x l IH]; simpl; [done|].
  by rewrite ins_perm, IH.
Qed.




(** Stability: records with one and the same key keep their order. *)
Lemma ins_stable k x l :
  filter (fun y => key y = k) (ins key x l) =
  filter (fun y => key y = k) (x :: l).
Proof.
  induction l as [|y l IH]; simpl; [done|].
  destruct (Z.leb_spec (key x) (key y)); [done|].
  rewrite filter_cons, IH, !filter_cons.
  repeat case_decide; try done; lia.
Qed.

Lemma py_sort_stable k l :
  filter (fun y => key y = k) (py_sort key l) = filter (fun y => key y = k) l.
Proof.
  induction l as [|x l IH]; simpl; [done|].
  rewrite ins_stable, !filter_cons, IH. done.
Qed.


End SortFacts.

(** ** The fan-out *)

Lemma concat_insert_pop {A} (bufs : list (list A)) i x rest :
  bufs !! i = Some (x :: rest) ->
  concat bufs ≡ₚ x :: concat (<[i := rest]> bufs).
Proof.
  revert i. induction bufs as [|b bufs IH]; intros [|i] Hi; simplify_eq/=.
  - done.
  - rewrite (IH _ Hi). by rewrite Permutation_middle.
Qed.

(** Whatever the schedule, the joined threads have appended exactly
    the rows of all the queries. *)
Lemma fan_out_perm {A} (sched : list nat) (bufs : list (list A)) :
  fan_out sched bufs ≡ₚ concat bufs.
Proof.
  revert bufs. induction sched as [|i sched IH]; intros bufs; simpl; [done|].
  destruct (bufs !! i) as [[|x rest]|] eqn:Hi; try apply IH.
  rewrite IH. symmetry. by apply concat_insert_pop.
Qed.


(** ** Printing and reading datetimes *)

Module PyStrFacts.
Import PyStr.

Lemma append_cons c (a b : string) : String c a +:+ b = String c (a +:+ b).
Proof. reflexivity. Qed.

Lemma append_nil_l (a : string) : EmptyString +:+ a = a.
Proof. reflexivity. Qed.

Lemma append_assoc (a b c : string) : (a +:+ b) +:+ c = a +:+ (b +:+ c).
Proof.
  induction a as [|x a IH]; [done|]. by rewrite !append_cons, IH.
Qed.

Lemma append_nil_r (a : string) : a +:+ EmptyString = a.
Proof.
  induction a as [|x a IH]; [done|]. by rewrite append_cons, IH.
Qed.

Lemma digit_code n : nat_of_ascii (digit n) = Z.to_nat (48 + n mod 10).
Proof.
  unfold digit. apply nat_ascii_embedding.
  pose proof (Z.mod_pos_bound n 10). lia.
Qed.

Lemma digit_is_digit n : is_digit (digit n) = true.
Proof.
  unfold is_digit. rewrite digit_code.
  pose proof (Z.mod_pos_bound n 10).
  apply andb_true_intro; split; apply Nat.leb_le; lia.
Qed.

Lemma all_digits_app a b : all_digits (a +:+ b) = all_digits a && all_digits b.
Proof.
  induction a as [|x a IH]; [done|].
  rewrite append_cons. simpl. by rewrite IH, andb_assoc.
Qed.

Lemma all_digits_pad w n : all_digits (pad w n) = true.
Proof.
  revert n. induction w as [|w IH]; intros n; simpl; [done|].
  rewrite all_digits_app, IH. simpl. by rewrite digit_is_digit.
Qed.

Lemma all_digits_no_plus s : all_digits s = true -> no_plus s = true.
Proof.
  induction s as [|c s IH]; simpl; [done|].
  intros [Hc Hs]%andb_prop. rewrite IH by done.
  destruct (Ascii.eqb_spec c "+"%char) as [->|]; [done|done].
Qed.

Lemma no_plus_pad w n : no_plus (pad w n) = true.
Proof. apply all_digits_no_plus, all_digits_pad. Qed.

Lemma no_plus_app a b : no_plus (a +:+ b) = no_plus a && no_plus b.
Proof.
  induction a as [|x a IH]; [done|].
  rewrite append_cons. simpl. by rewrite IH, andb_assoc.
Qed.

Lemma split_head_no_plus s : no_plus s = true -> split_head "+"%char s = s.
Proof.
  unfold split_head. induction s as [|c s IH]; simpl; [done|].
  intros [Hc Hs]%andb_prop. apply negb_true_iff in Hc. rewrite Hc.
  specialize (IH Hs). destruct (split "+"%char s); by simplify_eq.
Qed.

Lemma pad_nonempty w n : (0 < w)%nat -> pad w n <> EmptyString.
Proof.
  destruct w; [lia|]. simpl. intros _. by destruct (pad w (n / 10)).
Qed.

Lemma length_append (a b : string) :
  String.length (a +:+ b) = (String.length a + String.length b)%nat.
Proof.
  induction a as [|x a IH]; [done|]. rewrite append_cons. simpl. by rewrite IH.
Qed.

Lemma length_pad w n : String.length (pad w n) = w.
Proof.
  revert n. induction w as [|w IH]; intros n; simpl; [done|].
  rewrite length_append, IH. simpl. lia.
Qed.

Lemma runs_digits cur ds rest :
  all_digits ds = true ->
  digit_runs_aux cur (ds +:+ rest) = digit_runs_aux (cur +:+ ds) rest.
Proof.
  revert cur. induction ds as [|c ds IH]; intros cur.
  - by rewrite append_nil_r.
  - simpl all_digits. intros [Hc Hs]%andb_prop.
    rewrite append_cons. simpl digit_runs_aux. rewrite Hc, IH by done.
    by rewrite append_assoc.
Qed.

Lemma runs_field w n c rest :
  (0 < w)%nat -> is_digit c = false ->
  digit_runs_aux EmptyString (pad w n +:+ String c rest) =
  pad w n :: digit_runs_aux EmptyString rest.
Proof.
  intros Hw Hc. rewrite runs_digits by apply all_digits_pad.
  rewrite append_nil_l. simpl.
  rewrite Hc. pose proof (pad_nonempty w n Hw). by destruct (pad w n).
Qed.

Lemma runs_last w n :
  (0 < w)%nat -> digit_runs_aux EmptyString (pad w n) = [pad w n].
Proof.
  intros Hw. rewrite <- (append_nil_r (pad w n)) at 1.
  rewrite runs_digits by apply all_digits_pad.
  rewrite append_nil_l. simpl.
  pose proof (pad_nonempty w n Hw). by destruct (pad w n).
Qed.

Lemma Z_of_digits_aux_app acc a b :
  Z_of_digits_aux acc (a +:+ b) = Z_of_digits_aux (Z_of_digits_aux acc a) b.
Proof.
  revert acc. induction a as [|x a IH]; intros acc; [done|].
  rewrite append_cons. simpl. by rewrite IH.
Qed.

Lemma Z_of_digits_aux_pad w n acc :
  0 <= n < 10 ^ Z.of_nat w ->
  Z_of_digits_aux acc (pad w n) = acc * 10 ^ Z.of_nat w + n.
Proof.
  revert n acc. induction w as [|w IH]; intros n acc Hn; simpl pad.
  - simpl in *. change (10 ^ 0) with 1 in Hn. lia.
  - rewrite Z_of_digits_aux_app. simpl. rewrite digit_code.
    rewrite Nat2Z.inj_succ, Z.pow_succ_r in * by lia.
    rewrite IH.
    + pose proof (Z.mod_pos_bound n 10). pose proof (Z.div_mod n 10).
      rewrite Z2Nat.id by lia. lia.
    + split; [apply Z.div_pos; lia|]. apply Z.div_lt_upper_bound; lia.
Qed.

Lemma Z_of_digits_pad w n :
  0 <= n < 10 ^ Z.of_nat w -> Z_of_digits (pad w n) = n.
Proof. intros H. unfold Z_of_digits. rewrite Z_of_digits_aux_pad by done. lia. Qed.

Lemma Z_of_digits_pad2 n : 0 <= n < 100 -> Z_of_digits (pad 2 n) = n.
Proof. intros. by apply Z_of_digits_pad. Qed.

Lemma Z_of_digits_pad4 n : 0 <= n < 10000 -> Z_of_digits (pad 4 n) = n.
Proof. intros. by apply Z_of_digits_pad. Qed.

Lemma Z_of_digits_pad6 n : 0 <= n < 1000000 -> Z_of_digits (pad 6 n) = n.
Proof. intros. by apply Z_of_digits_pad. Qed.

Lemma take_app_pad w n rest : take w (pad w n +:+ rest) = pad w n.
Proof.
  pose proof (length_pad w n) as Hl. revert Hl. generalize (pad w n) as s.
  induction w as [|w IH]; intros s Hl; destruct s; simpl in *; try done.
  by rewrite IH by lia.
Qed.

End PyStrFacts.

(** [parse] reads back what [format_observation] prints. *)
Lemma parse_isoformat d :
  printable d -> parse (PyStr.split_head "+"%char (isoformat d)) = d.
Proof.
  intros (Hy & Hmo & Hd & Hh & Hmi & Hs & Hus).
  assert (Hiso : PyStr.split_head "+"%char (isoformat d) = isoformat d).
  { apply PyStrFacts.split_head_no_plus. unfold isoformat.
    rewrite !PyStrFacts.no_plus_app, !PyStrFacts.no_plus_pad.
    destruct (microsecond d =? 0); [done|].
    by rewrite PyStrFacts.no_plus_app, PyStrFacts.no_plus_pad. }
  rewrite Hiso. unfold parse, isoformat, PyStr.digit_runs.
  rewrite !PyStrFacts.append_cons, !PyStrFacts.append_nil_l.
  rewrite !PyStrFacts.runs_field by (done || lia).
  destruct d as [y mo dd h mi s us].
  cbn [year month day hour minute second microsecond] in *.
  destruct (Z.eqb_spec us 0) as [->|Hne].
  - rewrite PyStrFacts.append_nil_r, PyStrFacts.runs_last by lia. cbn [nth].
    rewrite PyStrFacts.Z_of_digits_pad4, !PyStrFacts.Z_of_digits_pad2 by done.
    done.
  - rewrite PyStrFacts.runs_field by (done || lia).
    rewrite PyStrFacts.runs_last by lia. cbn [nth].
    rewrite PyStrFacts.take_app_pad.
    rewrite PyStrFacts.Z_of_digits_pad4, !PyStrFacts.Z_of_digits_pad2,
      PyStrFacts.Z_of_digits_pad6 by done.
    done.
Qed.

(** ** The planner *)

Lemma bind_ok {A B} (r : result A) (k : A -> result B) b :
  bind r k = Ok b -> exists a, r = Ok a /\ k a = Ok b.
Proof. destruct r as [a|e]; simpl; [eauto|done]. Qed.

Ltac bind_inv H :=
  let a := fresh "a" in
  let Ha := fresh "Ha" in
  apply bind_ok in H as (a & Ha & H).

Lemma planner_data_other d sd ed nodes k :
  k <> "nodes" -> k <> "end_dt" -> k <> "start_dt" ->
  planner_data d sd ed nodes !! k = d !! k.
Proof.
  intros. unfold planner_data. by rewrite !lookup_insert_ne.
Qed.

Lemma node_metadata_query_ext pg a1 a2 :
  (forall k, k ∈ ["network_name"; "node_id"; "nodes"; "geom"] ->
             data a1 !! k = data a2 !! k) ->
  forall n, node_metadata_query pg a1 n = node_metadata_query pg a2 n.
Proof.
  intros H n. unfold node_metadata_query, get.
  rewrite !H by set_solver. done.
Qed.

Lemma planner_inv pg rs ra args args' p :
  get_observation_queries pg rs ra args = Ok (args', p) ->
  exists sd ed features sensors,
    data args' = planner_data (data args) sd ed (resolved_nodes pg args) /\
    errors args' = errors args /\ warnings args' = warnings args /\
    data args !! "features_of_interest" = Some (VList features) /\
    target_sensor_rows pg (get (data args) "sensors") = Ok sensors /\
    match load_tables rs
            (intersect_features features (concat (map sensor_features sensors))) with
    | inr table_name =>
        p = Refused (bad_request ra (VStr ("Table " +:+ table_name +:+ " not found")))
    | inl ts =>
        exists qs, build_queries args' (Z.of_nat (length ts)) ts = Ok qs /\ p = Plan qs
    end.
Proof.
  unfold get_observation_queries. intros H.
  bind_inv H. rename a into sd. bind_inv H. rename a into ed.
  bind_inv H. rename a into fv.
  bind_inv H. rename a into sensors. bind_inv H. rename a into features.
  simpl in *.
  assert (Hnodes :
    map (fun node => PyStr.lower (NodeMeta.id node))
      (node_query_all pg (node_metadata_query pg
         (set_data (set_data args (<["start_dt" := sd]> (data args)))
                   (<["end_dt" := ed]> (<["start_dt" := sd]> (data args))))))
    = resolved_nodes pg args).
  { unfold resolved_nodes, node_query_all. f_equal.
    apply list_filter_iff. intros n.
    erewrite node_metadata_query_ext; [done|].
    intros k Hk. simpl.
    apply list_elem_of_In in Hk. simpl in Hk.
    destruct Hk as [<-|[<-|[<-|[<-|[]]]]]; by rewrite !lookup_insert_ne. }
  rewrite Hnodes in *.
  unfold getitem in Ha1. rewrite !lookup_insert_ne in Ha1 by done.
  destruct (data args !! "features_of_interest") as [v|] eqn:Hf; [|done].
  simplify_eq. destruct fv; try done. simpl in Ha3. simplify_eq.
  unfold get in Ha2. rewrite !lookup_insert_ne in Ha2 by done.
  exists sd, ed, features, sensors.
  destruct (load_tables rs _) as [ts|name] eqn:Hl.
  - bind_inv H. simplify_eq. simpl. split_and!; try done. eauto.
  - simplify_eq. simpl. by split_and!.
Qed.

Lemma observation_query_ok args N table L O :
  data args !! "limit" = Some (VInt L) ->
  data args !! "offset" = Some (VInt O) ->
  N <> 0 ->
  observation_query args N table =
    Ok (Query.mk table (get (data args) "start_datetime") (get (data args) "end_datetime")
                 (filter_arg (get (data args) "nodes"))
                 (filter_arg (get (data args) "sensors"))
                 (L / N) (if O =? 0 then None else Some (O / N))).
Proof.
  intros HL HO HN. unfold observation_query, get, getitem, py_div.
  rewrite HL, HO. simpl.
  destruct (N =? 0) eqn:E; [lia|]. simpl.
  by destruct (O =? 0).
Qed.

Lemma build_queries_ok args N ts L O :
  data args !! "limit" = Some (VInt L) ->
  data args !! "offset" = Some (VInt O) ->
  N <> 0 ->
  build_queries args N ts =
    Ok (map (fun table =>
               (Query.mk table (get (data args) "start_datetime")
                         (get (data args) "end_datetime")
                         (filter_arg (get (data args) "nodes"))
                         (filter_arg (get (data args) "sensors"))
                         (L / N) (if O =? 0 then None else Some (O / N)), table)) ts).
Proof.
  intros HL HO HN. induction ts as [|t ts IH]; simpl; [done|].
  rewrite (observation_query_ok _ _ _ L O), IH by done. done.
Qed.

(** The plan of a request whose [limit] and [offset] are ints: one
    query per loaded table, all with the same bounds. *)
Lemma plan_shape pg rs ra args args' qs L O :
  data args !! "limit" = Some (VInt L) ->
  data args !! "offset" = Some (VInt O) ->
  get_observation_queries pg rs ra args = Ok (args', Plan qs) ->
  exists ts,
    qs = map (fun table =>
               (Query.mk table (get (data args) "start_datetime")
                         (get (data args) "end_datetime")
                         (filter_arg (VList (resolved_nodes pg args)))
                         (filter_arg (get (data args) "sensors"))
                         (L / Z.of_nat (length ts))
                         (if O =? 0 then None else Some (O / Z.of_nat (length ts))),
                table)) ts /\
    length qs = length ts.
Proof.
  intros HL HO H.
  apply planner_inv in H as (sd & ed & fs & ss & Hd & _ & _ & _ & _ & H).
  destruct (load_tables rs _) as [ts|]; [|done].
  destruct H as (qs' & Hb & [= <-]). exists ts.
  assert (Hget : forall k, k <> "nodes" -> k <> "end_dt" -> k <> "start_dt" ->
                           get (data args') k = get (data args) k).
  { intros k ???. unfold get. by rewrite Hd, planner_data_other. }
  assert (Hn : get (data args') "nodes" = VList (resolved_nodes pg args)).
  { unfold get. rewrite Hd. unfold planner_data. by rewrite lookup_insert_eq. }
  destruct ts as [|t ts].
  - simpl in Hb. simplify_eq. by split.
  - rewrite (build_queries_ok _ _ _ L O) in Hb.
    + injection Hb as <-. rewrite Hn, !Hget by done. split; [reflexivity|].
      simpl. by rewrite length_map.
    + by rewrite Hd, planner_data_other.
    + by rewrite Hd, planner_data_other.
    + simpl. lia.
Qed.

(** C6.  When the planner resolves N >= 1 tables for a request with
    limit L and offset O, each of the N queries has limit [L / N]
    (floor division) and carries the offset [O / N] exactly when O is
    not zero. *)
Theorem limit_offset_split_evenly pg rs ra args args' qs L O :
  data args !! "limit" = Some (VInt L) ->
  data args !! "offset" = Some (VInt O) ->
  get_observation_queries pg rs ra args = Ok (args', Plan qs) ->
  let N := Z.of_nat (length qs) in
  Forall (fun qt =>
            Query.limit (fst qt) = L / N /\
            Query.offset (fst qt) = (if O =? 0 then None else Some (O / N)) /\
            (is_Some (Query.offset (fst qt)) <-> O <> 0)) qs.
Proof.
  intros HL HO H N.
  destruct (plan_shape _ _ _ _ _ _ L O HL HO H) as (ts & -> & Hlen).
  subst N. rewrite Hlen. apply Forall_forall. intros qt Hin.
  apply list_elem_of_fmap in Hin as (t & -> & _). simpl.
  split_and!; try done.
  destruct (Z.eqb_spec O 0); split; intros Hx; try done.
Qed.

Lemma limit_offset_split_evenly_witness :
  let request := get_observation_queries Scenario.pg Scenario.rs
                   (Scenario.ra "temperature,humidity")
                   (Scenario.args ["temperature"; "humidity"] 1001 7) in
  request = Ok (Scenario.args_of request, Plan (Scenario.plan_of request)) /\
  length (Scenario.plan_of request) = 2%nat /\
  Forall (fun qt => Query.limit (fst qt) = 1001 / 2 /\
                    Query.offset (fst qt) = Some (7 / 2))
         (Scenario.plan_of request).
Proof.
  intros request.
  assert (Hplan : request = Ok (Scenario.args_of request, Plan (Scenario.plan_of request)))
    by (vm_compute; reflexivity).
  assert (HL : data (Scenario.args ["temperature"; "humidity"] 1001 7) !! "limit"
               = Some (VInt 1001)) by (vm_compute; reflexivity).
  assert (HO : data (Scenario.args ["temperature"; "humidity"] 1001 7) !! "offset"
               = Some (VInt 7)) by (vm_compute; reflexivity).
  assert (Hlen : length (Scenario.plan_of request) = 2%nat) by (vm_compute; reflexivity).
  split; [exact Hplan|]. split; [exact Hlen|].
  pose proof (limit_offset_split_evenly _ _ _ _ _ _ _ _ HL HO Hplan) as H.
  cbv zeta in H. rewrite Hlen in H.
  eapply Forall_impl; [exact H|]. intros qt (Hl & Ho & _). by split.
Defined.

(** ** The response of an observation query *)

Lemma run_observation_queries_ok sched ra args qs resp :
  run_observation_queries sched ra args (Plan qs) = Ok resp ->
  exists d,
    echo_data ra (data args) = Ok d /\
    meta_query resp = display_args ra d /\
    objects resp = py_sort sort_key (fan_out sched (map fetch_query_results qs)) /\
    status_code resp = 200.
Proof.
  unfold run_observation_queries. simpl.
  destruct (echo_data ra (data args)) as [d|e] eqn:Hd; simpl; [|done].
  intros [= <-]. by exists d.
Qed.




(** ** The time window *)

Lemma query_all_where (q : Query.t) (r : ObsRow.t) :
  r ∈ Query.all q -> r ∈ Table.rows (Query.from q) /\ Query.where_ q r = true.
Proof.
  unfold Query.all. intros Hin.
  apply subseteq_take, subseteq_drop in Hin.
  by apply list_elem_of_filter in Hin as [? ?].
Qed.

Lemma elem_of_concat {A} (x : A) (ls : list (list A)) :
  x ∈ concat ls <-> exists l, x ∈ l /\ l ∈ ls.
Proof.
  rewrite list_elem_of_In, in_concat. split.
  - intros (l & Hl & Hx). exists l. by rewrite !list_elem_of_In.
  - intros (l & Hx & Hl). exists l. by rewrite <- !list_elem_of_In.
Qed.

Lemma where_window (q : Query.t) (r : ObsRow.t) s e :
  Query.start_dt q = VStr s -> Query.end_dt q = VStr e ->
  Query.where_ q r = true ->
  dt_key (parse s) <= dt_key (ObsRow.datetime r) < dt_key (parse e).
Proof.
  unfold Query.where_. intros -> ->. simpl.
  intros [[[H1 H2]%andb_prop _]%andb_prop _]%andb_prop.
  apply Z.leb_le in H1. apply Z.ltb_lt in H2. lia.
Qed.

(** C5.  Every record of an observation response was formatted from a
    row of one of the planned tables whose datetime lies in
    [start_datetime, end_datetime): each query keeps the rows with
    [datetime >= start] and [datetime < end].  The datetime printed in
    the record, read back by the parser, is that of the row. *)
Theorem observations_within_window pg rs ra sched args args' qs resp s e :
  data args !! "start_datetime" = Some (VStr s) ->
  data args !! "end_datetime" = Some (VStr e) ->
  get_observation_queries pg rs ra args = Ok (args', Plan qs) ->
  run_observation_queries sched ra args' (Plan qs) = Ok resp ->
  Forall (fun qt => Query.start_dt (fst qt) = VStr s /\ Query.end_dt (fst qt) = VStr e) qs /\
  Forall (fun o =>
            exists qt row,
              qt ∈ qs /\ row ∈ Table.rows (snd qt) /\
              o = format_observation row (snd qt) /\
              dt_key (parse s) <= dt_key (ObsRow.datetime row) < dt_key (parse e) /\
              (printable (ObsRow.datetime row) ->
               parse (Obs.datetime o) = ObsRow.datetime row /\
               dt_key (parse s) <= sort_key o < dt_key (parse e)))
         (objects resp).
Proof.
  intros Hs He Hplan Hrun.
  assert (Hqs : Forall (fun qt => Query.start_dt (fst qt) = VStr s /\
                                  Query.end_dt (fst qt) = VStr e /\
                                  Query.from (fst qt) = snd qt) qs).
  { apply planner_inv in Hplan as (sd & ed & fs & ss & Hd & _ & _ & _ & _ & H).
    destruct (load_tables rs _) as [ts|]; [|done].
    destruct H as (qs' & Hb & [= <-]).
    assert (Hs' : get (data args') "start_datetime" = VStr s)
      by (unfold get; by rewrite Hd, planner_data_other, Hs).
    assert (He' : get (data args') "end_datetime" = VStr e)
      by (unfold get; by rewrite Hd, planner_data_other, He).
    clear Hd Hrun. generalize dependent qs.
    generalize (Z.of_nat (length ts)) as N.
    induction ts as [|t ts IH]; intros N qs Hb; simpl in Hb.
    - simplify_eq. constructor.
    - bind_inv Hb. bind_inv Hb. simplify_eq. constructor; [|by eapply IH].
      unfold observation_query in Ha. repeat bind_inv Ha. simplify_eq. simpl.
      by rewrite Hs', He'. }
  split; [eapply Forall_impl; [exact Hqs|]; by intros qt (? & ? & ?)|].
  apply run_observation_queries_ok in Hrun as (d & _ & _ & Ho & _).
  apply Forall_forall. intros o Hin.
  rewrite Ho, py_sort_perm, fan_out_perm in Hin.
  apply elem_of_concat in Hin as (l & Ho' & Hl).
  apply list_elem_of_fmap in Hl as (qt & -> & Hqt).
  unfold fetch_query_results in Ho'.
  apply list_elem_of_fmap in Ho' as (row & -> & Hrow).
  rewrite Forall_forall in Hqs. destruct (Hqs qt Hqt) as (Hqs1 & Hqe & Hfrom).
  apply query_all_where in Hrow as [Hrows Hw].
  pose proof (where_window _ _ _ _ Hqs1 Hqe Hw) as Hwin.
  exists qt, row. rewrite <- Hfrom at 1.
  do 4 (split; [done|]).
  intros Hp. unfold sort_key, format_observation. cbn [Obs.datetime].
  by rewrite parse_isoformat.
Qed.

Lemma observations_within_window_witness :
  run_observation_queries [0%nat; 1%nat] (Scenario.ra "temperature,humidity")
    (Scenario.args_of Scenario.both_features)
    (Plan (Scenario.plan_of Scenario.both_features))
  = Ok (Scenario.both_response [0%nat; 1%nat]) /\
  length (objects (Scenario.both_response [0%nat; 1%nat])) = 3%nat /\
  Forall (fun o =>
            exists qt row,
              qt ∈ Scenario.plan_of Scenario.both_features /\
              row ∈ Table.rows (snd qt) /\
              o = format_observation row (snd qt) /\
              dt_key (parse "2016-01-01T00:00:00") <= dt_key (ObsRow.datetime row)
              < dt_key (parse "2016-01-02T00:00:00") /\
              (printable (ObsRow.datetime row) ->
               parse (Obs.datetime o) = ObsRow.datetime row /\
               dt_key (parse "2016-01-01T00:00:00") <= sort_key o
               < dt_key (parse "2016-01-02T00:00:00")))
         (objects (Scenario.both_response [0%nat; 1%nat])).
Proof.
  assert (Hplan : get_observation_queries Scenario.pg Scenario.rs
                    (Scenario.ra "temperature,humidity")
                    (Scenario.args ["temperature"; "humidity"] 1000 0)
                  = Ok (Scenario.args_of Scenario.both_features,
                        Plan (Scenario.plan_of Scenario.both_features)))
    by (vm_compute; reflexivity).
  assert (Hrun : run_observation_queries [0%nat; 1%nat]
                   (Scenario.ra "temperature,humidity")
                   (Scenario.args_of Scenario.both_features)
                   (Plan (Scenario.plan_of Scenario.both_features))
                 = Ok (Scenario.both_response [0%nat; 1%nat]))
    by (vm_compute; reflexivity).
  assert (Hs : data (Scenario.args ["temperature"; "humidity"] 1000 0)
                 !! "start_datetime" = Some (VStr "2016-01-01T00:00:00"))
    by (vm_compute; reflexivity).
  assert (He : data (Scenario.args ["temperature"; "humidity"] 1000 0)
                 !! "end_datetime" = Some (VStr "2016-01-02T00:00:00"))
    by (vm_compute; reflexivity).
  split; [exact Hrun|]. split; [vm_compute; reflexivity|].
  exact (proj2 (observations_within_window _ _ _ _ _ _ _ _ _ _ Hs He Hplan Hrun)).
Defined.

(** ** The echoed query *)

Lemma pop_unless_requested_none ra k' d d' k :
  pop_unless_requested ra k' d = Ok d' -> d !! k = None -> d' !! k = None.
Proof.
  unfold pop_unless_requested, pop. intros H Hk.
  destruct (ra !! k'); [by simplify_eq|].
  destruct (d !! k'); simplify_eq.
  destruct (decide (k' = k)) as [->|]; [apply lookup_delete_eq|].
  by rewrite lookup_delete_ne.
Qed.

Lemma pop_unless_requested_popped ra k d d' :
  pop_unless_requested ra k d = Ok d' -> ra !! k = None -> d' !! k = None.
Proof.
  unfold pop_unless_requested, pop. intros H Hra. rewrite Hra in H.
  destruct (d !! k); simplify_eq. apply lookup_delete_eq.
Qed.

Lemma strip_if_requested_none ra k' d d' k :
  strip_if_requested ra k' d = Ok d' -> k <> k' -> d !! k = None -> d' !! k = None.
Proof.
  unfold strip_if_requested, getitem. intros H Hne Hk.
  destruct (ra !! k'); [|by simplify_eq].
  destruct (d !! k') as [[]|]; simplify_eq/=.
  by rewrite lookup_insert_ne.
Qed.

Lemma drop_null_args_none d k : d !! k = None -> drop_null_args d !! k = None.
Proof. intros H. unfold drop_null_args. by rewrite map_lookup_filter, H. Qed.

Lemma drop_null_args_some d k v : drop_null_args d !! k = Some v -> v <> VNone.
Proof.
  unfold drop_null_args. intros [_ H]%map_lookup_filter_Some. exact H.
Qed.

(** What [args.data] holds once it is cleaned for the echo. *)
Lemma echo_data_clean ra d0 d :
  echo_data ra d0 = Ok d ->
  (forall k v, d !! k = Some v -> v <> VNone) /\
  d !! "geom" = None /\
  (forall k, k ∈ ["nodes"; "features_of_interest"; "sensors"] ->
             ra !! k = None -> d !! k = None).
Proof.
  unfold echo_data. intros H.
  bind_inv H. rename a into d1. rename Ha into H1.
  bind_inv H. rename a into d2. rename Ha into H2.
  bind_inv H. rename a into d3. rename Ha into H3.
  bind_inv H. rename a into d4. rename Ha into H4.
  bind_inv H. rename a into d5. rename Ha into H5.
  injection H as <-.
  split; [intros k v; apply drop_null_args_some|].
  split.
  - apply drop_null_args_none.
    eapply strip_if_requested_none; [exact H5|done|].
    eapply strip_if_requested_none; [exact H4|done|].
    apply lookup_delete_eq.
  - intros k Hk Hra. apply drop_null_args_none.
    eapply strip_if_requested_none; [exact H5| |].
    { intros ->. apply list_elem_of_In in Hk. simpl in Hk.
      destruct Hk as [?|[?|[?|[]]]]; discriminate. }
    eapply strip_if_requested_none; [exact H4| |].
    { intros ->. apply list_elem_of_In in Hk. simpl in Hk.
      destruct Hk as [?|[?|[?|[]]]]; discriminate. }
    assert (Hd3 : d3 !! k = None).
    { apply list_elem_of_In in Hk. simpl in Hk.
      destruct Hk as [<-|[<-|[<-|[]]]].
      - eapply pop_unless_requested_none; [exact H3|].
        eapply pop_unless_requested_none; [exact H2|].
        by eapply pop_unless_requested_popped.
      - eapply pop_unless_requested_none; [exact H3|].
        by eapply pop_unless_requested_popped.
      - by eapply pop_unless_requested_popped. }
    destruct (decide (k = "geom")) as [->|]; [apply lookup_delete_eq|].
    by rewrite lookup_delete_ne.
Qed.

Lemma display_args_lookup ra d k :
  display_args ra d !! k =
  match d !! k with
  | Some v => Some v
  | None => VList <$> ra !! k
  end.
Proof.
  unfold display_args, args_as_values.
  destruct (d !! k) as [v|] eqn:Hd.
  - by apply lookup_union_Some_l.
  - rewrite lookup_union_r by done. apply lookup_fmap.
Qed.

(** C7 (amended).  The query echoed by an observation response has no
    key whose value is null; it never shows the [geom] of the validated
    arguments, a [geom] key being there exactly when the caller's query
    string carried one, echoed as sent; and it has no [nodes],
    [features_of_interest] or [sensors] key the caller did not send. *)
Theorem echoed_query_is_clean sched ra args qs resp :
  run_observation_queries sched ra args (Plan qs) = Ok resp ->
  (forall k v, meta_query resp !! k = Some v -> v <> VNone) /\
  meta_query resp !! "geom" = VList <$> ra !! "geom" /\
  (ra !! "geom" = None -> meta_query resp !! "geom" = None) /\
  (forall k, k ∈ ["nodes"; "features_of_interest"; "sensors"] ->
             ra !! k = None -> meta_query resp !! k = None).
Proof.
  intros H. apply run_observation_queries_ok in H as (d & Hd & Hq & _ & _).
  apply echo_data_clean in Hd as (Hnull & Hgeom & Hpop).
  rewrite Hq. split_and!.
  - intros k v. rewrite display_args_lookup.
    destruct (d !! k) as [v'|] eqn:Hk.
    + intros [= <-]. by eapply Hnull.
    + destruct (ra !! k); simpl; [by intros [= <-]|done].
  - by rewrite display_args_lookup, Hgeom.
  - intros Hra. by rewrite display_args_lookup, Hgeom, Hra.
  - intros k Hk Hra. by rewrite display_args_lookup, (Hpop k Hk Hra), Hra.
Qed.

Lemma echoed_query_is_clean_witness :
  run_observation_queries [] (Scenario.ra "temperature,humidity")
    (Scenario.args_of Scenario.both_features)
    (Plan (Scenario.plan_of Scenario.both_features))
  = Ok (Scenario.both_response []) /\
  (forall k v, meta_query (Scenario.both_response []) !! k = Some v -> v <> VNone) /\
  meta_query (Scenario.both_response []) !! "geom" = None /\
  meta_query (Scenario.both_response []) !! "nodes" = None /\
  meta_query (Scenario.both_response []) !! "sensors" = None /\
  meta_query (Scenario.both_response []) !! "features_of_interest"
  = Some (VList ["temperature"; "humidity"]).
Proof.
  assert (H : run_observation_queries [] (Scenario.ra "temperature,humidity")
                (Scenario.args_of Scenario.both_features)
                (Plan (Scenario.plan_of Scenario.both_features))
              = Ok (Scenario.both_response []))
    by (vm_compute; reflexivity).
  destruct (echoed_query_is_clean _ _ _ _ _ H) as (Hnull & _ & Hgeom & Hpop).
  split; [exact H|]. split; [exact Hnull|].
  split; [apply Hgeom; vm_compute; reflexivity|].
  split; [apply Hpop; [apply list_elem_of_In; simpl; tauto | vm_compute; reflexivity]|].
  split; [apply Hpop; [apply list_elem_of_In; simpl; tauto | vm_compute; reflexivity]|].
  vm_compute; reflexivity.
Defined.

(** C7, as stated, fails: the echo starts from the raw query string, so
    a [geom] parameter of the caller's is shown. *)
Lemma geom_parameter_is_echoed :
  run_observation_queries [] Scenario.ra_with_geom
    (Scenario.args_of Scenario.both_features)
    (Plan (Scenario.plan_of Scenario.both_features))
  = Ok Scenario.geom_response /\
  meta_query Scenario.geom_response !! "geom" = Some (VList ["POINT(0 0)"]).
Proof.
  split; vm_compute; reflexivity.
Qed.

(** ** Empty filters *)

Lemma strip_offset_ok v : str_or_none v -> exists v', strip_offset v = Ok v'.
Proof.
  intros [->|[s ->]]; unfold strip_offset; simpl; [by eexists|].
  destruct (negb _); by eexists.
Qed.


Lemma load_tables_inl rs fs ts :
  load_tables rs fs = inl ts ->
  Forall2 (fun f t => tables rs !! PyStr.lower f = Some t) fs ts.
Proof.
  revert ts. induction fs as [|f fs IH]; simpl; intros ts.
  - intros [= <-]. constructor.
  - destruct (tables rs !! PyStr.lower f) eqn:Hf; [|done].
    destruct (load_tables rs fs); [|done]. intros [= <-]. constructor; auto.
Qed.

(** A valid request never makes the planner raise. *)
Lemma planner_total pg rs ra args :
  valid_request args ->
  exists args' p, get_observation_queries pg rs ra args = Ok (args', p).
Proof.
  intros (Hsd & Hed & [fs Hfs] & [ss Hss] & [L HL] & [O HO]).
  destruct (strip_offset_ok _ Hsd) as [sd Esd].
  destruct (strip_offset_ok _ Hed) as [ed Eed].
  unfold get_observation_queries. rewrite Esd. simpl. rewrite Eed. simpl.
  unfold getitem, get. rewrite !lookup_insert_ne by done. rewrite Hfs, Hss. simpl.
  destruct (load_tables rs _) as [ts|name]; [|by eexists _, _].
  destruct ts as [|t ts]; [by eexists _, _|].
  erewrite (build_queries_ok _ _ _ L O); [by eexists _, _|..].
  - simpl. by rewrite !lookup_insert_ne.
  - simpl. by rewrite !lookup_insert_ne.
  - simpl. lia.
Qed.







(** ** A feature table missing from the warehouse *)

(** C1 (the code departs from it).  When the table of a requested
    feature is missing, the planner does build the 400 response that
    names the table, but both callers go on to use what the planner
    returned as the list of queries: iterating the response raises, so
    the observation endpoint answers with no 400, and the datadump job
    fails likewise, before any chunk or status is written. *)
Theorem missing_table_refusal_is_lost :
  let refusal := bad_request (Scenario.ra "temperature")
                             (VStr "Table temperature not found") in
  (exists args',
     get_observation_queries Scenario.pg Scenario.rs_without_temperature
       (Scenario.ra "temperature") (Scenario.args ["temperature"] 1000 0)
     = Ok (args', Refused refusal)) /\
  status_code refusal = 400 /\
  (forall sched ra args r,
     run_observation_queries sched ra args (Refused r)
     = Raise (TypeError "'Response' object is not iterable")) /\
  get_observations Scenario.validate Scenario.pg Scenario.rs_without_temperature []
    (Scenario.ra "temperature") (Some "aot")
  = Raise (TypeError "'Response' object is not iterable") /\
  get_observation_datadump Scenario.fast_count Scenario.windowed_query
    Scenario.pg Scenario.rs_without_temperature (Scenario.ra "temperature")
    (Scenario.job_args ["temperature"] (VInt 1000)) (Scenario.world [])
  = (Raise (TypeError "'Response' object is not iterable"), Scenario.world []).
Proof.
  intros refusal. split; [eexists; vm_compute; reflexivity|].
  split; [reflexivity|]. split; [reflexivity|].
  split; vm_compute; reflexivity.
Qed.

(** ** The datadump runner *)

Lemma mbind_ok {A B} (m : M A) (k : A -> M B) w b w' :
  mbind m k w = (Ok b, w') ->
  exists a w1, m w = (Ok a, w1) /\ k a w1 = (Ok b, w').
Proof.
  unfold mbind. destruct (m w) as [[a|e] w1]; [eauto|done].
Qed.

Lemma mbind_cases {A B} (m : M A) (k : A -> M B) w r w' :
  mbind m k w = (r, w') ->
  (exists e, m w = (Raise e, w') /\ r = Raise e) \/
  (exists a w1, m w = (Ok a, w1) /\ k a w1 = (r, w')).
Proof.
  unfold mbind. destruct (m w) as [[a|e] w1]; intros H.
  - right. eauto.
  - left. exists e. by simplify_eq.
Qed.

Lemma lift_ok {A} (r : result A) w a w' :
  lift r w = (Ok a, w') -> r = Ok a /\ w' = w.
Proof. unfold lift. by intros [= -> ->]. Qed.

Tactic Notation "mbind_inv" hyp(H) "as" ident(a) ident(w1) ident(Ha) :=
  apply mbind_ok in H as (a & w1 & Ha & H).

(** The three ways [store_chunk] can go. *)
Lemma store_chunk_cases chunk cc n rid w :
  let d := DataDump.mk (default EmptyString (head (urandom w))) rid n cc
                       (DataDump.Page chunk) in
  match commit_faults w with
  | true :: faults =>
      store_chunk chunk cc n rid w
      = (Raise (DatabaseError "commit"),
         mkWorld (committed w) [] (statuses w) (flags w) faults
                 (tail (urandom w)) (now w))
  | _ =>
      match statuses w !! rid with
      | Some st =>
          store_chunk chunk cc n rid w
          = (Ok tt,
             mkWorld (committed w ++ pending w ++ [d]) []
                     (<[rid := mkStatus (startTime st) (Some (n, cc))]> (statuses w))
                     (<[rid +:+ "_suppresscleanup" := (true, 10800)]> (flags w))
                     (tail (commit_faults w)) (tail (urandom w)) (now w))
      | None =>
          store_chunk chunk cc n rid w
          = (Raise (KeyError rid),
             mkWorld (committed w ++ pending w ++ [d]) [] (statuses w) (flags w)
                     (tail (commit_faults w)) (tail (urandom w)) (now w))
      end
  end.
Proof.
  unfold store_chunk, mbind, os_urandom_hex, session_add, commit_or_rollback,
    try_except, session_commit, session_rollback, raise, get_status, set_status,
    set_flag. simpl.
  destruct (commit_faults w) as [|[] faults]; simpl; try done.
  - destruct (statuses w !! rid); by rewrite <- ?app_assoc.
  - destruct (statuses w !! rid); by rewrite <- ?app_assoc.
Qed.

Lemma chunks_stored_refl cc rid n w : pending w = [] -> chunks_stored cc rid n w n w.
Proof.
  intros Hp. exists []. rewrite app_nil_r, Z.sub_diag.
  split_and!; try done; try lia; eauto.
Qed.

Lemma chunks_stored_trans cc rid n w n1 w1 n2 w2 :
  chunks_stored cc rid n w n1 w1 -> chunks_stored cc rid n1 w1 n2 w2 ->
  chunks_stored cc rid n w n2 w2.
Proof.
  intros (new1 & Hc1 & Hp1 & Hn1 & Hle1 & Hparts1 & Hall1 & Hst1)
         (new2 & Hc2 & Hp2 & Hn2 & Hle2 & Hparts2 & Hall2 & Hst2).
  exists (new1 ++ new2). split_and!.
  - by rewrite Hc2, Hc1, app_assoc.
  - done.
  - congruence.
  - lia.
  - rewrite map_app, Hparts1, Hparts2.
    replace (n2 - n) with ((n1 - n) + (n2 - n1)) by lia.
    rewrite seqZ_app by lia. by replace (n + (n1 - n)) with n1 by lia.
  - by apply Forall_app.
  - intros st' Hst'. destruct (Hst2 _ Hst') as (st1 & H1 & E1).
    destruct (Hst1 _ H1) as (st & H0 & E0). exists st. split; [done|congruence].
Qed.

Lemma store_chunk_stored chunk cc n rid w w' :
  pending w = [] ->
  store_chunk chunk cc n rid w = (Ok tt, w') ->
  chunks_stored cc rid n w (n + 1) w'.
Proof.
  intros Hp H. pose proof (store_chunk_cases chunk cc n rid w) as Hc.
  simpl in Hc. destruct (commit_faults w) as [|[] faults];
    try (rewrite Hc in H; done);
    (destruct (statuses w !! rid) as [st|] eqn:Hst; rewrite Hc in H; [|done]);
    injection H as <-; rewrite Hp;
    (eexists [_]; simpl; split_and!; try done; [lia| |by repeat constructor|]).
  all: try (replace (n + 1 - n) with 1 by lia; done).
  all: intros st'; rewrite lookup_insert_eq; intros [= <-]; by exists st.
Qed.

Lemma chunks_stored_pending cc rid n w n' w' :
  chunks_stored cc rid n w n' w' -> pending w' = [].
Proof. by intros (new & _ & Hp & _). Qed.

Lemma drain_rows_stored cc rid table rows :
  forall chunk n w chunk' n' w',
    pending w = [] ->
    drain_rows cc rid table rows chunk n w = (Ok (chunk', n'), w') ->
    chunks_stored cc rid n w n' w'.
Proof.
  induction rows as [|row rows IH]; intros chunk n w chunk' n' w' Hp H; simpl in H.
  - unfold ret in H. simplify_eq. by apply chunks_stored_refl.
  - destruct (chunk_size <? _).
    + mbind_inv H as u w1 Hu. destruct u.
      pose proof (store_chunk_stored _ _ _ _ _ _ Hp Hu) as Hs.
      eapply chunks_stored_trans; [exact Hs|].
      eapply IH; [|exact H]. by eapply chunks_stored_pending.
    + by eapply IH.
Qed.

Section RunnerFacts.
Variable fast_count : Query.t -> Z.
Variable windowed_query : Query.t -> string -> Z -> list ObsRow.t.

Lemma drain_tables_stored cc rid qs :
  forall chunk n features w chunk' n' features' w',
    pending w = [] ->
    drain_tables windowed_query cc rid qs chunk n features w
    = (Ok (chunk', n', features'), w') ->
    chunks_stored cc rid n w n' w' /\
    features' = fold_left (fun acc qt => set_add (PyStr.lower (Table.name (snd qt))) acc)
                          qs features.
Proof.
  induction qs as [|[query table] qs IH];
    intros chunk n features w chunk' n' features' w' Hp H; simpl in H.
  - unfold ret in H. simplify_eq. split; [by apply chunks_stored_refl|done].
  - mbind_inv H as st w1 Hst. destruct st as [c1 n1]. simpl in H.
    pose proof (drain_rows_stored _ _ _ _ _ _ _ _ _ _ Hp Hst) as Hs.
    destruct (IH _ _ _ _ _ _ _ _ (chunks_stored_pending _ _ _ _ _ _ Hs) H) as [Hs' ->].
    split; [by eapply chunks_stored_trans|done].
Qed.

(** What a run that returns has done: it planned, fixed the total,
    stored the chunks 1, ..., k and then the metadata record. *)
Lemma datadump_ok pg rs ra args w url w' :
  pending w = [] ->
  get_observation_datadump fast_count windowed_query pg rs ra args w = (Ok url, w') ->
  exists rid args' qs rc k chunks st workerid,
    get (data args) "jobsframework_ticket" = VStr rid /\
    get_observation_queries pg rs ra args = Ok (args', Plan qs) /\
    row_count_of fast_count args' qs = Ok rc /\
    statuses w !! rid = Some st /\
    data args' !! "jobsframework_workerid" = Some workerid /\
    0 <= k /\
    map DataDump.part chunks = seqZ 1 k /\
    Forall (fun d => DataDump.request d = rid /\
                     DataDump.total d = ceil_div rc chunk_size) chunks /\
    committed w' =
      committed w ++ chunks ++
      [DataDump.mk rid rid 0 (ceil_div rc chunk_size)
         (DataDump.Doc (meta_chunk (startTime st) (now w)
                          (json_dumps_singleton workerid)
                          (json_dumps_list (plan_features qs))))].
Proof.
  intros Hp H. unfold get_observation_datadump in H.
  mbind_inv H as rid w0 Hrid. apply lift_ok in Hrid as [Hrid ->].
  mbind_inv H as pl w0 Hplan. destruct pl as [args' p].
  apply lift_ok in Hplan as [Hplan ->].
  mbind_inv H as qs w0 Hqs. apply lift_ok in Hqs as [Hqs ->].
  destruct p as [qs'|]; [|done]. simpl in Hqs. injection Hqs as ->.
  mbind_inv H as rc w0 Hrc. apply lift_ok in Hrc as [Hrc ->].
  simpl in *.
  mbind_inv H as lp w1 Hloop. destruct lp as [[chunk n] features].
  apply drain_tables_stored in Hloop as [Hs ->]; [|done].
  mbind_inv H as u w2 Hlast.
  assert (Hs2 : exists n2, chunks_stored (ceil_div rc chunk_size) rid 1 w n2 w2).
  { simpl in Hlast. destruct (0 <? _).
    - exists (n + 1). eapply chunks_stored_trans; [exact Hs|].
      destruct u. eapply store_chunk_stored; [|exact Hlast].
      by eapply chunks_stored_pending.
    - unfold ret in Hlast. simplify_eq. by exists n. }
  destruct Hs2 as (n2 & new & Hc & Hp2 & Hnow & Hle & Hparts & Hall & Hst).
  mbind_inv H as st2 w3 Hget.
  unfold get_status in Hget.
  destruct (statuses w2 !! rid) as [st2'|] eqn:Hst2; [|done].
  injection Hget as <- <-.
  destruct (Hst _ eq_refl) as (st & Hst0 & Est).
  mbind_inv H as endt w3 Hnow'. unfold datetime_now in Hnow'.
  injection Hnow' as <- <-.
  mbind_inv H as workerid w3 Hwid. apply lift_ok in Hwid as [Hwid ->].
  mbind_inv H as u1 w3 Hadd. unfold session_add in Hadd. injection Hadd as _ <-.
  mbind_inv H as u2 w4 Hcommit.
  mbind_inv H as rootv w5 Hroot. apply lift_ok in Hroot as [_ ->].
  mbind_inv H as root w5 Hroot. apply lift_ok in Hroot as [_ ->].
  unfold ret in H. injection H as _ <-.
  unfold commit_or_rollback, try_except, session_commit in Hcommit. simpl in Hcommit.
  exists rid, args', qs, rc, (n2 - 1), new, st, workerid.
  unfold as_str in Hrid. destruct (get (data args) "jobsframework_ticket"); try done.
  injection Hrid as ->. unfold getitem in Hwid.
  destruct (data args' !! "jobsframework_workerid") as [wid|] eqn:Hw; [|done].
  injection Hwid as ->.
  split_and!; try done; try lia.
  destruct (commit_faults w2) as [|[] faults]; simpl in Hcommit;
    unfold mbind, session_rollback, raise in Hcommit; simpl in Hcommit; try done;
    injection Hcommit as _ <-; simpl; by rewrite Hc, Hp2, Hnow, Est, <- app_assoc.
Qed.

End RunnerFacts.




(** C2 (amended).  A datadump job that completes has stored, after
    what the store held, the data chunks numbered 1, 2, ..., k in this
    order, with no gap and no duplicate, and then the metadata record;
    every one of these records carries the ticket and one and the same
    total, which was fixed from the plan before the first chunk was
    written.  (k is the number of chunks written, not the total.) *)
Theorem chunk_parts_contiguous fast_count windowed_query pg rs ra args w url w' :
  pending w = [] ->
  get_observation_datadump fast_count windowed_query pg rs ra args w = (Ok url, w') ->
  exists rid chunks meta k total,
    get (data args) "jobsframework_ticket" = VStr rid /\
    committed w' = committed w ++ chunks ++ [meta] /\
    DataDump.part meta = 0 /\
    0 <= k /\
    map DataDump.part chunks = seqZ 1 k /\
    NoDup (map DataDump.part chunks) /\
    (forall p, p ∈ map DataDump.part chunks <-> 1 <= p <= k) /\
    Forall (fun d => DataDump.request d = rid /\ DataDump.total d = total)
           (chunks ++ [meta]) /\
    exists args' qs rc,
      get_observation_queries pg rs ra args = Ok (args', Plan qs) /\
      row_count_of fast_count args' qs = Ok rc /\
      total = ceil_div rc chunk_size.
Proof.
  intros Hp H.
  destruct (datadump_ok _ _ _ _ _ _ _ _ _ Hp H)
    as (rid & args' & qs & rc & k & chunks & st & wid & Hrid & Hplan & Hrc & _ & _
        & Hk & Hparts & Hall & Hc).
  eexists rid, chunks, _, k, (ceil_div rc chunk_size).
  split; [done|]. split; [exact Hc|]. split; [done|]. split; [done|].
  split; [done|]. split; [rewrite Hparts; apply NoDup_seqZ|].
  split; [intros p; rewrite Hparts, elem_of_seqZ; lia|].
  split; [|by eexists _, _, _].
  apply Forall_app. split; [done|]. by repeat constructor.
Qed.

Lemma chunk_parts_contiguous_witness :
  pending (Scenario.world []) = [] /\
  Scenario.job_run (VInt 2500) []
  = (Ok "http://host/v1/api/datadump/ticket", snd (Scenario.job_run (VInt 2500) [])) /\
  exists chunks meta k total,
    committed (snd (Scenario.job_run (VInt 2500) [])) = chunks ++ [meta] /\
    DataDump.part meta = 0 /\
    map DataDump.part chunks = seqZ 1 k /\
    Forall (fun d => DataDump.request d = "ticket" /\ DataDump.total d = total)
           (chunks ++ [meta]).
Proof.
  assert (Hp : pending (Scenario.world []) = []) by reflexivity.
  assert (Hrun : Scenario.job_run (VInt 2500) []
                 = (Ok "http://host/v1/api/datadump/ticket",
                    snd (Scenario.job_run (VInt 2500) [])))
    by (vm_compute; reflexivity).
  split; [exact Hp|]. split; [exact Hrun|].
  destruct (chunk_parts_contiguous _ _ _ _ _ _ _ _ _ Hp Hrun)
    as (rid & chunks & meta & k & total & Hrid & Hc & Hm & _ & Hparts & _ & _ & Hall & _).
  exists chunks, meta, k, total.
  assert (rid = "ticket") as -> by (vm_compute in Hrid; congruence).
  by split_and!.
Defined.

(** C2, as stated, fails: the total comes from the limit (or from the
    estimate), the part numbers from the rows that were streamed.  A
    job with limit 2500 over two matching rows stores part 1 alone,
    carrying the total 3. *)
Lemma total_outruns_parts :
  fst (Scenario.job_run (VInt 2500) []) = Ok "http://host/v1/api/datadump/ticket" /\
  map DataDump.part (data_chunks "ticket" (snd (Scenario.job_run (VInt 2500) []))) = [1] /\
  map DataDump.total (data_chunks "ticket" (snd (Scenario.job_run (VInt 2500) []))) = [3] /\
  ~ parts_match_total "ticket" (snd (Scenario.job_run (VInt 2500) [])).
Proof.
  assert (Hparts : map DataDump.part
                     (data_chunks "ticket" (snd (Scenario.job_run (VInt 2500) []))) = [1])
    by (vm_compute; reflexivity).
  assert (Htot : map DataDump.total
                   (data_chunks "ticket" (snd (Scenario.job_run (VInt 2500) []))) = [3])
    by (vm_compute; reflexivity).
  split; [vm_compute; reflexivity|]. split; [exact Hparts|]. split; [exact Htot|].
  unfold parts_match_total. intros H.
  destruct (data_chunks "ticket" (snd (Scenario.job_run (VInt 2500) [])))
    as [|d l] eqn:Hd; [done|].
  specialize (H d (list_elem_of_here _ _)). rewrite Hparts in H.
  simpl in Htot. injection Htot as Htd _. rewrite Htd in H.
  apply Permutation_length in H. vm_compute in H. discriminate.
Qed.






(** ** Failures while storing *)

Lemma run_effect_refl rid ok w : run_effect rid ok w w.
Proof.
  split_and!; [exists []; by rewrite app_nil_r|exists []; by split|done].
Qed.

Lemma run_effect_trans rid ok w w1 w2 :
  run_effect rid true w w1 -> run_effect rid ok w1 w2 -> run_effect rid ok w w2.
Proof.
  intros ([new1 Hc1] & (used1 & Hf1 & Hu1) & Hs1) ([new2 Hc2] & (used2 & Hf2 & Hu2) & Hs2).
  split_and!.
  - exists (new1 ++ new2). by rewrite Hc2, Hc1, app_assoc.
  - exists (used1 ++ used2). split; [by rewrite Hf1, Hf2, app_assoc|].
    intros Hok. apply Forall_app. split; [by apply Hu1|by apply Hu2].
  - auto.
Qed.

Lemma covered_mono rid n w w' new :
  committed w' = committed w ++ new -> covered rid n w -> covered rid n w'.
Proof.
  intros Hc Hcov p Hp. destruct (Hcov p Hp) as (d & Hd & ?).
  exists d. split; [|done]. rewrite Hc. apply elem_of_app. by left.
Qed.

Lemma progress_sound_mono rid w w' new :
  committed w' = committed w ++ new -> statuses w' !! rid = statuses w !! rid ->
  progress_sound rid w -> progress_sound rid w'.
Proof.
  intros Hc Hst Hs st done total Hl Hp. rewrite Hst in Hl.
  eapply covered_mono; [exact Hc|]. by eapply Hs.
Qed.

(** A step that leaves the job status alone and only appends to the
    store, consuming no commit. *)
Lemma run_effect_quiet rid ok w w' new :
  committed w' = committed w ++ new -> statuses w' = statuses w ->
  commit_faults w' = commit_faults w ->
  run_effect rid ok w w'.
Proof.
  intros Hc Hst Hf. split_and!.
  - by exists new.
  - exists []. by rewrite Hf.
  - apply (progress_sound_mono _ _ _ new); [done|by rewrite Hst].
Qed.

Lemma lift_inv {A} (r : result A) w r' w' :
  lift r w = (r', w') -> r' = r /\ w' = w.
Proof. unfold lift. by intros [= <- <-]. Qed.

Lemma parts_extend rid n (l pend : list DataDump.t) d :
  (forall p, 1 <= p < n ->
     exists x, x ∈ l /\ DataDump.request x = rid /\ DataDump.part x = p) ->
  DataDump.request d = rid -> DataDump.part d = n ->
  forall p, 1 <= p < n + 1 ->
    exists x, x ∈ l ++ pend ++ [d] /\ DataDump.request x = rid /\ DataDump.part x = p.
Proof.
  intros Hcov Hr Hn p Hp. destruct (decide (p = n)) as [->|Hne].
  - exists d. split; [|done]. rewrite !elem_of_app. right. right.
    apply list_elem_of_here.
  - destruct (Hcov p ltac:(lia)) as (x & Hx & ?).
    exists x. split; [|done]. apply elem_of_app. by left.
Qed.

Lemma store_chunk_effect chunk cc n rid w r w' :
  covered rid n w ->
  store_chunk chunk cc n rid w = (r, w') ->
  run_effect rid (is_ok r) w w' /\ (is_ok r = true -> covered rid (n + 1) w').
Proof.
  intros Hcov H. pose proof (store_chunk_cases chunk cc n rid w) as Hc.
  cbv zeta in Hc.
  assert (Hgo : forall used,
            Forall (fun b => b = false) used ->
            commit_faults w = used ++ tail (commit_faults w) ->
            match statuses w !! rid with
            | Some st =>
                store_chunk chunk cc n rid w
                = (Ok tt,
                   mkWorld (committed w ++ pending w ++
                              [DataDump.mk (default EmptyString (head (urandom w)))
                                 rid n cc (DataDump.Page chunk)]) []
                     (<[rid := mkStatus (startTime st) (Some (n, cc))]> (statuses w))
                     (<[rid +:+ "_suppresscleanup" := (true, 10800)]> (flags w))
                     (tail (commit_faults w)) (tail (urandom w)) (now w))
            | None =>
                store_chunk chunk cc n rid w
                = (Raise (KeyError rid),
                   mkWorld (committed w ++ pending w ++
                              [DataDump.mk (default EmptyString (head (urandom w)))
                                 rid n cc (DataDump.Page chunk)]) []
                     (statuses w) (flags w)
                     (tail (commit_faults w)) (tail (urandom w)) (now w))
            end ->
            run_effect rid (is_ok r) w w' /\ (is_ok r = true -> covered rid (n + 1) w')).
  { intros used Hfalse Hu Hcase.
    destruct (statuses w !! rid) as [st|] eqn:Hst; rewrite Hcase in H;
      injection H as <- <-; simpl.
    - split.
      + split_and!; simpl.
        * by eexists.
        * by exists used.
        * intros _ st' done total. simpl. rewrite lookup_insert_eq.
          intros [= <-]. simpl. intros [= <- <-].
          unfold covered. simpl. by apply parts_extend.
      + intros _. unfold covered. simpl. by apply parts_extend.
    - split; [|done]. split_and!; simpl.
      + by eexists.
      + by exists used.
      + intros _ st' done total. simpl. by rewrite Hst. }
  destruct (commit_faults w) as [|[] faults] eqn:Hf.
  - by apply (Hgo []).
  - (* the commit raises: rolled back, nothing stored, status untouched *)
    rewrite Hc in H. injection H as <- <-. simpl. split; [|done].
    split_and!; simpl.
    + exists []. by rewrite app_nil_r.
    + exists [true]. by rewrite Hf.
    + done.
  - apply (Hgo [false]); [by repeat constructor|done|done].
Qed.

Lemma run_effect_covered rid ok n w w' :
  run_effect rid ok w w' -> covered rid n w -> covered rid n w'.
Proof. intros ([new Hc] & _). by apply covered_mono with new. Qed.

Lemma drain_rows_effect cc rid table rows :
  forall chunk n w r w',
    covered rid n w ->
    drain_rows cc rid table rows chunk n w = (r, w') ->
    run_effect rid (is_ok r) w w' /\
    (forall c n', r = Ok (c, n') -> covered rid n' w').
Proof.
  induction rows as [|row rows IH]; intros chunk n w r w' Hcov H; simpl in H.
  - unfold ret in H. injection H as <- <-. split; [apply run_effect_refl|].
    by intros c n' [= _ <-].
  - destruct (chunk_size <? _); [|by eapply IH].
    apply mbind_cases in H as [(e & H & ->)|(u & w1 & Hu & H)].
    + split; [|done]. by apply (store_chunk_effect _ _ _ _ _ _ _ Hcov H).
    + destruct (store_chunk_effect _ _ _ _ _ _ _ Hcov Hu) as [He Hc'].
      destruct (IH _ _ _ _ _ (Hc' eq_refl) H) as [He' Hc''].
      split; [by eapply run_effect_trans|done].
Qed.

Lemma run_effect_weaken rid ok w w' :
  run_effect rid true w w' -> run_effect rid ok w w'.
Proof.
  intros (Hc & (used & Hf & Hu) & Hs). split_and!; [done| |done].
  exists used. split; [done|]. intros _. by apply Hu.
Qed.

Lemma commit_or_rollback_effect rid w r w' :
  commit_or_rollback w = (r, w') -> run_effect rid (is_ok r) w w'.
Proof.
  unfold commit_or_rollback, try_except, session_commit, mbind, session_rollback, raise.
  destruct (commit_faults w) as [|[] faults] eqn:Hf; simpl; intros [= <- <-]; simpl.
  - split_and!; simpl; [by eexists|exists []; by rewrite Hf|].
    by apply progress_sound_mono with (pending w).
  - split_and!; simpl; [exists []; by rewrite app_nil_r|exists [true]; by rewrite Hf|done].
  - split_and!; simpl; [by eexists| |by apply progress_sound_mono with (pending w)].
    exists [false]. rewrite Hf. split; [done|]. by repeat constructor.
Qed.

Section RunnerEffects.
Variable fast_count : Query.t -> Z.
Variable windowed_query : Query.t -> string -> Z -> list ObsRow.t.

Lemma drain_tables_effect cc rid qs :
  forall chunk n features w r w',
    covered rid n w ->
    drain_tables windowed_query cc rid qs chunk n features w = (r, w') ->
    run_effect rid (is_ok r) w w' /\
    (forall c n' fs, r = Ok (c, n', fs) -> covered rid n' w').
Proof.
  induction qs as [|[query table] qs IH];
    intros chunk n features w r w' Hcov H; simpl in H.
  - unfold ret in H. injection H as <- <-. split; [apply run_effect_refl|].
    by intros c n' fs [= _ <- _].
  - apply mbind_cases in H as [(e & H & ->)|([c1 n1] & w1 & Hr & H)].
    + split; [|done]. by apply (drain_rows_effect _ _ _ _ _ _ _ _ _ Hcov H).
    + destruct (drain_rows_effect _ _ _ _ _ _ _ _ _ Hcov Hr) as [He Hc1].
      simpl in H. destruct (IH _ _ _ _ _ _ (Hc1 _ _ eq_refl) H) as [He' Hc'].
      split; [by eapply run_effect_trans|done].
Qed.

(** Whatever the outcome of a run, and whichever commits fail in it. *)
Lemma datadump_effect pg rs ra args rid w r w' :
  get (data args) "jobsframework_ticket" = VStr rid ->
  get_observation_datadump fast_count windowed_query pg rs ra args w = (r, w') ->
  run_effect rid (is_ok r) w w'.
Proof.
  intros Hrid H. unfold get_observation_datadump in H. rewrite Hrid in H. simpl in H.
  apply mbind_cases in H as [(e & H & ->)|(rid' & w0 & Ha & H)];
    [apply lift_inv in H as [? _]; done|].
  apply lift_inv in Ha as [[= ->] ->].
  apply mbind_cases in H as [(e & H & ->)|(pl & w0 & Ha & H)];
    [apply lift_inv in H as [_ ->]; apply run_effect_refl|].
  apply lift_inv in Ha as [_ ->].
  apply mbind_cases in H as [(e & H & ->)|(qs & w0 & Ha & H)];
    [apply lift_inv in H as [_ ->]; apply run_effect_refl|].
  apply lift_inv in Ha as [_ ->].
  apply mbind_cases in H as [(e & H & ->)|(rc & w0 & Ha & H)];
    [apply lift_inv in H as [_ ->]; apply run_effect_refl|].
  apply lift_inv in Ha as [_ ->].
  assert (Hcov : covered rid 1 w) by (intros p Hp; lia).
  apply mbind_cases in H as [(e & H & ->)|([[chunk n] features] & w1 & Hloop & H)];
    [by apply (drain_tables_effect _ _ _ _ _ _ _ _ _ Hcov H)|].
  destruct (drain_tables_effect _ _ _ _ _ _ _ _ _ Hcov Hloop) as [He1 Hc1].
  specialize (Hc1 _ _ _ eq_refl). simpl in H.
  assert (Hlast : forall r2 w2,
            (if 0 <? Z.of_nat (length chunk)
             then store_chunk chunk (ceil_div rc chunk_size) n rid
             else ret ()) w1 = (r2, w2) ->
            run_effect rid (is_ok r2) w1 w2).
  { intros r2 w2 Hl. destruct (0 <? _).
    - by apply (store_chunk_effect _ _ _ _ _ _ _ Hc1 Hl).
    - unfold ret in Hl. injection Hl as <- <-. apply run_effect_refl. }
  apply mbind_cases in H as [(e & H & ->)|(u & w2 & Hl & H)];
    [eapply run_effect_trans; [exact He1|exact (Hlast _ _ H)]|].
  assert (He2 : run_effect rid true w w2)
    by (eapply run_effect_trans; [exact He1|exact (Hlast _ _ Hl)]).
  clear He1 Hlast Hl Hloop Hc1 Hcov.
  apply mbind_cases in H as [(e & H & ->)|(st & w3 & Hg & H)].
  { unfold get_status in H. destruct (statuses w2 !! rid); [done|].
    injection H as _ <-. by apply run_effect_weaken. }
  unfold get_status in Hg. destruct (statuses w2 !! rid); [|done].
  injection Hg as _ <-.
  apply mbind_cases in H as [(e & H & ->)|(endt & w3 & Hn & H)]; [done|].
  injection Hn as _ <-.
  apply mbind_cases in H as [(e & H & ->)|(wid & w3 & Ha & H)];
    [apply lift_inv in H as [_ ->]; by apply run_effect_weaken|].
  apply lift_inv in Ha as [_ ->].
  apply mbind_cases in H as [(e & H & ->)|(u1 & w3 & Hadd & H)]; [done|].
  unfold session_add in Hadd. injection Hadd as _ <-.
  assert (He3 : run_effect rid true w
                  (mkWorld (committed w2)
                     (pending w2 ++
                      [DataDump.mk rid rid 0 (ceil_div rc chunk_size)
                         (DataDump.Doc (meta_chunk (startTime st) endt
                            (json_dumps_singleton wid)
                            (json_dumps_list features)))])
                     (statuses w2) (flags w2) (commit_faults w2) (urandom w2) (now w2))).
  { eapply run_effect_trans; [exact He2|].
    apply (run_effect_quiet _ _ _ _ []); simpl; [by rewrite app_nil_r|done|done]. }
  apply mbind_cases in H as [(e & H & ->)|(u2 & w4 & Hcm & H)];
    [eapply run_effect_trans;
     [exact He3|exact (commit_or_rollback_effect rid _ _ _ H)]|].
  assert (He4 : run_effect rid true w w4)
    by (eapply run_effect_trans;
        [exact He3|exact (commit_or_rollback_effect rid _ _ _ Hcm)]).
  apply mbind_cases in H as [(e & H & ->)|(rootv & w5 & Ha & H)];
    [apply lift_inv in H as [_ ->]; by apply run_effect_weaken|].
  apply lift_inv in Ha as [_ ->].
  apply mbind_cases in H as [(e & H & ->)|(root & w5 & Ha & H)];
    [apply lift_inv in H as [_ ->]; by apply run_effect_weaken|].
  apply lift_inv in Ha as [_ ->].
  unfold ret in H. injection H as <- <-. exact He4.
Qed.

End RunnerEffects.

(** ** Further properties of the runner *)

(** A chunk write whose commit fails is rolled back and the exception
    raised to the caller of [store_chunk], the store, the job status
    and the flags being left as they were.  Whatever the outcome of a
    run of the job and whichever commits fail in it: the rows stored
    before stay, in place; a run that returns normally has seen every
    commit it attempted go through; and a progress record that did not
    overstate the stored chunks still does not. *)
Theorem persistence_failure_semantics fast_count windowed_query pg rs ra args rid :
  get (data args) "jobsframework_ticket" = VStr rid ->
  (forall chunk cc n w faults,
     commit_faults w = true :: faults ->
     exists w',
       store_chunk chunk cc n rid w = (Raise (DatabaseError "commit"), w') /\
       committed w' = committed w /\ pending w' = [] /\
       statuses w' = statuses w /\ flags w' = flags w) /\
  (forall w r w',
     get_observation_datadump fast_count windowed_query pg rs ra args w = (r, w') ->
     (exists new, committed w' = committed w ++ new) /\
     (exists used, commit_faults w = used ++ commit_faults w' /\
                   (is_ok r = true -> Forall (fun b => b = false) used)) /\
     (progress_sound rid w -> progress_sound rid w')).
Proof.
  intros Hrid. split.
  - intros chunk cc n w faults Hf.
    pose proof (store_chunk_cases chunk cc n rid w) as Hc. cbv zeta in Hc.
    rewrite Hf in Hc. eexists. split; [exact Hc|]. by simpl.
  - intros w r w' H. exact (datadump_effect _ _ _ _ _ _ _ _ _ _ Hrid H).
Qed.

Lemma persistence_failure_semantics_witness :
  get (data (Scenario.job_args ["temperature"] (VInt 2500))) "jobsframework_ticket"
  = VStr "ticket" /\
  fst (Scenario.job_run (VInt 2500) [false; true]) = Raise (DatabaseError "commit") /\
  map DataDump.part (committed (snd (Scenario.job_run (VInt 2500) [false; true]))) = [1] /\
  (progress_sound "ticket" (Scenario.world [false; true]) ->
   progress_sound "ticket" (snd (Scenario.job_run (VInt 2500) [false; true]))).
Proof.
  assert (Hrid : get (data (Scenario.job_args ["temperature"] (VInt 2500)))
                     "jobsframework_ticket" = VStr "ticket")
    by (vm_compute; reflexivity).
  split; [exact Hrid|].
  split; [vm_compute; reflexivity|].
  split; [vm_compute; reflexivity|].
  destruct (persistence_failure_semantics Scenario.fast_count Scenario.windowed_query
              Scenario.pg Scenario.rs (Scenario.ra "temperature")
              (Scenario.job_args ["temperature"] (VInt 2500)) "ticket" Hrid) as [_ Hrun].
  destruct (Hrun (Scenario.world [false; true])
                 (fst (Scenario.job_run (VInt 2500) [false; true]))
                 (snd (Scenario.job_run (VInt 2500) [false; true]))) as (_ & _ & Hs).
  - unfold Scenario.job_run. apply surjective_pairing.
  - exact Hs.
Defined.

Lemma job_ran_refl cc rid n w : pending w = [] -> job_ran cc rid n w n w [].
Proof.
  intros Hp. exists []. rewrite app_nil_r. simpl. split_and!; try done. lia.
Qed.

Lemma job_ran_trans cc rid n w n1 w1 n2 w2 ps1 ps2 :
  job_ran cc rid n w n1 w1 ps1 -> job_ran cc rid n1 w1 n2 w2 ps2 ->
  job_ran cc rid n w n2 w2 (ps1 ++ ps2).
Proof.
  intros (new1 & Hc1 & Hp1 & Hd1 & Hn1 & He1 & Hs1)
         (new2 & Hc2 & Hp2 & Hd2 & Hn2 & He2 & Hs2).
  exists (new1 ++ new2). split_and!.
  - by rewrite Hc2, Hc1, app_assoc.
  - done.
  - by rewrite !map_app, Hd1, Hd2.
  - rewrite length_app. lia.
  - intros [-> ->]%app_eq_nil. destruct (He1 eq_refl) as [<- <-]. by apply He2.
  - intros Hne. destruct ps2 as [|p2 ps2'].
    + destruct (He2 eq_refl) as [-> ->]. rewrite app_nil_r in Hne.
      simpl in Hn2. replace n2 with n1 by lia. by apply Hs1.
    + destruct (Hs2 ltac:(done)) as (st1 & Hst1 & -> & ->).
      destruct ps1 as [|p1 ps1'].
      * destruct (He1 eq_refl) as [Es Ef]. rewrite Es in Hst1. rewrite Es, Ef.
        by exists st1.
      * destruct (Hs1 ltac:(done)) as (st & Hst & Es & Ef).
        rewrite Es, lookup_insert_eq in Hst1. injection Hst1 as <-.
        exists st. split; [done|]. rewrite Es, Ef. simpl.
        by rewrite !insert_insert_eq.
Qed.

Lemma store_chunk_ran chunk cc n rid w w' :
  pending w = [] ->
  store_chunk chunk cc n rid w = (Ok tt, w') ->
  job_ran cc rid n w (n + 1) w' [chunk].
Proof.
  intros Hp H. pose proof (store_chunk_cases chunk cc n rid w) as Hc.
  cbv zeta in Hc.
  assert (Hgo : forall st, statuses w !! rid = Some st ->
            w' = mkWorld (committed w ++ pending w ++
                            [DataDump.mk (default EmptyString (head (urandom w)))
                               rid n cc (DataDump.Page chunk)]) []
                   (<[rid := mkStatus (startTime st) (Some (n, cc))]> (statuses w))
                   (<[rid +:+ "_suppresscleanup" := (true, 10800)]> (flags w))
                   (tail (commit_faults w)) (tail (urandom w)) (now w) ->
            job_ran cc rid n w (n + 1) w' [chunk]).
  { intros st Hst ->. rewrite Hp. eexists [_]. simpl.
    split_and!; try done. intros _. exists st.
    replace (n + 1 - 1) with n by lia. done. }
  destruct (commit_faults w) as [|[] faults];
    try (rewrite Hc in H; done);
    (destruct (statuses w !! rid) as [st|] eqn:Hst; rewrite Hc in H; [|done]);
    injection H as <-; by apply (Hgo st).
Qed.

Lemma job_ran_pending cc rid n w n' w' ps : job_ran cc rid n w n' w' ps -> pending w' = [].
Proof. by intros (new & _ & Hp & _). Qed.

(** The inner loop hands on a buffer of at most [chunk_size] records
    and stores, in order, chunks of exactly [chunk_size + 1] records. *)
Lemma drain_rows_ran cc rid table rows :
  forall chunk n w chunk' n' w',
    pending w = [] -> (length chunk <= 1000)%nat ->
    drain_rows cc rid table rows chunk n w = (Ok (chunk', n'), w') ->
    exists ps,
      job_ran cc rid n w n' w' ps /\
      chunk ++ map (fun row => format_observation row table) rows = concat ps ++ chunk' /\
      (length chunk' <= 1000)%nat /\
      Forall (fun p => length p = 1001%nat) ps.
Proof.
  induction rows as [|row rows IH]; intros chunk n w chunk' n' w' Hp Hlen H; simpl in H.
  - unfold ret in H. simplify_eq. exists []. simpl. rewrite app_nil_r.
    split_and!; try done. by apply job_ran_refl.
  - destruct (Z.ltb_spec chunk_size
                (Z.of_nat (length (chunk ++ [format_observation row table]))))
      as [Hgt|Hle]; rewrite length_app in *; simpl in *; unfold chunk_size in *.
    + mbind_inv H as u w1 Hu. destruct u.
      pose proof (store_chunk_ran _ _ _ _ _ _ Hp Hu) as Hs.
      destruct (IH [] _ _ _ _ _ (job_ran_pending _ _ _ _ _ _ _ Hs) ltac:(simpl; lia) H)
        as (ps & Hr & Heq & Hl' & Hall).
      exists ((chunk ++ [format_observation row table]) :: ps).
      split; [by apply (job_ran_trans _ _ _ _ _ _ _ _ [_] ps Hs)|].
      split; [simpl in *; by rewrite <- !app_assoc, <- Heq|].
      split; [done|]. constructor; [|done]. rewrite length_app. simpl. lia.
    + destruct (IH (chunk ++ [format_observation row table]) _ _ _ _ _ Hp
                  ltac:(rewrite length_app; simpl; lia) H)
        as (ps & Hr & Heq & Hl' & Hall).
      exists ps. split; [done|]. split; [|done].
      by rewrite <- Heq, <- app_assoc.
Qed.

Section RunnerPages.
Variable fast_count : Query.t -> Z.
Variable windowed_query : Query.t -> string -> Z -> list ObsRow.t.

Lemma drain_tables_ran cc rid qs :
  forall chunk n features w chunk' n' features' w',
    pending w = [] -> (length chunk <= 1000)%nat ->
    drain_tables windowed_query cc rid qs chunk n features w
    = (Ok (chunk', n', features'), w') ->
    exists ps,
      job_ran cc rid n w n' w' ps /\
      chunk ++ streamed windowed_query qs = concat ps ++ chunk' /\
      (length chunk' <= 1000)%nat /\
      Forall (fun p => length p = 1001%nat) ps.
Proof.
  induction qs as [|[query table] qs IH];
    intros chunk n features w chunk' n' features' w' Hp Hlen H; simpl in H.
  - unfold ret in H. simplify_eq. exists []. unfold streamed. simpl.
    rewrite app_nil_r. split_and!; try done. by apply job_ran_refl.
  - mbind_inv H as st w1 Hst. destruct st as [c1 n1]. simpl in H.
    destruct (drain_rows_ran _ _ _ _ _ _ _ _ _ _ Hp Hlen Hst)
      as (ps1 & Hr1 & Heq1 & Hl1 & Hall1).
    destruct (IH _ _ _ _ _ _ _ _ (job_ran_pending _ _ _ _ _ _ _ Hr1) Hl1 H)
      as (ps2 & Hr2 & Heq2 & Hl2 & Hall2).
    exists (ps1 ++ ps2). split; [by eapply job_ran_trans|].
    split; [|split; [done|by apply Forall_app]].
    unfold streamed in *. simpl.
    rewrite concat_app, app_assoc, Heq1, <- !app_assoc. by rewrite Heq2.
Qed.

(** A run that returns: the pages it stored and what it left in the
    status store. *)
Lemma datadump_pages pg rs ra args w url w' :
  pending w = [] ->
  get_observation_datadump fast_count windowed_query pg rs ra args w = (Ok url, w') ->
  exists rid args' qs rc ps new meta,
    get (data args) "jobsframework_ticket" = VStr rid /\
    get_observation_queries pg rs ra args = Ok (args', Plan qs) /\
    row_count_of fast_count args' qs = Ok rc /\
    committed w' = committed w ++ new ++ [meta] /\
    DataDump.part meta = 0 /\
    map DataDump.data new = map DataDump.Page ps /\
    concat ps = streamed windowed_query qs /\
    Forall (fun p => (1 <= length p <= 1001)%nat) ps /\
    (forall i p, ps !! i = Some p -> (S i < length ps)%nat -> length p = 1001%nat) /\
    (ps = [] -> statuses w' = statuses w /\ flags w' = flags w) /\
    (ps <> [] ->
     exists st, statuses w !! rid = Some st /\
       statuses w' = <[rid := mkStatus (startTime st)
                                (Some (Z.of_nat (length ps), ceil_div rc chunk_size))]>
                       (statuses w) /\
       flags w' = <[rid +:+ "_suppresscleanup" := (true, 10800)]> (flags w)).
Proof.
  intros Hp H. unfold get_observation_datadump in H.
  mbind_inv H as rid w0 Hrid. apply lift_ok in Hrid as [Hrid ->].
  mbind_inv H as pl w0 Hplan. destruct pl as [args' p].
  apply lift_ok in Hplan as [Hplan ->].
  mbind_inv H as qs w0 Hqs. apply lift_ok in Hqs as [Hqs ->].
  destruct p as [qs'|]; [|done]. simpl in Hqs. injection Hqs as ->.
  mbind_inv H as rc w0 Hrc. apply lift_ok in Hrc as [Hrc ->].
  simpl in *.
  mbind_inv H as lp w1 Hloop. destruct lp as [[chunk n] features].
  destruct (drain_tables_ran _ _ _ [] _ _ _ _ _ _ _ Hp ltac:(simpl; lia) Hloop)
    as (ps1 & Hr1 & Heq1 & Hl1 & Hall1).
  simpl in Heq1, H.
  mbind_inv H as u w2 Hlast.
  assert (Hr2 : exists ps n2,
            job_ran (ceil_div rc chunk_size) rid 1 w n2 w2 ps /\
            concat ps = streamed windowed_query qs /\
            Forall (fun p => (1 <= length p <= 1001)%nat) ps /\
            (forall i p, ps !! i = Some p -> (S i < length ps)%nat ->
                         length p = 1001%nat)).
  { destruct chunk as [|o chunk]; simpl in Hlast.
    - unfold ret in Hlast. simplify_eq. exists ps1, n.
      rewrite app_nil_r in Heq1. split_and!; try done.
      + eapply Forall_impl; [exact Hall1|]. simpl. lia.
      + intros i p Hi _. rewrite Forall_forall in Hall1.
        apply Hall1. by eapply list_elem_of_lookup_2.
    - destruct u.
      pose proof (store_chunk_ran _ _ _ _ _ _ (job_ran_pending _ _ _ _ _ _ _ Hr1) Hlast)
        as Hs.
      exists (ps1 ++ [o :: chunk]), (n + 1).
      split; [by eapply job_ran_trans|].
      split; [rewrite concat_app; simpl; by rewrite app_nil_r|].
      split.
      + apply Forall_app. split.
        * eapply Forall_impl; [exact Hall1|]. simpl. lia.
        * constructor; [simpl in *; lia|constructor].
      + intros i p Hi Hlt. rewrite length_app in Hlt. simpl in Hlt.
        rewrite lookup_app_l in Hi by lia.
        rewrite Forall_forall in Hall1. apply Hall1. by eapply list_elem_of_lookup_2. }
  destruct Hr2 as (ps & n2 & (new & Hc & Hp2 & Hd & Hn2 & He & Hs) & Hcat & Hsz & Hfull).
  mbind_inv H as st2 w3 Hget.
  unfold get_status in Hget.
  destruct (statuses w2 !! rid) as [st2'|] eqn:Hst2; [|done].
  injection Hget as <- <-.
  mbind_inv H as endt w3 Hnow'. unfold datetime_now in Hnow'.
  injection Hnow' as <- <-.
  mbind_inv H as workerid w3 Hwid. apply lift_ok in Hwid as [Hwid ->].
  mbind_inv H as u1 w3 Hadd. unfold session_add in Hadd. injection Hadd as _ <-.
  mbind_inv H as u2 w4 Hcommit.
  mbind_inv H as rootv w5 Hroot. apply lift_ok in Hroot as [_ ->].
  mbind_inv H as root w5 Hroot. apply lift_ok in Hroot as [_ ->].
  unfold ret in H. injection H as _ <-.
  unfold commit_or_rollback, try_except, session_commit in Hcommit. simpl in Hcommit.
  unfold as_str in Hrid. destruct (get (data args) "jobsframework_ticket"); try done.
  injection Hrid as ->.
  assert (Hw4 : committed w4 = committed w ++ new ++
                  [DataDump.mk rid rid 0 (ceil_div rc chunk_size)
                     (DataDump.Doc (meta_chunk (startTime st2') (now w2)
                        (json_dumps_singleton workerid) (json_dumps_list features)))] /\
                statuses w4 = statuses w2 /\ flags w4 = flags w2).
  { destruct (commit_faults w2) as [|[] faults]; simpl in Hcommit;
      unfold mbind, session_rollback, raise in Hcommit; simpl in Hcommit; try done;
      injection Hcommit as _ <-; simpl; by rewrite Hc, Hp2, <- app_assoc. }
  destruct Hw4 as (Hc4 & Hs4 & Hf4).
  eexists rid, args', qs, rc, ps, new, _.
  split; [done|]. split; [done|]. split; [done|]. split; [exact Hc4|].
  split; [done|]. split; [done|]. split; [done|]. split; [done|]. split; [done|].
  rewrite Hs4, Hf4. split; [exact He|].
  intros Hne. destruct (Hs Hne) as (st & Hst & Es & Ef).
  exists st. split; [done|]. rewrite Es, Ef. split; [|done].
  by replace (n2 - 1) with (Z.of_nat (length ps)) by lia.
Qed.

End RunnerPages.

(** A datadump job that completes has stored every record it streamed
    exactly once and in order: the pages of its chunks, one after the
    other, are the formatted rows of the planned tables.  No chunk is
    empty; every chunk but the last holds exactly 1001 records (the
    buffer is flushed once it is longer than [chunk_size]), the last at
    most that many. *)
Theorem datadump_pages_partition_rows fast_count windowed_query pg rs ra args w url w' :
  pending w = [] ->
  get_observation_datadump fast_count windowed_query pg rs ra args w = (Ok url, w') ->
  exists args' qs new meta,
    get_observation_queries pg rs ra args = Ok (args', Plan qs) /\
    committed w' = committed w ++ new ++ [meta] /\
    page_of meta = [] /\
    concat (map page_of new) = streamed windowed_query qs /\
    Forall (fun d => (1 <= length (page_of d) <= 1001)%nat) new /\
    (forall i d, new !! i = Some d -> (S i < length new)%nat ->
                 length (page_of d) = 1001%nat).
Proof.
  intros Hp H.
  destruct (datadump_pages _ _ _ _ _ _ _ _ _ Hp H)
    as (rid & args' & qs & rc & ps & new & meta & _ & Hplan & _ & Hc & Hm & Hd & Hcat
        & Hsz & Hfull & _).
  assert (Hpages : map page_of new = ps).
  { clear -Hd. revert ps Hd. induction new as [|d new IH]; intros [|p ps] Hd;
      simplify_eq/=; [done|]. unfold page_of at 1. rewrite H. f_equal. by apply IH. }
  exists args', qs, new, meta. split; [done|]. split; [done|].
  split.
  { (* the metadata record holds a document *)
    pose proof (datadump_ok _ _ _ _ _ _ _ _ _ Hp H)
      as (rid' & a' & qs' & rc' & k & chunks & st & wid & _ & _ & _ & _ & _ & _ & _ & _
          & Hc').
    rewrite Hc in Hc'. apply app_inv_head in Hc'.
    apply app_inj_tail in Hc' as [_ ->]. done. }
  split; [by rewrite Hpages|].
  split.
  - apply Forall_forall. intros d Hin. rewrite Forall_forall in Hsz.
    apply Hsz. rewrite <- Hpages. by apply list_elem_of_fmap_2.
  - intros i d Hi Hlt. apply (Hfull i).
    + rewrite <- Hpages, list_lookup_fmap, Hi. done.
    + by rewrite <- Hpages, length_map.
Qed.

Lemma datadump_pages_partition_rows_witness :
  pending (Scenario.world []) = [] /\
  Scenario.job_run (VInt 2500) []
  = (Ok "http://host/v1/api/datadump/ticket", snd (Scenario.job_run (VInt 2500) [])) /\
  map (fun d => length (page_of d)) (committed (snd (Scenario.job_run (VInt 2500) [])))
  = [2%nat; 0%nat] /\
  exists args' qs new meta,
    get_observation_queries Scenario.pg Scenario.rs
      (Scenario.ra "temperature") (Scenario.job_args ["temperature"] (VInt 2500))
    = Ok (args', Plan qs) /\
    committed (snd (Scenario.job_run (VInt 2500) []))
    = committed (Scenario.world []) ++ new ++ [meta] /\
    concat (map page_of new) = streamed Scenario.windowed_query qs.
Proof.
  assert (Hp : pending (Scenario.world []) = []) by reflexivity.
  assert (Hrun : Scenario.job_run (VInt 2500) []
                 = (Ok "http://host/v1/api/datadump/ticket",
                    snd (Scenario.job_run (VInt 2500) [])))
    by (vm_compute; reflexivity).
  split; [exact Hp|]. split; [exact Hrun|].
  split; [vm_compute; reflexivity|].
  destruct (datadump_pages_partition_rows _ _ _ _ _ _ _ _ _ Hp Hrun)
    as (args' & qs & new & meta & Hplan & Hc & _ & Hcat & _).
  exists args', qs, new, meta.
  split; [exact Hplan|]. split; [exact Hc|exact Hcat].
Defined.

(** What a completed job leaves in the status store: when it stored k
    >= 1 chunks, the job's progress reads [{done: k, total}] with the
    total of the run, the start time is the one it found, and the
    clean-up suppression flag is set for 10800 seconds; when it stored
    no chunk, status and flags are untouched. *)
Theorem completed_job_status fast_count windowed_query pg rs ra args w url w' :
  pending w = [] ->
  get_observation_datadump fast_count windowed_query pg rs ra args w = (Ok url, w') ->
  exists rid new meta,
    get (data args) "jobsframework_ticket" = VStr rid /\
    committed w' = committed w ++ new ++ [meta] /\
    DataDump.part meta = 0 /\
    (new = [] -> statuses w' = statuses w /\ flags w' = flags w) /\
    (new <> [] ->
     exists st, statuses w !! rid = Some st /\
       statuses w' = <[rid := mkStatus (startTime st)
                                (Some (Z.of_nat (length new), DataDump.total meta))]>
                       (statuses w) /\
       flags w' = <[rid +:+ "_suppresscleanup" := (true, 10800)]> (flags w)).
Proof.
  intros Hp H.
  destruct (datadump_pages _ _ _ _ _ _ _ _ _ Hp H)
    as (rid & args' & qs & rc & ps & new & meta & Hrid & Hplan & Hrc & Hc & Hm & Hd & _
        & _ & _ & He & Hs).
  assert (Hlen : length new = length ps)
    by (rewrite <- (length_map DataDump.data new), Hd; apply length_map).
  assert (Htot : DataDump.total meta = ceil_div rc chunk_size).
  { pose proof (datadump_ok _ _ _ _ _ _ _ _ _ Hp H)
      as (rid' & a' & qs' & rc' & k & chunks & st & wid & _ & Hplan' & Hrc' & _ & _ & _
          & _ & _ & Hc').
    rewrite Hplan in Hplan'. injection Hplan' as <- <-.
    rewrite Hrc in Hrc'. injection Hrc' as <-.
    rewrite Hc in Hc'. apply app_inv_head in Hc'.
    apply app_inj_tail in Hc' as [_ ->]. done. }
  exists rid, new, meta. split; [done|]. split; [done|]. split; [done|].
  split.
  - intros ->. apply He. by destruct ps.
  - intros Hne. destruct (Hs ltac:(by destruct ps, new)) as (st & Hst & Es & Ef).
    exists st. by rewrite Hlen, Htot.
Qed.

Lemma completed_job_status_witness :
  pending (Scenario.world []) = [] /\
  Scenario.job_run (VInt 2500) []
  = (Ok "http://host/v1/api/datadump/ticket", snd (Scenario.job_run (VInt 2500) [])) /\
  statuses (snd (Scenario.job_run (VInt 2500) [])) !! "ticket"
  = Some (mkStatus "2016-06-01 12:00:00" (Some (1, 3))) /\
  flags (snd (Scenario.job_run (VInt 2500) [])) !! "ticket_suppresscleanup"
  = Some (true, 10800) /\
  exists rid new meta,
    committed (snd (Scenario.job_run (VInt 2500) []))
    = committed (Scenario.world []) ++ new ++ [meta] /\
    (new <> [] ->
     exists st, statuses (Scenario.world []) !! rid = Some st /\
       statuses (snd (Scenario.job_run (VInt 2500) []))
       = <[rid := mkStatus (startTime st)
                    (Some (Z.of_nat (length new), DataDump.total meta))]>
           (statuses (Scenario.world []))).
Proof.
  assert (Hp : pending (Scenario.world []) = []) by reflexivity.
  assert (Hrun : Scenario.job_run (VInt 2500) []
                 = (Ok "http://host/v1/api/datadump/ticket",
                    snd (Scenario.job_run (VInt 2500) [])))
    by (vm_compute; reflexivity).
  split; [exact Hp|]. split; [exact Hrun|].
  split; [vm_compute; reflexivity|]. split; [vm_compute; reflexivity|].
  destruct (completed_job_status _ _ _ _ _ _ _ _ _ Hp Hrun)
    as (rid & new & meta & _ & Hc & _ & _ & Hs).
  exists rid, new, meta. split; [exact Hc|].
  intros Hne. destruct (Hs Hne) as (st & Hst & Es & _).
  exists st. split; [exact Hst|exact Es].
Defined.


(** ** Further properties of the planner and the executor *)

Lemma load_tables_missing rs fs f :
  f ∈ fs -> tables rs !! PyStr.lower f = None ->
  exists name, load_tables rs fs = inr name /\ name ∈ map PyStr.lower fs /\
               tables rs !! name = None.
Proof.
  induction fs as [|g fs IH]; intros Hin Hf; [by apply elem_of_nil in Hin|].
  simpl. destruct (tables rs !! PyStr.lower g) as [t|] eqn:Hg.
  - apply elem_of_cons in Hin as [->|Hin]; [congruence|].
    destruct (IH Hin Hf) as (name & -> & Hn & Hnone).
    exists name. split; [done|]. split; [|done]. apply elem_of_cons. by right.
  - exists (PyStr.lower g). split; [done|]. split; [|done]. apply list_elem_of_here.
Qed.

(** Whenever the table of one of the candidate features is missing from
    the warehouse, the planner answers with the 400 response that names
    a missing table of a candidate feature, and builds no query. *)
Theorem missing_table_is_refused pg rs ra args fs ss f :
  valid_request args ->
  data args !! "features_of_interest" = Some (VList fs) ->
  data args !! "sensors" = Some (VList ss) ->
  f ∈ candidate_features pg fs ss ->
  tables rs !! PyStr.lower f = None ->
  exists args' name,
    get_observation_queries pg rs ra args
    = Ok (args', Refused (bad_request ra (VStr ("Table " +:+ name +:+ " not found")))) /\
    name ∈ map PyStr.lower (candidate_features pg fs ss) /\
    tables rs !! name = None /\
    status_code (bad_request ra (VStr ("Table " +:+ name +:+ " not found"))) = 400.
Proof.
  intros Hv Hfs Hss Hin Hnone.
  destruct (planner_total pg rs ra args Hv) as (args' & p & Hplan).
  pose proof (planner_inv _ _ _ _ _ _ Hplan)
    as (sd & ed & fs' & sens & _ & _ & _ & Hfs' & Hsens & Hload).
  rewrite Hfs in Hfs'. injection Hfs' as <-.
  unfold get in Hsens. rewrite Hss in Hsens. simpl in Hsens. injection Hsens as <-.
  destruct (load_tables_missing rs _ f Hin Hnone) as (name & Hl & Hname & Hn).
  unfold candidate_features in Hl. rewrite Hl in Hload. subst p.
  by exists args', name.
Qed.

Lemma missing_table_is_refused_witness :
  valid_request (Scenario.args ["temperature"] 1000 0) /\
  "temperature" ∈ candidate_features Scenario.pg ["temperature"] ["tmp112"] /\
  tables Scenario.rs_without_temperature !! PyStr.lower "temperature" = None /\
  exists args' name,
    get_observation_queries Scenario.pg Scenario.rs_without_temperature
      (Scenario.ra "temperature") (Scenario.args ["temperature"] 1000 0)
    = Ok (args', Refused (bad_request (Scenario.ra "temperature")
                            (VStr ("Table " +:+ name +:+ " not found")))) /\
    tables Scenario.rs_without_temperature !! name = None.
Proof.
  assert (Hv : valid_request (Scenario.args ["temperature"] 1000 0)).
  { unfold valid_request, str_or_none.
    split; [left; vm_compute; reflexivity|].
    split; [left; vm_compute; reflexivity|].
    split; [eexists; vm_compute; reflexivity|].
    split; [eexists; vm_compute; reflexivity|].
    split; eexists; vm_compute; reflexivity. }
  assert (Hin : "temperature" ∈ candidate_features Scenario.pg ["temperature"] ["tmp112"]).
  { apply list_elem_of_In. vm_compute. tauto. }
  assert (Hnone : tables Scenario.rs_without_temperature !! PyStr.lower "temperature" = None)
    by (vm_compute; reflexivity).
  split; [exact Hv|]. split; [exact Hin|]. split; [exact Hnone|].
  destruct (missing_table_is_refused Scenario.pg Scenario.rs_without_temperature
              (Scenario.ra "temperature") (Scenario.args ["temperature"] 1000 0)
              ["temperature"] ["tmp112"] "temperature" Hv
              ltac:(vm_compute; reflexivity) ltac:(vm_compute; reflexivity) Hin Hnone)
    as (args' & name & Hplan & _ & Hn & _).
  exists args', name. split; [exact Hplan|exact Hn].
Defined.

Lemma query_all_length (q : Query.t) :
  (length (Query.all q) <= Z.to_nat (Query.limit q))%nat.
Proof.
  unfold Query.all. rewrite length_take. lia.
Qed.

Lemma concat_length_bound {A} (ls : list (list A)) (b : nat) :
  Forall (fun l => (length l <= b)%nat) ls ->
  (length (concat ls) <= length ls * b)%nat.
Proof.
  induction 1 as [|l ls Hl _ IH]; simpl; [lia|]. rewrite length_app. lia.
Qed.

(** An observation response never holds more records than the limit
    asked for: each of the N planned queries returns at most
    [limit / N] rows.  In particular a limit smaller than the number
    of planned tables gives an empty response. *)
Theorem response_within_limit pg rs ra sched args args' qs resp L O :
  data args !! "limit" = Some (VInt L) ->
  data args !! "offset" = Some (VInt O) ->
  0 <= L ->
  get_observation_queries pg rs ra args = Ok (args', Plan qs) ->
  run_observation_queries sched ra args' (Plan qs) = Ok resp ->
  Z.of_nat (length (objects resp)) <= Z.of_nat (length qs) * (L / Z.of_nat (length qs)) /\
  Z.of_nat (length (objects resp)) <= L /\
  (L < Z.of_nat (length qs) -> objects resp = []).
Proof.
  intros HL HO Hpos Hplan Hrun.
  pose proof (limit_bounds := plan_shape _ _ _ _ _ _ L O HL HO Hplan).
  destruct limit_bounds as (ts & Hqs & Hlen).
  apply run_observation_queries_ok in Hrun as (d & _ & _ & Ho & _).
  assert (Hobj : length (objects resp) = length (concat (map fetch_query_results qs)))
    by (by rewrite Ho, py_sort_perm, fan_out_perm).
  set (N := Z.of_nat (length qs)) in *.
  assert (Hb : Forall (fun l : list Obs.t => (length l <= Z.to_nat (L / N))%nat)
                      (map fetch_query_results qs)).
  { apply Forall_forall. intros l Hl.
    apply list_elem_of_fmap in Hl as (qt & -> & Hqt).
    unfold fetch_query_results. rewrite length_map.
    etrans; [apply query_all_length|].
    rewrite Hqs in Hqt. apply list_elem_of_fmap in Hqt as (t & -> & _). simpl.
    subst N. by rewrite Hlen. }
  apply concat_length_bound in Hb. rewrite length_map in Hb.
  destruct (decide (length qs = 0%nat)) as [Hz|Hnz].
  - rewrite Hz in Hb. simpl in Hb.
    assert (Hnil : objects resp = []) by (apply length_zero_iff_nil; lia).
    rewrite Hnil. simpl. subst N. rewrite Hz. simpl. split; [lia|]. split; [lia|done].
  - assert (HN : 0 < N) by (subst N; lia).
    assert (Hdiv : 0 <= L / N) by (apply Z.div_pos; lia).
    assert (Hmul : N * (L / N) <= L) by (apply Z.mul_div_le; lia).
    assert (Hle : Z.of_nat (length (objects resp)) <= N * (L / N)).
    { rewrite Hobj. etrans; [apply inj_le, Hb|].
      rewrite Nat2Z.inj_mul, Z2Nat.id by lia. subst N. lia. }
    split_and!; try lia.
    intros Hlt. apply length_zero_iff_nil.
    rewrite (Z.div_small L N) in Hle by lia. lia.
Qed.

Lemma response_within_limit_witness :
  let request := get_observation_queries Scenario.pg Scenario.rs
                   (Scenario.ra "temperature,humidity")
                   (Scenario.args ["temperature"; "humidity"] 1 0) in
  request = Ok (Scenario.args_of request, Plan (Scenario.plan_of request)) /\
  length (Scenario.plan_of request) = 2%nat /\
  exists resp,
    run_observation_queries [] (Scenario.ra "temperature,humidity")
      (Scenario.args_of request) (Plan (Scenario.plan_of request)) = Ok resp /\
    objects resp = [].
Proof.
  intros request.
  assert (Hplan : request = Ok (Scenario.args_of request, Plan (Scenario.plan_of request)))
    by (vm_compute; reflexivity).
  assert (Hlen : length (Scenario.plan_of request) = 2%nat) by (vm_compute; reflexivity).
  split; [exact Hplan|]. split; [exact Hlen|].
  eassert (Hrun : run_observation_queries [] (Scenario.ra "temperature,humidity")
                    (Scenario.args_of request) (Plan (Scenario.plan_of request)) = Ok _)
    by (vm_compute; reflexivity).
  eexists. split; [exact Hrun|].
  refine (proj2 (proj2 (response_within_limit _ _ _ _ _ _ _ _ 1 0 _ _ _ Hplan Hrun)) _).
  - vm_compute; reflexivity.
  - vm_compute; reflexivity.
  - lia.
  - rewrite Hlen. lia.
Defined.

Lemma build_queries_snd args N ts qs :
  build_queries args N ts = Ok qs -> map snd qs = ts.
Proof.
  revert qs. induction ts as [|t ts IH]; simpl; intros qs H.
  - by injection H as <-.
  - bind_inv H. bind_inv H. injection H as <-. simpl. f_equal. by apply IH.
Qed.

Lemma candidate_features_spec pg fs ss f :
  f ∈ candidate_features pg fs ss <->
  f ∈ fs /\ exists s, s ∈ sensor_rows pg /\ PyStr.lower (Sensor.name s) ∈ ss /\
                      f ∈ sensor_features s.
Proof.
  unfold candidate_features, intersect_features.
  rewrite elem_of_remove_dups, list_elem_of_filter, elem_of_concat.
  split.
  - intros [(l & Hf & Hl) Hfs]. split; [done|].
    apply list_elem_of_fmap in Hl as (s & -> & Hs).
    apply list_elem_of_filter in Hs as [? ?]. by exists s.
  - intros [Hfs (s & Hs & Hn & Hf)]. split; [|done].
    exists (sensor_features s). split; [done|].
    apply list_elem_of_fmap. exists s. split; [done|].
    by apply list_elem_of_filter.
Qed.

Lemma plan_candidates pg rs ra args args' qs fs ss L O :
  data args !! "features_of_interest" = Some (VList fs) ->
  data args !! "sensors" = Some (VList ss) ->
  data args !! "limit" = Some (VInt L) ->
  data args !! "offset" = Some (VInt O) ->
  get_observation_queries pg rs ra args = Ok (args', Plan qs) ->
  Forall2 (fun f qt =>
             tables rs !! PyStr.lower f = Some (snd qt) /\
             Query.from (fst qt) = snd qt /\
             Query.start_dt (fst qt) = get (data args) "start_datetime" /\
             Query.end_dt (fst qt) = get (data args) "end_datetime" /\
             Query.sensors (fst qt) = match ss with [] => None | _ => Some ss end /\
             Query.nodes (fst qt) = match resolved_nodes pg args with
                                    | [] => None
                                    | l => Some l
                                    end)
          (candidate_features pg fs ss) qs /\
  NoDup (candidate_features pg fs ss).
Proof.
  intros Hfs Hss HL HO Hplan.
  split; [|apply NoDup_remove_dups].
  destruct (plan_shape _ _ _ _ _ _ L O HL HO Hplan) as (ts & Hqs & _).
  apply planner_inv in Hplan as (sd & ed & fs' & sens & _ & _ & _ & Hfs' & Hsens & Hload).
  rewrite Hfs in Hfs'. injection Hfs' as <-.
  unfold get in Hsens. rewrite Hss in Hsens. simpl in Hsens. injection Hsens as <-.
  fold (candidate_features pg fs ss) in Hload.
  destruct (load_tables rs (candidate_features pg fs ss)) as [ts'|] eqn:Hl; [|done].
  destruct Hload as (qs' & Hb & [= <-]).
  apply build_queries_snd in Hb.
  assert (ts' = ts) as ->.
  { rewrite <- Hb, Hqs, map_map. simpl. by rewrite map_id. }
  apply load_tables_inl in Hl. rewrite Hqs.
  apply Forall2_fmap_r. eapply Forall2_impl; [exact Hl|].
  intros f t Hft. cbn [compose fst snd Query.from Query.start_dt Query.end_dt
                          Query.sensors Query.nodes].
  assert (Hs : get (data args) "sensors" = VList ss) by (unfold get; by rewrite Hss).
  rewrite Hs.
  split; [done|]. split; [done|]. split; [done|]. split; [done|].
  split; [by destruct ss|by destruct (resolved_nodes pg args)].
Qed.



Lemma in_opt_some x l : Query.in_opt x (Some l) = true -> PyStr.lower x ∈ l.
Proof. simpl. apply bool_decide_eq_true_1. Qed.

(** Every record of an observation response comes from a resolved
    node, from one of the sensors asked for and from the table of a
    candidate feature, whose name it reports as its feature.  The node
    and sensor conditions hold when the respective list is not empty. *)
Theorem observations_match_filters pg rs ra sched args args' qs resp fs ss L O :
  data args !! "features_of_interest" = Some (VList fs) ->
  data args !! "sensors" = Some (VList ss) ->
  data args !! "limit" = Some (VInt L) ->
  data args !! "offset" = Some (VInt O) ->
  get_observation_queries pg rs ra args = Ok (args', Plan qs) ->
  run_observation_queries sched ra args' (Plan qs) = Ok resp ->
  Forall (fun o =>
            (resolved_nodes pg args <> [] ->
             PyStr.lower (Obs.node_id o) ∈ resolved_nodes pg args) /\
            (ss <> [] -> PyStr.lower (Obs.sensor o) ∈ ss) /\
            exists f t, f ∈ candidate_features pg fs ss /\
                        tables rs !! PyStr.lower f = Some t /\
                        Obs.feature_of_interest o = Table.name t)
         (objects resp).
Proof.
  intros Hfs Hss HL HO Hplan Hrun.
  destruct (plan_candidates _ _ _ _ _ _ _ _ _ _ Hfs Hss HL HO Hplan) as [Hcand _].
  apply run_observation_queries_ok in Hrun as (d & _ & _ & Ho & _).
  apply Forall_forall. intros o Hin.
  rewrite Ho, py_sort_perm, fan_out_perm in Hin.
  apply elem_of_concat in Hin as (l & Ho' & Hl).
  apply list_elem_of_fmap in Hl as (qt & -> & Hqt).
  unfold fetch_query_results in Ho'.
  apply list_elem_of_fmap in Ho' as (row & -> & Hrow).
  apply query_all_where in Hrow as [_ Hw].
  apply list_elem_of_lookup in Hqt as [i Hi].
  destruct (Forall2_lookup_r _ _ _ _ _ Hcand Hi)
    as (f & Hf & Htab & _ & _ & _ & Hsen & Hnod).
  unfold Query.where_ in Hw.
  apply andb_prop in Hw as [[_ Hn]%andb_prop Hs].
  simpl. split; [|split].
  - intros Hne. destruct (resolved_nodes pg args) as [|x l'] eqn:E; [done|].
    rewrite Hnod in Hn. by apply in_opt_some in Hn.
  - intros Hne. destruct ss as [|x l']; [done|].
    rewrite Hsen in Hs. by apply in_opt_some in Hs.
  - exists f, (snd qt). split; [by eapply list_elem_of_lookup_2|]. by split.
Qed.

Lemma observations_match_filters_witness :
  let args := Scenario.args ["temperature"; "humidity"] 1000 0 in
  let request := get_observation_queries Scenario.pg Scenario.rs
                   (Scenario.ra "temperature,humidity") args in
  resolved_nodes Scenario.pg args = ["n1"; "n2"] /\
  exists resp,
    run_observation_queries [] (Scenario.ra "temperature,humidity")
      (Scenario.args_of request) (Plan (Scenario.plan_of request)) = Ok resp /\
    length (objects resp) = 3%nat /\
    Forall (fun o => PyStr.lower (Obs.node_id o) ∈ ["n1"; "n2"] /\
                     PyStr.lower (Obs.sensor o) ∈ ["tmp112"])
           (objects resp).
Proof.
  intros args request.
  assert (Hplan : request = Ok (Scenario.args_of request, Plan (Scenario.plan_of request)))
    by (vm_compute; reflexivity).
  assert (Hnodes : resolved_nodes Scenario.pg args = ["n1"; "n2"])
    by (vm_compute; reflexivity).
  eassert (Hrun : run_observation_queries [] (Scenario.ra "temperature,humidity")
                    (Scenario.args_of request) (Plan (Scenario.plan_of request)) = Ok _)
    by (vm_compute; reflexivity).
  split; [exact Hnodes|].
  eexists. split; [exact Hrun|]. split; [vm_compute; reflexivity|].
  eapply Forall_impl.
  - exact (observations_match_filters Scenario.pg Scenario.rs
             (Scenario.ra "temperature,humidity") [] args
             (Scenario.args_of request) (Scenario.plan_of request) _
             ["temperature"; "humidity"] ["tmp112"] 1000 0
             eq_refl eq_refl eq_refl eq_refl Hplan Hrun).
  - intros o (Hn & Hs & _). rewrite Hnodes in Hn.
    split; [apply Hn; discriminate|apply Hs; discriminate].
Defined.

(** ** Letter case and list parameters *)

Lemma lower_ascii_idemp c : PyStr.lower_ascii (PyStr.lower_ascii c) = PyStr.lower_ascii c.
Proof. by destruct c as [[] [] [] [] [] [] [] []]. Qed.

Lemma lower_idemp s : PyStr.lower (PyStr.lower s) = PyStr.lower s.
Proof.
  induction s as [|c s IH]; simpl; [done|]. by rewrite lower_ascii_idemp, IH.
Qed.

Lemma lower_empty s : PyStr.lower s = EmptyString <-> s = EmptyString.
Proof. by destruct s. Qed.

Lemma lower_ascii_comma c :
  Ascii.eqb (PyStr.lower_ascii c) ","%char = Ascii.eqb c ","%char.
Proof. by destruct c as [[] [] [] [] [] [] [] []]. Qed.

Lemma split_nonempty sep s : PyStr.split sep s <> [].
Proof.
  destruct s as [|c s]; simpl; [done|].
  destruct (Ascii.eqb c sep); [done|]. by destruct (PyStr.split sep s).
Qed.

Lemma lower_split_comma s :
  map PyStr.lower (PyStr.split ","%char s) = PyStr.split ","%char (PyStr.lower s).
Proof.
  induction s as [|c s IH]; simpl; [done|].
  rewrite lower_ascii_comma, <- IH.
  destruct (Ascii.eqb c ","%char); simpl; [done|].
  destruct (PyStr.split ","%char s) eqn:E; [by apply split_nonempty in E|done].
Qed.

Lemma join_split sep s :
  PyStr.join (String sep EmptyString) (PyStr.split sep s) = s.
Proof.
  induction s as [|c s IH]; simpl; [done|].
  destruct (Ascii.eqb c sep) eqn:E.
  - apply Ascii.eqb_eq in E as ->.
    destruct (PyStr.split sep s) as [|h t] eqn:Hs; [by apply split_nonempty in Hs|].
    change (PyStr.join (String sep EmptyString) (EmptyString :: h :: t))
      with (EmptyString +:+ String sep EmptyString
            +:+ PyStr.join (String sep EmptyString) (h :: t)).
    by rewrite IH.
  - destruct (PyStr.split sep s) as [|h t] eqn:Hs; [by apply split_nonempty in Hs|].
    destruct t as [|h' t].
    + simpl in *. by rewrite IH.
    + change (PyStr.join (String sep EmptyString) (String c h :: h' :: t))
        with (String c h +:+ String sep EmptyString
              +:+ PyStr.join (String sep EmptyString) (h' :: t)).
      change (PyStr.join (String sep EmptyString) (h :: h' :: t))
        with (h +:+ String sep EmptyString
              +:+ PyStr.join (String sep EmptyString) (h' :: t)) in IH.
      by rewrite <- IH.
Qed.

Lemma split_pieces sep s : Forall (fun x => occurs sep x = false) (PyStr.split sep s).
Proof.
  induction s as [|c s IH]; simpl; [by constructor|].
  destruct (Ascii.eqb c sep) eqn:E; [by constructor|].
  destruct (PyStr.split sep s) as [|h t]; [constructor; [simpl; by rewrite E|done]|].
  inversion IH; subst. constructor; [|done]. simpl. by rewrite E.
Qed.

Lemma split_lower_other k k' args : k' <> k -> split_lower k args !! k' = args !! k'.
Proof.
  intros Hne. unfold split_lower.
  destruct (args !! k) as [[]|]; try done. by rewrite lookup_insert_ne.
Qed.

Lemma split_lower_same k args s :
  args !! k = Some (VStr s) ->
  split_lower k args !! k = Some (VList (map PyStr.lower (PyStr.split ","%char s))).
Proof.
  intros H. unfold split_lower. rewrite H. by rewrite lookup_insert_eq.
Qed.

Lemma split_lower_lookup k args :
  split_lower k args !! k =
  match args !! k with
  | Some (VStr s) => Some (VList (map PyStr.lower (PyStr.split ","%char s)))
  | o => o
  end.
Proof.
  unfold split_lower. destruct (args !! k) as [[]|] eqn:E; try done.
  by rewrite lookup_insert_eq.
Qed.

Lemma split_lower_absent k args : args !! k = None -> split_lower k args !! k = None.
Proof. intros H. unfold split_lower. by rewrite H. Qed.

Lemma to_dict_first ra k s rest : ra !! k = Some (s :: rest) -> to_dict ra !! k = Some (VStr s).
Proof. intros H. unfold to_dict. by rewrite lookup_omap, H. Qed.

Lemma to_dict_absent ra k : ra !! k = None -> to_dict ra !! k = None.
Proof. intros H. unfold to_dict. by rewrite lookup_omap, H. Qed.

(** [get_observations] validates the bag [observation_args]. *)
Lemma get_observations_args validate pg rs sched ra net :
  get_observations validate pg rs sched ra (Some net) =
  let validated_args := validate (observation_args ra net) in
  if bool_decide (errors validated_args = []) then
    let! planned := get_observation_queries pg rs ra validated_args in
    run_observation_queries sched ra (fst planned) (snd planned)
  else Ok (bad_request ra (VList (errors validated_args))).
Proof. reflexivity. Qed.

(** The comma-separated parameters [nodes], [features_of_interest] and
    [sensors] reach the validator as the same list from the
    observation endpoint and from the datadump endpoint: the pieces of
    the first value sent, lower-cased, none holding a comma, and such
    that joining them with commas gives back the lower-cased parameter.
    A parameter that was not sent stays absent.  The network name is
    lower-cased by the datadump endpoint only. *)
Theorem list_parameters_normalised ra net k :
  k ∈ ["nodes"; "features_of_interest"; "sensors"] ->
  (forall s rest, ra !! k = Some (s :: rest) ->
     exists l,
       observation_args ra net !! k = Some (VList l) /\
       datadump_args ra net !! k = Some (VList l) /\
       l <> [] /\
       PyStr.join "," l = PyStr.lower s /\
       Forall (fun x => PyStr.lower x = x /\ occurs ","%char x = false) l) /\
  (ra !! k = None ->
     observation_args ra net !! k = None /\ datadump_args ra net !! k = None) /\
  observation_args ra net !! "network_name" = Some (VStr net) /\
  datadump_args ra net !! "network_name" = Some (VStr (PyStr.lower net)).
Proof.
  intros Hk.
  assert (Hne : k <> "network_name").
  { intros ->. apply list_elem_of_In in Hk. simpl in Hk.
    destruct Hk as [|[|[|[]]]]; discriminate. }
  assert (Hobs : forall v,
            <["network_name" := VStr net]> (to_dict ra) !! k = v ->
            forall n', <["network_name" := VStr n']> (to_dict ra) !! k = v).
  { intros v <- n'. by rewrite !lookup_insert_ne. }
  assert (Hboth : forall a : gmap string value,
            split_lower "sensors" (split_lower "features_of_interest"
              (split_lower "nodes" a)) !! k = split_lower k a !! k /\
            split_lower "features_of_interest" (split_lower "sensors"
              (split_lower "nodes" a)) !! k = split_lower k a !! k).
  { intros a. apply list_elem_of_In in Hk. simpl in Hk.
    destruct Hk as [<-|[<-|[<-|[]]]].
    - split.
      + rewrite (split_lower_other "sensors") by done.
        by rewrite (split_lower_other "features_of_interest").
      + rewrite (split_lower_other "features_of_interest") by done.
        by rewrite (split_lower_other "sensors").
    - split.
      + rewrite (split_lower_other "sensors") by done.
        by rewrite !split_lower_lookup, (split_lower_other "nodes").
      + rewrite !split_lower_lookup.
        by rewrite (split_lower_other "sensors"), (split_lower_other "nodes").
    - split.
      + rewrite !split_lower_lookup.
        by rewrite (split_lower_other "features_of_interest"),
             (split_lower_other "nodes").
      + rewrite (split_lower_other "features_of_interest") by done.
        by rewrite !split_lower_lookup, (split_lower_other "nodes"). }
  assert (Hone : forall a : gmap string value, forall s,
            a !! k = Some (VStr s) ->
            split_lower "sensors" (split_lower "features_of_interest"
              (split_lower "nodes" a)) !! k
            = Some (VList (map PyStr.lower (PyStr.split ","%char s))) /\
            split_lower "features_of_interest" (split_lower "sensors"
              (split_lower "nodes" a)) !! k
            = Some (VList (map PyStr.lower (PyStr.split ","%char s)))).
  { intros a s Ha. destruct (Hboth a) as [-> ->].
    split; by apply split_lower_same. }
  assert (Hnone : forall a : gmap string value,
            a !! k = None ->
            split_lower "sensors" (split_lower "features_of_interest"
              (split_lower "nodes" a)) !! k = None /\
            split_lower "features_of_interest" (split_lower "sensors"
              (split_lower "nodes" a)) !! k = None).
  { intros a Ha. destruct (Hboth a) as [-> ->].
    split; by apply split_lower_absent. }
  split; [|split; [|split]].
  - intros s rest Hra. apply to_dict_first in Hra.
    exists (map PyStr.lower (PyStr.split ","%char s)).
    unfold observation_args, datadump_args.
    split; [apply Hone; by rewrite lookup_insert_ne|].
    split; [apply Hone; by rewrite lookup_insert_ne|].
    split; [|split].
    + intros E. apply fmap_nil_inv in E. by apply split_nonempty in E.
    + by rewrite lower_split_comma, (join_split ","%char).
    + rewrite lower_split_comma. apply Forall_forall. intros x Hx. split.
      * rewrite <- lower_split_comma in Hx.
        apply list_elem_of_fmap in Hx as (y & -> & _). apply lower_idemp.
      * pose proof (split_pieces ","%char (PyStr.lower s)) as Hp.
        rewrite Forall_forall in Hp. by apply Hp.
  - intros Hra. apply to_dict_absent in Hra.
    unfold observation_args, datadump_args.
    split; apply Hnone; by rewrite lookup_insert_ne.
  - unfold observation_args. rewrite !split_lower_other by done.
    by rewrite lookup_insert_eq.
  - unfold datadump_args. rewrite !split_lower_other by done.
    by rewrite lookup_insert_eq.
Qed.

Lemma list_parameters_normalised_witness :
  let ra : gmap string (list string) := <["nodes" := ["N1,n2"; "ignored"]]> ∅ in
  "nodes" ∈ ["nodes"; "features_of_interest"; "sensors"] /\
  observation_args ra "AoT" !! "nodes" = Some (VList ["n1"; "n2"]) /\
  datadump_args ra "AoT" !! "nodes" = Some (VList ["n1"; "n2"]) /\
  observation_args ra "AoT" !! "sensors" = None /\
  datadump_args ra "AoT" !! "network_name" = Some (VStr "aot").
Proof.
  intros ra.
  assert (Hk : "nodes" ∈ ["nodes"; "features_of_interest"; "sensors"])
    by (apply list_elem_of_In; simpl; tauto).
  assert (Hs : "sensors" ∈ ["nodes"; "features_of_interest"; "sensors"])
    by (apply list_elem_of_In; simpl; tauto).
  split; [exact Hk|].
  split; [vm_compute; reflexivity|]. split; [vm_compute; reflexivity|].
  split.
  - exact (proj1 (proj1 (proj2 (list_parameters_normalised ra "AoT" "sensors" Hs))
                        eq_refl)).
  - exact (proj2 (proj2 (proj2 (list_parameters_normalised ra "AoT" "nodes" Hk)))).
Defined.

Lemma sql_lower_eq_case col s1 s2 :
  PyStr.lower s1 = PyStr.lower s2 ->
  sql_lower_eq col (VStr s1) = sql_lower_eq col (VStr s2).
Proof. intros H. simpl. by rewrite H. Qed.

Lemma truthy_case s1 s2 :
  PyStr.lower s1 = PyStr.lower s2 -> truthy (VStr s1) = truthy (VStr s2).
Proof.
  intros H. simpl. f_equal. apply bool_decide_ext.
  rewrite <- (lower_empty s1), <- (lower_empty s2). by rewrite H.
Qed.

(** The node filter compares the network name and the single node id
    without regard to letter case: two requests that differ only in
    the case of these two arguments select the same nodes.  The
    entries of the [nodes] list are compared as they are with the
    lower-cased id, so a list whose entries all hold an upper-case
    letter selects no node. *)
Theorem node_filter_ignores_case pg args1 args2 net1 net2 id1 id2 :
  data args1 !! "network_name" = Some (VStr net1) ->
  data args2 !! "network_name" = Some (VStr net2) ->
  PyStr.lower net1 = PyStr.lower net2 ->
  data args1 !! "node_id" = Some (VStr id1) ->
  data args2 !! "node_id" = Some (VStr id2) ->
  PyStr.lower id1 = PyStr.lower id2 ->
  data args1 !! "nodes" = data args2 !! "nodes" ->
  data args1 !! "geom" = data args2 !! "geom" ->
  (forall n, node_metadata_query pg args1 n = node_metadata_query pg args2 n) /\
  resolved_nodes pg args1 = resolved_nodes pg args2 /\
  (forall n l, data args1 !! "nodes" = Some (VList l) -> l <> [] ->
               Forall (fun x => PyStr.lower x <> x) l ->
               node_metadata_query pg args1 n = false).
Proof.
  intros Hn1 Hn2 Hnet Hi1 Hi2 Hid Hnodes Hgeom.
  assert (Hq : forall n, node_metadata_query pg args1 n = node_metadata_query pg args2 n).
  { intros n. unfold node_metadata_query, get.
    rewrite Hn1, Hn2, Hi1, Hi2, Hnodes, Hgeom. simpl default.
    rewrite (sql_lower_eq_case _ net1 net2 Hnet), (truthy_case id1 id2 Hid),
      (sql_lower_eq_case _ id1 id2 Hid). done. }
  split; [exact Hq|]. split.
  - unfold resolved_nodes, node_query_all. f_equal.
    apply list_filter_iff. intros n. by rewrite Hq.
  - intros n l Hl Hne Hup. unfold node_metadata_query, get. rewrite Hl. simpl.
    rewrite (bool_decide_eq_false_2 (l = [])) by done. simpl.
    rewrite (bool_decide_eq_false_2 (PyStr.lower (NodeMeta.id n) ∈ l)).
    + by rewrite !andb_false_r.
    + intros Hin. rewrite Forall_forall in Hup.
      apply (Hup _ Hin), lower_idemp.
Qed.

Lemma node_filter_ignores_case_witness :
  let a1 := mkArgs (<["node_id" := VStr "N1"]> (<["network_name" := VStr "AOT"]>
                      (Scenario.bag [] 1000 0))) [] [] in
  let a2 := mkArgs (<["node_id" := VStr "n1"]> (Scenario.bag [] 1000 0)) [] [] in
  resolved_nodes Scenario.pg a1 = resolved_nodes Scenario.pg a2 /\
  resolved_nodes Scenario.pg a2 = ["n1"].
Proof.
  intros a1 a2. split; [|vm_compute; reflexivity].
  exact (proj1 (proj2 (node_filter_ignores_case Scenario.pg a1 a2 "AOT" "aot" "N1" "n1"
                         eq_refl eq_refl eq_refl eq_refl eq_refl eq_refl
                         eq_refl eq_refl))).
Defined.

(** ** Formatting a row *)

Lemma assoc_elem k v l : assoc k l = Some v -> (k, v) ∈ l.
Proof.
  induction l as [|[k' v'] l IH]; simpl; [done|].
  case_bool_decide as E.
  - intros [= <-]. subst. apply list_elem_of_here.
  - intros H. apply list_elem_of_further. by apply IH.
Qed.

(** The [results] of a formatted observation hold one entry for each
    column of the table other than [node_id], [datetime], [sensor] and
    [meta_id], once each, with the value the row has for it ([None]
    when the row lacks the property); the other fields are those of
    the row and the name of the table. *)
Theorem format_observation_results obs table :
  let o := format_observation obs table in
  NoDup (map fst (Obs.results o)) /\
  (forall k, k ∈ map fst (Obs.results o) <-> k ∈ Table.c table /\ k ∉ key_columns) /\
  (forall k v, (k, v) ∈ Obs.results o -> v = getattr obs k) /\
  (forall k, k ∈ key_columns -> assoc k (Obs.results o) = None) /\
  Obs.node_id o = ObsRow.node_id obs /\ Obs.meta_id o = ObsRow.meta_id obs /\
  Obs.sensor o = ObsRow.sensor obs /\ Obs.feature_of_interest o = Table.name table.
Proof.
  simpl. rewrite map_map. simpl. rewrite map_id.
  split; [apply NoDup_filter, NoDup_remove_dups|].
  split; [intros k; rewrite list_elem_of_filter, elem_of_remove_dups; tauto|].
  split.
  - intros k v Hin. apply list_elem_of_fmap in Hin as (p & [= -> ->] & _). done.
  - split; [|done]. intros k Hk.
    destruct (assoc k _) as [v|] eqn:E; [|done].
    apply assoc_elem, list_elem_of_fmap in E as (p & [= -> ->] & Hp).
    by apply list_elem_of_filter in Hp as [? _].
Qed.

(** ** When the executor fails *)

Lemma pop_unless_requested_cases ra k d :
  ((ra !! k = None -> is_Some (d !! k)) /\
   exists d', pop_unless_requested ra k d = Ok d' /\
              forall k', k' <> k -> d' !! k' = d !! k') \/
  (ra !! k = None /\ d !! k = None /\
   pop_unless_requested ra k d = Raise (KeyError k)).
Proof.
  unfold pop_unless_requested, pop.
  destruct (ra !! k) as [vs|] eqn:Hra.
  - left. split; [done|]. by exists d.
  - destruct (d !! k) as [v|] eqn:Hd.
    + left. split; [by eauto|]. exists (delete k d). split; [done|].
      intros k' Hne. by rewrite lookup_delete_ne.
    + by right.
Qed.

Lemma strip_if_requested_cases ra k d :
  ((is_Some (ra !! k) -> exists s, d !! k = Some (VStr s)) /\
   exists d', strip_if_requested ra k d = Ok d' /\
              forall k', k' <> k -> d' !! k' = d !! k') \/
  (is_Some (ra !! k) /\ (forall s, d !! k <> Some (VStr s)) /\
   (strip_if_requested ra k d = Raise (KeyError k) \/
    strip_if_requested ra k d = Raise (AttributeError "split"))).
Proof.
  unfold strip_if_requested, getitem.
  destruct (ra !! k) as [vs|] eqn:Hra.
  - destruct (d !! k) as [[| |s|]|] eqn:Hd; simpl.
    + right. split; [by eauto|]. split; [done|]. by right.
    + right. split; [by eauto|]. split; [done|]. by right.
    + left. split; [by eauto|]. eexists. split; [done|].
      intros k' Hne. by rewrite lookup_insert_ne.
    + right. split; [by eauto|]. split; [done|]. by right.
    + right. split; [by eauto|]. split; [done|]. by left.
  - left. split; [by intros [? ?]|]. by exists d.
Qed.

Lemma echo_data_cases ra d :
  let need_key k := ra !! k = None -> is_Some (d !! k) in
  let need_str k := is_Some (ra !! k) -> exists s, d !! k = Some (VStr s) in
  ((need_key "nodes" /\ need_key "features_of_interest" /\ need_key "sensors" /\
    need_str "start_datetime" /\ need_str "end_datetime") /\
   exists d', echo_data ra d = Ok d') \/
  (~ (need_key "nodes" /\ need_key "features_of_interest" /\ need_key "sensors" /\
      need_str "start_datetime" /\ need_str "end_datetime") /\
   exists e, echo_data ra d = Raise e /\
             ((exists k, e = KeyError k) \/ e = AttributeError "split")).
Proof.
  intros need_key need_str. unfold echo_data.
  destruct (pop_unless_requested_cases ra "nodes" d)
    as [[C1 (d1 & -> & K1)]|(Hra & Hd & ->)]; simpl;
    [|right; split;
      [intros (Hn & _); destruct (Hn Hra); congruence|by eauto 6]].
  destruct (pop_unless_requested_cases ra "features_of_interest" d1)
    as [[C2 (d2 & -> & K2)]|(Hra & Hd & ->)]; simpl;
    [|right; split;
      [intros (_ & Hn & _); destruct (Hn Hra) as [v Hv];
       rewrite K1 in Hd by done; congruence|by eauto 6]].
  destruct (pop_unless_requested_cases ra "sensors" d2)
    as [[C3 (d3 & -> & K3)]|(Hra & Hd & ->)]; simpl;
    [|right; split;
      [intros (_ & _ & Hn & _); destruct (Hn Hra) as [v Hv];
       rewrite K2, K1 in Hd by done; congruence|by eauto 6]].
  assert (K4 : forall k, k <> "nodes" -> k <> "features_of_interest" ->
                         k <> "sensors" -> k <> "geom" ->
                         delete "geom" d3 !! k = d !! k).
  { intros k ????. by rewrite lookup_delete_ne, K3, K2, K1. }
  destruct (strip_if_requested_cases ra "start_datetime" (delete "geom" d3))
    as [[C4 (d4 & -> & K5)]|(Hra & Hd & He)]; simpl.
  2:{ right. split.
      - intros (_ & _ & _ & Hn & _). destruct (Hn Hra) as [s' Hs'].
        apply (Hd s'). by rewrite K4.
      - destruct He as [->| ->]; simpl; by eauto 6. }
  destruct (strip_if_requested_cases ra "end_datetime" d4)
    as [[C5 (d5 & -> & K6)]|(Hra & Hd & He)]; simpl.
  2:{ right. split.
      - intros (_ & _ & _ & _ & Hn). destruct (Hn Hra) as [s' Hs'].
        apply (Hd s'). by rewrite K5, K4.
      - destruct He as [->| ->]; simpl; by eauto 6. }
  left. split; [|by eauto].
  split; [exact C1|].
  split; [intros Hra; destruct (C2 Hra) as [v Hv]; rewrite K1 in Hv by done; by eauto|].
  split; [intros Hra; destruct (C3 Hra) as [v Hv];
          rewrite K2, K1 in Hv by done; by eauto|].
  split.
  - intros Hra. destruct (C4 Hra) as [s' Hs']. rewrite K4 in Hs' by done. by eauto.
  - intros Hra. destruct (C5 Hra) as [s' Hs']. rewrite K5, K4 in Hs' by done. by eauto.
Qed.

(** The executor answers a plan exactly when the argument bag can be
    cleaned for the echo: each of [nodes], [features_of_interest] and
    [sensors] that the request did not send must be a key of the bag
    (it is popped), and each of [start_datetime] and [end_datetime]
    that the request did send must hold a string in the bag (it is
    split at the [+]).  Otherwise the call raises [KeyError] or
    [AttributeError], after the queries have run; it raises nothing
    else. *)
Theorem executor_fails_only_on_echo sched ra args qs :
  let need_key k := ra !! k = None -> is_Some (data args !! k) in
  let need_str k := is_Some (ra !! k) -> exists s, data args !! k = Some (VStr s) in
  ((exists resp, run_observation_queries sched ra args (Plan qs) = Ok resp) <->
   need_key "nodes" /\ need_key "features_of_interest" /\ need_key "sensors" /\
   need_str "start_datetime" /\ need_str "end_datetime") /\
  (forall e, run_observation_queries sched ra args (Plan qs) = Raise e ->
             (exists k, e = KeyError k) \/ e = AttributeError "split").
Proof.
  intros need_key need_str. unfold run_observation_queries. simpl.
  destruct (echo_data_cases ra (data args)) as [[C (d & ->)]|[C (e & -> & He)]]; simpl.
  - split; [|done]. split; [done|]. by eauto.
  - split; [|by intros e' [= <-]]. split; [by intros [resp ?]|done].
Qed.

(** ** Detail responses *)

Lemma item_filter_keep (P : string * Detail.cell -> Prop)
    `{!forall x, Decision (P x)} name r :
  (forall v, P (name, v)) -> Detail.item name (filter P r) = Detail.item name r.
Proof.
  intros HP. induction r as [|[k v] r IH]; [done|].
  rewrite filter_cons. simpl. destruct (decide (P (k, v))) as [Hk|Hk]; simpl.
  - case_bool_decide; [done|exact IH].
  - case_bool_decide as E; [subst; by destruct Hk|exact IH].
Qed.

Lemma item_filter_drop (P : string * Detail.cell -> Prop)
    `{!forall x, Decision (P x)} name r :
  (forall v, ~ P (name, v)) -> Detail.item name (filter P r) = None.
Proof.
  intros HP. induction r as [|[k v] r IH]; [done|].
  rewrite filter_cons. simpl. destruct (decide (P (k, v))) as [Hk|Hk]; simpl; [|exact IH].
  case_bool_decide as E; [subst; by destruct (HP v)|exact IH].
Qed.

Lemma without_absent name r : Detail.item name r = None -> Detail.without name r = r.
Proof.
  unfold Detail.without. induction r as [|[k v] r IH]; [done|]. simpl.
  case_bool_decide as E; [done|]. intros H.
  rewrite filter_cons. simpl. destruct (decide (k <> name)); [|done].
  by rewrite IH.
Qed.

Lemma try_del_ok r name : Detail.try_del r name = Ok (Detail.without name r).
Proof.
  unfold Detail.try_del, Detail.delitem.
  destruct (Detail.item name r) eqn:E; [done|]. by rewrite without_absent.
Qed.

Lemma remove_columns_from_row_ok r cols :
  Detail.remove_columns_from_row r cols
  = Ok (filter (fun kv => fst kv ∉ cols) r).
Proof.
  revert r. induction cols as [|c cols IH]; intros r; simpl.
  - f_equal. induction r as [|kv r IH]; [done|].
    rewrite filter_cons_True by apply not_elem_of_nil. by rewrite <- IH at 1.
  - rewrite try_del_ok. simpl. rewrite IH. f_equal.
    unfold Detail.without. rewrite list_filter_filter.
    apply list_filter_iff. intros kv. rewrite not_elem_of_cons. tauto.
Qed.

Lemma remove_columns_from_dict_ok rows cols :
  Detail.remove_columns_from_dict rows cols
  = Ok (map (filter (fun kv => fst kv ∉ cols)) rows).
Proof.
  induction rows as [|r rows IH]; simpl; [done|].
  by rewrite remove_columns_from_row_ok, IH.
Qed.

(** [remove_columns_from_dict] never fails, whether or not a row has
    the columns: it keeps the number and order of the rows, and leaves
    of each row exactly the items whose key is not one of the columns,
    in their order. *)
Theorem remove_columns_never_fails rows cols :
  exists rows',
    Detail.remove_columns_from_dict rows cols = Ok rows' /\
    Forall2 (fun r r' =>
               r' = filter (fun kv => fst kv ∉ cols) r /\
               (forall c, c ∈ cols -> Detail.item c r' = None) /\
               (forall c, c ∉ cols -> Detail.item c r' = Detail.item c r))
            rows rows'.
Proof.
  eexists. split; [apply remove_columns_from_dict_ok|].
  apply Forall2_fmap_r, Forall_Forall2_diag, Forall_forall. intros r _.
  split; [done|]. split.
  - intros c Hc. apply item_filter_drop. by intros v H.
  - intros c Hc. by apply item_filter_keep.
Qed.

Lemma reduce_join x l :
  foldl (fun name1 name2 => name1 +:+ "_and_" +:+ name2) x l
  = PyStr.join "_and_" (x :: l).
Proof.
  revert x. induction l as [|y l IH]; intros x; [done|].
  simpl foldl. rewrite IH.
  change (PyStr.join "_and_" (x :: y :: l))
    with (x +:+ "_and_" +:+ PyStr.join "_and_" (y :: l)).
  destruct l as [|z l].
  - done.
  - change (PyStr.join "_and_" ((x +:+ "_and_" +:+ y) :: z :: l))
      with ((x +:+ "_and_" +:+ y) +:+ "_and_" +:+ PyStr.join "_and_" (z :: l)).
    change (PyStr.join "_and_" (y :: z :: l))
      with (y +:+ "_and_" +:+ PyStr.join "_and_" (z :: l)).
    by rewrite !PyStrFacts.append_assoc.
Qed.

Lemma geom_desc_filter (cols : list string) (r : list (string * Detail.cell)) :
  "geom" ∉ cols ->
  Detail.geom_desc (filter (fun kv => fst kv ∉ cols) r) = Detail.geom_desc r.
Proof.
  intros H. unfold Detail.geom_desc.
  by rewrite item_filter_keep.
Qed.

Lemma geom_rows_filter (cols : list string) (rows : list (list (string * Detail.cell))) :
  "geom" ∉ cols ->
  filter (fun r => is_Some (Detail.geom_desc r))
         (map (filter (fun kv => fst kv ∉ cols)) rows)
  = map (filter (fun kv => fst kv ∉ cols))
        (filter (fun r => is_Some (Detail.geom_desc r)) rows).
Proof.
  intros Hg. induction rows as [|r rows IH]; [done|]. simpl.
  rewrite !filter_cons, geom_desc_filter by done.
  destruct (decide (is_Some (Detail.geom_desc r))); simpl; by rewrite IH.
Qed.

Section DetailFacts.
Variable make_csv : list (list Detail.cell) -> string.
Variable geometry : Type.
Variable wkb_loads : string -> result geometry.
Variable today : string.

(** The JSON detail response shows every row of the result, in order,
    without the columns [point_date], [hash] and [geom]; it reports
    their number as [total], echoes the request arguments as sent, and
    carries the validator's warnings. *)
Theorem json_detail_response_shape ra rows args :
  data args !! "data_type" = Some (VStr "json") ->
  exists r,
    Detail.detail_response make_csv geometry wkb_loads today ra rows args
    = Ok (Some (Detail.Json r)) /\
    Detail.objects r
    = map (filter (fun kv => fst kv ∉ ["point_date"; "hash"; "geom"])) rows /\
    Detail.meta_total r = Z.of_nat (length rows) /\
    Detail.meta_query r = ra /\
    Detail.meta_message r = warnings args /\
    Detail.json_status r = 200.
Proof.
  intros Hd. unfold Detail.detail_response, getitem. rewrite Hd. simpl.
  unfold Detail.form_json_detail_response.
  rewrite remove_columns_from_dict_ok. simpl.
  eexists. split; [reflexivity|]. simpl. by rewrite length_map.
Qed.

(** The CSV detail response.  Its body is made from the rows without
    the removed columns and [geom]: two lines of apology when there is
    no row, otherwise the keys of the first row followed by one line of
    values per row.  The file is named after the [dataset_name] of the
    request or else the given names joined with [_and_]; with neither,
    the call raises [TypeError]. *)
Theorem csv_detail_response_shape ra to_remove rows names :
  let shown := map (filter (fun kv => fst kv ∉ to_remove ++ ["geom"])) rows in
  let answer dname :=
    Ok (Detail.mkCsv 200 (make_csv (Detail.csv_lines shown)) "text/csv"
          ("attachment; filename=" +:+ dname +:+ "_" +:+ today +:+ ".csv")) in
  (forall dname, Detail.request_get ra "dataset_name" = Some dname ->
     Detail.form_csv_detail_response make_csv today ra to_remove rows names
     = answer dname) /\
  (forall x l, Detail.request_get ra "dataset_name" = None -> names = Some (x :: l) ->
     Detail.form_csv_detail_response make_csv today ra to_remove rows names
     = answer (PyStr.join "_and_" (x :: l))) /\
  (Detail.request_get ra "dataset_name" = None -> names = None \/ names = Some [] ->
     exists msg, Detail.form_csv_detail_response make_csv today ra to_remove rows names
                 = Raise (TypeError msg)) /\
  (rows = [] -> length (Detail.csv_lines shown) = 2%nat) /\
  (forall r rest, rows = r :: rest ->
     Detail.csv_lines shown
     = map (fun kv => Detail.Val (VStr (fst kv)))
           (filter (fun kv => fst kv ∉ to_remove ++ ["geom"]) r)
       :: map (map snd) shown /\
     length (Detail.csv_lines shown) = S (length rows)).
Proof.
  intros shown answer. unfold Detail.form_csv_detail_response.
  rewrite remove_columns_from_dict_ok. simpl. fold shown.
  split; [|split; [|split; [|split]]].
  - by intros dname ->.
  - intros x l -> ->. simpl. by rewrite reduce_join.
  - intros -> [-> | ->]; simpl; by eauto.
  - intros ->. done.
  - intros r rest ->. subst shown. simpl. split; [done|]. by rewrite !length_map.
Qed.

Lemma convert_result_geoms_ok rows :
  (forall r desc, r ∈ rows -> Detail.geom_desc r = Some desc ->
                  exists g, wkb_loads desc = Ok g) ->
  exists fs,
    Detail.convert_result_geoms geometry wkb_loads rows = Ok fs /\
    Forall2 (fun r f =>
               exists desc, Detail.geom_desc r = Some desc /\
                            wkb_loads desc = Ok (Detail.feature_geometry f) /\
                            Detail.feature_properties f = Detail.without "geom" r)
            (filter (fun r => is_Some (Detail.geom_desc r)) rows) fs.
Proof.
  induction rows as [|r rows IH]; intros Hl; simpl.
  - exists []. split; [done|constructor].
  - destruct IH as (fs & Hfs & Hall).
    { intros r' desc Hin. apply Hl. by apply list_elem_of_further. }
    rewrite filter_cons. unfold Detail.pop.
    pose proof (Hl r) as Hr. unfold Detail.geom_desc in Hr, Hall |- *.
    destruct (Detail.item "geom" r) as [[v|desc]|] eqn:E; simpl.
    + destruct (decide (is_Some (@None string))) as [[? ?]|_]; [done|].
      by exists fs.
    + destruct (decide (is_Some (Some desc))) as [_|Hn]; [|by destruct Hn; eauto].
      destruct (Hr desc (list_elem_of_here _ _) eq_refl) as [g Hg].
      rewrite Hg, Hfs. simpl. eexists. split; [reflexivity|].
      constructor; [|done]. exists desc. simpl. by rewrite E.
    + destruct (decide (is_Some (@None string))) as [[? ?]|_]; [done|].
      by exists fs.
Qed.

(** The GeoJSON detail response holds one feature per row that has a
    geometry element under [geom], in the order of the rows: its
    geometry is read from the element, its properties are the rest of
    the row without the removed columns.  Rows without [geom], or
    whose [geom] is no geometry element, are passed over; so removing
    the column [geom] beforehand leaves no feature at all. *)
Theorem geojson_detail_response_shape to_remove rows :
  (forall r desc, r ∈ rows -> Detail.geom_desc r = Some desc ->
                  exists g, wkb_loads desc = Ok g) ->
  ("geom" ∉ to_remove ->
   exists fs,
     Detail.form_geojson_detail_response geometry wkb_loads to_remove rows
     = Ok (Detail.mkGeo 200 "application/json" fs) /\
     Forall2 (fun r f =>
                exists desc, Detail.geom_desc r = Some desc /\
                             wkb_loads desc = Ok (Detail.feature_geometry f) /\
                             Detail.feature_properties f
                             = filter (fun kv => fst kv ∉ "geom" :: to_remove) r)
             (filter (fun r => is_Some (Detail.geom_desc r)) rows) fs) /\
  ("geom" ∈ to_remove ->
   Detail.form_geojson_detail_response geometry wkb_loads to_remove rows
   = Ok (Detail.mkGeo 200 "application/json" [])).
Proof.
  intros Hl. unfold Detail.form_geojson_detail_response.
  rewrite remove_columns_from_dict_ok. simpl. split.
  - intros Hg.
    destruct (convert_result_geoms_ok
                (map (filter (fun kv => fst kv ∉ to_remove)) rows)) as (fs & -> & Hall).
    { intros r' desc Hin Hd. apply list_elem_of_fmap in Hin as (r & -> & Hin).
      rewrite geom_desc_filter in Hd by done. by eapply Hl. }
    simpl. exists fs. split; [done|].
    rewrite (geom_rows_filter _ _ Hg) in Hall. apply Forall2_fmap_l in Hall.
    eapply Forall2_impl; [exact Hall|].
    intros r f (desc & Hd & Hg' & Hp). simpl in Hd, Hg', Hp |- *.
    rewrite geom_desc_filter in Hd by done.
    exists desc. split; [done|]. split; [done|].
    rewrite Hp. unfold Detail.without. rewrite list_filter_filter.
    apply list_filter_iff. intros kv. rewrite not_elem_of_cons. tauto.
  - intros Hg.
    assert (Hnone : forall rows',
              Detail.convert_result_geoms geometry wkb_loads
                (map (filter (fun kv => fst kv ∉ to_remove)) rows') = Ok []).
    { induction rows' as [|r rows' IH]; [done|]. simpl. unfold Detail.pop.
      rewrite item_filter_drop by (by intros v H).
      exact IH. }
    by rewrite Hnone.
Qed.

(** How [detail_response] dispatches on [data_type]: a missing key
    raises [KeyError], a value other than [json], [csv] and [geojson]
    gives no response at all ([None]), and [csv] without a
    [dataset_name] in the request raises the [TypeError] of [reduce],
    as no dataset names are passed on. *)
Theorem detail_response_dispatch ra rows args :
  (data args !! "data_type" = None ->
   Detail.detail_response make_csv geometry wkb_loads today ra rows args
   = Raise (KeyError "data_type")) /\
  (forall v, data args !! "data_type" = Some v ->
     v <> VStr "json" -> v <> VStr "csv" -> v <> VStr "geojson" ->
     Detail.detail_response make_csv geometry wkb_loads today ra rows args = Ok None) /\
  (data args !! "data_type" = Some (VStr "csv") ->
   (Detail.request_get ra "dataset_name" = None ->
    exists msg, Detail.detail_response make_csv geometry wkb_loads today ra rows args
                = Raise (TypeError msg)) /\
   (forall dname, Detail.request_get ra "dataset_name" = Some dname ->
      exists r, Detail.detail_response make_csv geometry wkb_loads today ra rows args
                = Ok (Some (Detail.Csv r)) /\
                Detail.csv_content_disposition r
                = "attachment; filename=" +:+ dname +:+ "_" +:+ today +:+ ".csv")).
Proof.
  unfold Detail.detail_response, getitem. split; [|split].
  - by intros ->.
  - intros v -> H1 H2 H3. simpl.
    by rewrite !bool_decide_eq_false_2.
  - intros ->. simpl.
    unfold Detail.form_csv_detail_response.
    rewrite remove_columns_from_dict_ok. simpl.
    split.
    + intros ->. simpl. by eauto.
    + intros dname ->. simpl. by eauto.
Qed.

End DetailFacts.

Lemma json_detail_response_shape_witness :
  let rows := [[("id", Detail.Val (VInt 1)); ("hash", Detail.Val (VStr "ab12"));
                ("geom", Detail.WKB "0101")];
               [("id", Detail.Val (VInt 2)); ("point_date", Detail.Val (VStr "2016-01-01"))]] in
  let args := mkArgs (<["data_type" := VStr "json"]> ∅) [] ["unused parameter"] in
  exists r,
    Detail.detail_response (fun _ => EmptyString) string Ok "2016-06-01" ∅ rows args
    = Ok (Some (Detail.Json r)) /\
    Detail.objects r = [[("id", Detail.Val (VInt 1))]; [("id", Detail.Val (VInt 2))]] /\
    Detail.meta_total r = 2.
Proof.
  intros rows args.
  destruct (json_detail_response_shape (fun _ => EmptyString) string Ok "2016-06-01"
              ∅ rows args eq_refl) as (r & Hr & Ho & Ht & _).
  exists r. split; [exact Hr|]. split; [rewrite Ho; vm_compute; reflexivity|exact Ht].
Defined.

Lemma geojson_detail_response_shape_witness :
  let rows := [[("id", Detail.Val (VInt 1)); ("hash", Detail.Val (VStr "ab12"));
                ("geom", Detail.WKB "0101")];
               [("id", Detail.Val (VInt 2))];
               [("id", Detail.Val (VInt 3)); ("geom", Detail.Val VNone)]] in
  Detail.form_geojson_detail_response string Ok ["point_date"; "hash"] rows
  = Ok (Detail.mkGeo 200 "application/json"
          [Detail.mkFeature "0101" [("id", Detail.Val (VInt 1))]]) /\
  Detail.form_geojson_detail_response string Ok ["geom"] rows
  = Ok (Detail.mkGeo 200 "application/json" []).
Proof.
  intros rows.
  assert (Hl : forall r desc, r ∈ rows -> Detail.geom_desc r = Some desc ->
                              exists g : string, Ok desc = Ok g) by eauto.
  split; [vm_compute; reflexivity|].
  apply (proj2 (geojson_detail_response_shape string Ok ["geom"] rows Hl)).
  apply list_elem_of_here.
Defined.

(** ** Node metadata *)

Lemma drop_null_args_lookup d k v :
  drop_null_args d !! k = Some v <-> d !! k = Some v /\ v <> VNone.
Proof. unfold drop_null_args. by rewrite map_lookup_filter_Some. Qed.

Lemma drop_null_args_absent d k :
  drop_null_args d !! k = None <-> d !! k = None \/ d !! k = Some VNone.
Proof.
  unfold drop_null_args. rewrite map_lookup_filter_None. split.
  - intros [H|H]; [by left|].
    destruct (d !! k) as [v|] eqn:E; [|by left]. right. f_equal.
    destruct (decide (v = VNone)) as [|Hne]; [done|]. by destruct (H v).
  - intros [H|H]; [by left|]. right. intros v Hv. simpl. intros Hne.
    rewrite H in Hv. by injection Hv as <-.
Qed.

(** The node metadata response.  When the request sent no [nodes]
    parameter and the validated [nodes] argument is missing or [None],
    the call raises [KeyError]: the null arguments are dropped before
    [nodes] is popped.  In every other case it answers 200 with the
    formatted nodes that [node_metadata_query] selects, in catalog
    order, and echoes the arguments that are not [None], [nodes] among
    them only if the request sent it. *)
Theorem node_metadata_response_cases {A} (format : NodeMeta.t -> A) pg ra args :
  (ra !! "nodes" = None ->
   data args !! "nodes" = None \/ data args !! "nodes" = Some VNone ->
   _get_node_metadata A format pg ra args = Raise (KeyError "nodes")) /\
  (is_Some (ra !! "nodes") \/
   (exists v, data args !! "nodes" = Some v /\ v <> VNone) ->
   exists r,
     _get_node_metadata A format pg ra args = Ok r /\
     meta_code r = 200 /\
     meta_objects r = map format (node_query_all pg (node_metadata_query pg args)) /\
     meta_warnings r = warnings args /\
     forall k v, meta_echo r !! k = Some v <->
                 data args !! k = Some v /\ v <> VNone /\
                 (k = "nodes" -> is_Some (ra !! "nodes"))).
Proof.
  unfold _get_node_metadata, pop_unless_requested, pop. split.
  - intros -> Hn. apply drop_null_args_absent in Hn. by rewrite Hn.
  - intros Hc. destruct (ra !! "nodes") as [vs|] eqn:Hra.
    + simpl. eexists. split; [reflexivity|]. simpl. do 3 (split; [done|]).
      intros k v. rewrite drop_null_args_lookup. split.
      * intros [? ?]. split; [done|]. split; [done|]. by eauto.
      * by intros (? & ? & _).
    + destruct Hc as [[? ?]|(v0 & Hv0 & Hne)]; [done|].
      assert (Hd : drop_null_args (data args) !! "nodes" = Some v0)
        by (by apply drop_null_args_lookup).
      rewrite Hd. simpl. eexists. split; [reflexivity|]. simpl.
      do 3 (split; [done|]). intros k v.
      destruct (decide (k = "nodes")) as [->|Hk].
      * rewrite lookup_delete_eq. split; [done|]. intros (_ & _ & H).
        by destruct (H eq_refl).
      * rewrite lookup_delete_ne by done. rewrite drop_null_args_lookup. split.
        -- intros [? ?]. split; [done|]. split; [done|]. by intros ->.
        -- by intros (? & ? & _).
Qed.

(** ** The catalog models *)

Lemma dict_lookup_elem {V} (items : list (string * V)) k v :
  Models.dict items !! k = Some v -> (k, v) ∈ items.
Proof.
  unfold Models.dict. intros H. apply elem_of_list_to_map_2 in H.
  by apply elem_of_reverse.
Qed.

Lemma dict_lookup {V} (items : list (string * V)) k v :
  NoDup items.*1 -> Models.dict items !! k = Some v <-> (k, v) ∈ items.
Proof.
  intros Hnd. unfold Models.dict.
  rewrite <- elem_of_list_to_map, elem_of_reverse; [done|].
  by rewrite fmap_reverse, reverse_Permutation.
Qed.

Lemma dom_dict {V} (items : list (string * V)) k :
  k ∈ dom (Models.dict items) <-> k ∈ items.*1.
Proof.
  unfold Models.dict.
  by rewrite dom_list_to_map_L, elem_of_list_to_set, fmap_reverse, elem_of_reverse.
Qed.

Lemma elem_of_values {V} (d : gmap string V) v :
  v ∈ Models.values d <-> exists k, d !! k = Some v.
Proof.
  unfold Models.values. rewrite list_elem_of_fmap. split.
  - intros ([k v'] & -> & Hin). exists k. by apply elem_of_map_to_list.
  - intros [k Hk]. exists (k, v). split; [done|]. by apply elem_of_map_to_list.
Qed.

Lemma elem_of_prefixes x (keys : gset string) :
  x ∈ Models.prefixes keys <-> exists e, e ∈ keys /\ x = PyStr.split_head "."%char e.
Proof.
  unfold Models.prefixes. rewrite elem_of_map. split; intros (e & ? & ?); by exists e.
Qed.

Lemma sensor_tree_keys (s : Sensor.t) e :
  e ∈ dom (Models.SensorMeta_tree s)
  <-> exists k, (k, e) ∈ Sensor.observed_properties s.
Proof.
  unfold Models.SensorMeta_tree. rewrite dom_dict, list_elem_of_fmap. split.
  - intros ([e' k] & -> & Hin). simpl.
    apply list_elem_of_fmap in Hin as ([k' v] & [= -> ->] & Hin). by exists k'.
  - intros [k Hk]. exists (e, k). split; [done|].
    apply list_elem_of_fmap. by exists (k, e).
Qed.

Lemma sensor_features_spec (s : Sensor.t) x :
  x ∈ Models.SensorMeta_features s
  <-> exists k v, (k, v) ∈ Sensor.observed_properties s /\
                  x = PyStr.split_head "."%char v.
Proof.
  unfold Models.SensorMeta_features. rewrite elem_of_prefixes. split.
  - intros (e & He & ->). apply sensor_tree_keys in He as [k Hk]. by exists k, e.
  - intros (k & v & Hin & ->). exists v. split; [|done].
    apply sensor_tree_keys. by exists k.
Qed.

Lemma node_tree_lookup (n : Models.Node) k t :
  NoDup (map Sensor.name (Models.sensors n)) ->
  Models.NodeMeta_tree n !! k = Some t
  <-> exists s, s ∈ Models.sensors n /\ Sensor.name s = k /\
                t = Models.SensorMeta_tree s.
Proof.
  intros Hnd. unfold Models.NodeMeta_tree. rewrite dict_lookup.
  - rewrite list_elem_of_fmap. split.
    + intros (s & [= -> ->] & Hs). by exists s.
    + intros (s & Hs & <- & ->). by exists s.
  - by rewrite <- list_fmap_compose.
Qed.

Lemma network_tree_values (net : Models.Network) t :
  Models.keyed net ->
  t ∈ Models.values (Models.NetworkMeta_tree net)
  <-> exists n, n ∈ Models.nodes net /\ t = Models.NodeMeta_tree n.
Proof.
  intros [Hnd _]. rewrite elem_of_values. unfold Models.NetworkMeta_tree. split.
  - intros [k Hk]. apply dict_lookup_elem, list_elem_of_fmap in Hk
      as (n & [= -> ->] & Hn). by exists n.
  - intros (n & Hn & ->). exists (NodeMeta.id (Models.node n)).
    apply dict_lookup; [by rewrite <- list_fmap_compose|].
    apply list_elem_of_fmap. by exists n.
Qed.

(** On a catalog whose node ids are unique in each network and sensor
    names on each node, the derived views agree with the relations
    they are computed from: the features of a network are the features
    of the sensors on its nodes, and the sensors of a feature are the
    sensors, on a node of one of its networks, that count the feature
    among theirs.  A sensor's features are the parts before the first
    dot of the values of its observed properties. *)
Theorem feature_sensors_converse (f : Models.Feature) :
  Forall Models.keyed (Models.networks f) ->
  (forall x, x ∈ Models.FeatureMeta_sensors f <->
     exists net n s, net ∈ Models.networks f /\ n ∈ Models.nodes net /\
                     s ∈ Models.sensors n /\ Sensor.name s = x /\
                     Models.feature_name f ∈ Models.SensorMeta_features s) /\
  (forall net x, net ∈ Models.networks f ->
     (x ∈ Models.NetworkMeta_features net <->
      exists n s, n ∈ Models.nodes net /\ s ∈ Models.sensors n /\
                  x ∈ Models.SensorMeta_features s)) /\
  (forall s x, x ∈ Models.SensorMeta_features s <->
     exists k v, (k, v) ∈ Sensor.observed_properties s /\
                 x = PyStr.split_head "."%char v).
Proof.
  intros Hkeyed. rewrite Forall_forall in Hkeyed.
  split; [|split; [|apply sensor_features_spec]].
  - intros x. unfold Models.FeatureMeta_sensors.
    rewrite elem_of_union_list. split.
    + intros (X & HX & Hx).
      apply list_elem_of_fmap in HX as (net & -> & Hnet).
      apply elem_of_union_list in Hx as (Y & HY & Hx).
      apply list_elem_of_fmap in HY as (t & -> & Ht).
      pose proof (Hkeyed net Hnet) as Hk.
      apply (network_tree_values _ _ Hk) in Ht as (n & Hn & ->).
      apply elem_of_dom in Hx as [st Hst].
      apply map_lookup_filter_Some in Hst as [Hst HP]. simpl in HP.
      destruct Hk as [_ Hs]. rewrite Forall_forall in Hs.
      apply (node_tree_lookup _ _ _ (Hs n Hn)) in Hst as (s & Hsn & <- & ->).
      by exists net, n, s.
    + intros (net & n & s & Hnet & Hn & Hs & <- & Hf).
      pose proof (Hkeyed net Hnet) as Hk.
      eexists. split; [apply list_elem_of_fmap; by exists net|].
      apply elem_of_union_list. eexists. split.
      * apply list_elem_of_fmap. exists (Models.NodeMeta_tree n). split; [done|].
        apply (network_tree_values _ _ Hk). by exists n.
      * apply elem_of_dom. exists (Models.SensorMeta_tree s).
        apply map_lookup_filter_Some. split; [|done].
        destruct Hk as [_ Hs']. rewrite Forall_forall in Hs'.
        apply (node_tree_lookup _ _ _ (Hs' n Hn)). by exists s.
  - intros net x Hnet. pose proof (Hkeyed net Hnet) as Hk.
    unfold Models.NetworkMeta_features. rewrite elem_of_prefixes. split.
    + intros (e & He & ->).
      apply elem_of_union_list in He as (X & HX & He).
      apply list_elem_of_fmap in HX as (t & -> & Ht).
      apply (network_tree_values _ _ Hk) in Ht as (n & Hn & ->).
      apply elem_of_union_list in He as (Y & HY & He).
      apply list_elem_of_fmap in HY as (st & -> & Hst).
      apply elem_of_values in Hst as [k Hst].
      destruct Hk as [_ Hs]. rewrite Forall_forall in Hs.
      apply (node_tree_lookup _ _ _ (Hs n Hn)) in Hst as (s & Hsn & _ & ->).
      exists n, s. split; [done|]. split; [done|].
      unfold Models.SensorMeta_features. apply elem_of_prefixes. by exists e.
    + intros (n & s & Hn & Hs & Hx).
      unfold Models.SensorMeta_features in Hx.
      apply elem_of_prefixes in Hx as (e & He & ->).
      exists e. split; [|done].
      apply elem_of_union_list. eexists. split.
      * apply list_elem_of_fmap. exists (Models.NodeMeta_tree n). split; [done|].
        apply (network_tree_values _ _ Hk). by exists n.
      * apply elem_of_union_list. exists (dom (Models.SensorMeta_tree s)).
        split; [|done]. apply list_elem_of_fmap.
        exists (Models.SensorMeta_tree s). split; [done|].
        apply elem_of_values. exists (Sensor.name s).
        destruct Hk as [_ Hs']. rewrite Forall_forall in Hs'.
        apply (node_tree_lookup _ _ _ (Hs' n Hn)). by exists s.
Qed.

Lemma feature_sensors_converse_witness :
  let tmp := Sensor.mk "tmp112" [("temp", "temperature.temperature")] in
  let hih := Sensor.mk "hih6130" [("temp", "temperature.internal");
                                  ("rh", "humidity.humidity")] in
  let net := Models.mkNetwork "aot"
               [Models.mkNode (NodeMeta.mk "n1" "aot" "POINT(0 0)") [tmp; hih];
                Models.mkNode (NodeMeta.mk "n2" "aot" "POINT(1 1)") [tmp]] in
  let f := Models.mkFeature "humidity" [net] [("humidity", "float")] in
  Forall Models.keyed (Models.networks f) /\
  Models.FeatureMeta_sensors f = {["hih6130"]} /\
  ("tmp112" ∈ Models.FeatureMeta_sensors f <-> False).
Proof.
  intros tmp hih net f.
  assert (Hk : Forall Models.keyed (Models.networks f)).
  { constructor; [|constructor]. split.
    - simpl. apply NoDup_cons. split; [|apply NoDup_singleton].
      intros H. apply list_elem_of_singleton in H. discriminate.
    - constructor; [|constructor; [|constructor]]; simpl.
      + apply NoDup_cons. split; [|apply NoDup_singleton].
        intros H. apply list_elem_of_singleton in H. discriminate.
      + apply NoDup_singleton. }
  split; [exact Hk|]. split; [vm_compute; reflexivity|].
  rewrite (proj1 (feature_sensors_converse f Hk) "tmp112"). split; [|done].
  intros (net' & n & s & Hnet & Hn & Hs & Hname & Hf).
  apply list_elem_of_singleton in Hnet as ->.
  apply sensor_features_spec in Hf as (k & v & Hkv & Hv).
  simpl in Hn.
  apply elem_of_cons in Hn as [->|Hn]; [|apply list_elem_of_singleton in Hn as ->];
    simpl in Hs.
  - apply elem_of_cons in Hs as [->|Hs]; [|apply list_elem_of_singleton in Hs as ->].
    + simpl in Hkv. apply list_elem_of_singleton in Hkv. injection Hkv as -> ->.
      discriminate.
    + discriminate.
  - apply list_elem_of_singleton in Hs as ->.
    simpl in Hkv. apply list_elem_of_singleton in Hkv. injection Hkv as -> ->.
    discriminate.
Defined.






(** ** What the echo shows *)






(** ** A refused plan *)

(** Whenever the planner refuses a request, neither caller delivers
    the refusal: the observation endpoint raises [TypeError] on the
    response it is handed instead of queries, and so does the datadump
    job, which leaves the store, the job status and the flags exactly
    as they were. *)
Theorem refused_plan_never_runs fast_count windowed_query pg rs ra args args' r :
  get_observation_queries pg rs ra args = Ok (args', Refused r) ->
  (forall validate sched net,
     validate (observation_args ra net) = args -> errors args = [] ->
     get_observations validate pg rs sched ra (Some net)
     = Raise (TypeError "'Response' object is not iterable")) /\
  (forall w, exists msg,
     get_observation_datadump fast_count windowed_query pg rs ra args w
     = (Raise (TypeError msg), w)).
Proof.
  intros Hplan. split.
  - intros validate sched net Hv He.
    rewrite get_observations_args. cbv zeta. rewrite Hv, He.
    rewrite bool_decide_eq_true_2 by done. by rewrite Hplan.
  - intros w. unfold get_observation_datadump, mbind, lift.
    destruct (as_str "jobsframework_ticket" (get (data args) "jobsframework_ticket"))
      as [t|e] eqn:Ht.
    + rewrite Hplan. simpl. by eauto.
    + unfold as_str in Ht.
      destruct (get (data args) "jobsframework_ticket"); simplify_eq; by eauto.
Qed.

Lemma refused_plan_never_runs_witness :
  let args := Scenario.job_args ["temperature"] (VInt 1000) in
  let request := get_observation_queries Scenario.pg Scenario.rs_without_temperature
                   (Scenario.ra "temperature") args in
  (exists r, request = Ok (Scenario.args_of request, Refused r)) /\
  exists msg,
    get_observation_datadump Scenario.fast_count Scenario.windowed_query
      Scenario.pg Scenario.rs_without_temperature (Scenario.ra "temperature")
      args (Scenario.world [])
    = (Raise (TypeError msg), Scenario.world []).
Proof.
  intros args request.
  eassert (Hplan : request = Ok (Scenario.args_of request, Refused _))
    by (vm_compute; reflexivity).
  split; [eexists; exact Hplan|].
  exact (proj2 (refused_plan_never_runs Scenario.fast_count Scenario.windowed_query
                  Scenario.pg Scenario.rs_without_temperature
                  (Scenario.ra "temperature") args _ _ Hplan) (Scenario.world [])).
Defined.

(** ** Exporting a shape dataset *)

Lemma shape_format_known fmt :
  (is_Some (Detail._shape_format_to_file_extension fmt)
   <-> fmt ∈ ["json"; "kml"; "shapefile"]) /\
  (is_Some (Detail._shape_format_to_content_header fmt)
   <-> fmt ∈ ["json"; "kml"; "shapefile"]).
Proof.
  unfold Detail._shape_format_to_file_extension, Detail._shape_format_to_content_header.
  cbn [list_to_map foldr uncurry].
  destruct (decide (fmt = "json")) as [->|H1].
  { rewrite !lookup_insert_eq. split; (split; [intros _; apply list_elem_of_here|by eauto]). }
  destruct (decide (fmt = "kml")) as [->|H2].
  { rewrite !lookup_insert_ne, !lookup_insert_eq by done.
    split; (split; [intros _; apply list_elem_of_In; simpl; tauto|by eauto]). }
  destruct (decide (fmt = "shapefile")) as [->|H3].
  { rewrite !lookup_insert_ne, !lookup_insert_eq by done.
    split; (split; [intros _; apply list_elem_of_In; simpl; tauto|by eauto]). }
  rewrite !lookup_insert_ne, !lookup_empty by done.
  split; (split; [by intros [? ?]|]); intros H; apply list_elem_of_In in H; simpl in H;
    destruct H as [|[|[|[]]]]; by subst.
Qed.

(** Exporting a shape dataset never raises and never leaves its
    temporary file behind, whatever the exporter does.  The answer is
    200 exactly when the exporter succeeded and left the file, the
    lower-cased format is [json], [kml] or [shapefile], and the
    dataset's metadata is found; it then carries the file's content.
    In every other case the answer is the 500 message naming the
    dataset.  No other file is touched beyond what the exporter did. *)
Theorem export_cleans_up
    (write_file : string -> string -> string -> gmap string string
                  -> option unit * gmap string string)
    (human_name : string -> option string) tmp name data_type fs :
  let fmt := PyStr.lower data_type in
  let written := write_file fmt tmp name (delete tmp fs) in
  let out := Detail.export_dataset_to_response write_file human_name tmp name
               data_type fs in
  snd out !! tmp = None /\
  (forall p, p <> tmp -> snd out !! p = snd written !! p) /\
  (Detail.export_status (fst out) = 200 <->
   is_Some (fst written) /\ is_Some (snd written !! tmp) /\
   fmt ∈ ["json"; "kml"; "shapefile"] /\ is_Some (human_name name)) /\
  (Detail.export_status (fst out) = 200 ->
   snd written !! tmp = Some (Detail.export_body (fst out)) /\
   Detail.export_content_type (fst out) = Detail._shape_format_to_content_header fmt) /\
  (Detail.export_status (fst out) <> 200 ->
   fst out = Detail.mkExport 500 ("Failed to export shape dataset " +:+ name)
                             None None).
Proof.
  intros fmt written out.
  destruct (shape_format_known fmt) as [Hext Hct].
  subst out. unfold Detail.export_dataset_to_response, Detail.export_attempt.
  fold fmt. fold written.
  destruct written as [[[]|] fs1] eqn:Hw; cbn [fst snd].
  - assert (Hclean : forall fs2 : gmap string string,
              (if bool_decide (is_Some (fs2 !! tmp)) then delete tmp fs2 else fs2) !! tmp
              = None /\
              forall p, p <> tmp ->
                (if bool_decide (is_Some (fs2 !! tmp)) then delete tmp fs2 else fs2) !! p
                = fs2 !! p).
    { intros fs2. case_bool_decide as E.
      - split; [apply lookup_delete_eq|]. intros p Hp. by rewrite lookup_delete_ne.
      - split; [|done]. destruct (fs2 !! tmp) eqn:E'; [|done]. destruct E. by eauto. }
    destruct (Hclean fs1) as [Hc1 Hc2].
    split; [exact Hc1|]. split; [exact Hc2|].
    destruct (fs1 !! tmp) as [content|] eqn:Hf; simpl.
    2:{ split; [|split; [done|done]]. split; [done|]. by intros (_ & [? ?] & _). }
    destruct (Detail._shape_format_to_file_extension fmt) as [ext|] eqn:He; simpl.
    2:{ split; [|split; [done|done]]. split; [done|].
        intros (_ & _ & Hin & _). apply Hext in Hin as [? ?]. done. }
    destruct (human_name name) as [hn|] eqn:Hh; simpl.
    2:{ split; [|split; [done|done]]. split; [done|]. by intros (_ & _ & _ & [? ?]). }
    destruct (Detail._shape_format_to_content_header fmt) as [ct|] eqn:Hc; simpl.
    2:{ split; [|split; [done|done]]. split; [done|].
        intros (_ & _ & Hin & _). apply Hct in Hin as [? ?]. done. }
    split; [|split; [done|done]]. split; [|done]. intros _.
    split; [by eauto|]. split; [by eauto|]. split; [|by eauto].
    apply Hext. by eauto.
  - assert (Hclean : (if bool_decide (is_Some (fs1 !! tmp)) then delete tmp fs1 else fs1)
                       !! tmp = None /\
                     forall p, p <> tmp ->
                       (if bool_decide (is_Some (fs1 !! tmp)) then delete tmp fs1
                        else fs1) !! p = fs1 !! p).
    { case_bool_decide as E.
      - split; [apply lookup_delete_eq|]. intros p Hp. by rewrite lookup_delete_ne.
      - split; [|done]. destruct (fs1 !! tmp) eqn:E'; [|done]. destruct E. by eauto. }
    destruct Hclean as [Hc1 Hc2].
    split; [exact Hc1|]. split; [exact Hc2|]. simpl.
    split; [|split; [done|done]]. split; [done|]. by intros ([? ?] & _).
Qed.

(** ** The dataset form *)

(** The form is accepted exactly when the field validators accept it
    and it names both a latitude and a longitude field, or neither of
    them and a location field.  A form that is accepted gets no error
    added; one that the field validators accept but that fails here
    gets exactly one message: on [location] when nothing is named, on
    [latitude] when only a longitude is, on [longitude] when only a
    latitude is. *)
Theorem validate_location_fields (Form_validate : EditDatasetForm.t -> bool * EditDatasetForm.t)
    (self : EditDatasetForm.t) :
  let rv := fst (Form_validate self) in
  let checked := snd (Form_validate self) in
  let lat := truthy (EditDatasetForm.field_data (EditDatasetForm.latitude checked)) in
  let lon := truthy (EditDatasetForm.field_data (EditDatasetForm.longitude checked)) in
  let loc := truthy (EditDatasetForm.field_data (EditDatasetForm.location checked)) in
  let out := EditDatasetForm.validate Form_validate self in
  fst out = rv && ((lat && lon) || (negb lat && negb lon && loc)) /\
  (fst out = true \/ rv = false -> snd out = checked) /\
  (rv = true -> fst out = false ->
   snd out =
   if lat then EditDatasetForm.mk
                 (EditDatasetForm.latitude checked)
                 (EditDatasetForm.append (EditDatasetForm.longitude checked)
                                         EditDatasetForm.both_required)
                 (EditDatasetForm.location checked)
   else if lon then EditDatasetForm.mk
                      (EditDatasetForm.append (EditDatasetForm.latitude checked)
                                              EditDatasetForm.both_required)
                      (EditDatasetForm.longitude checked)
                      (EditDatasetForm.location checked)
   else EditDatasetForm.mk
          (EditDatasetForm.latitude checked) (EditDatasetForm.longitude checked)
          (EditDatasetForm.append (EditDatasetForm.location checked)
                                  EditDatasetForm.location_required)).
Proof.
  intros rv checked lat lon loc out.
  subst out rv checked lat lon loc. unfold EditDatasetForm.validate.
  destruct (Form_validate self) as [rv [[dlat elat] [dlon elon] [dloc eloc]]].
  cbn [fst snd EditDatasetForm.latitude EditDatasetForm.longitude
       EditDatasetForm.location EditDatasetForm.field_data].
  destruct rv; cbn [negb]; [|split; [done|]; split; [done|done]].
  destruct (truthy dlat) eqn:Ea, (truthy dlon) eqn:Eb, (truthy dloc) eqn:Ec;
    do 3 (cbn; rewrite ?Ea, ?Eb, ?Ec); cbn;
    (split; [done|split; [|done]]); try done; by intros [|].
Qed.

Example isoformat_ex :
  isoformat (mkDatetime 2016 1 2 3 4 5 0) = "2016-01-02T03:04:05".
Proof. reflexivity. Qed.

Example isoformat_us_ex :
  isoformat (mkDatetime 2016 1 2 3 4 5 250) = "2016-01-02T03:04:05.000250".
Proof. reflexivity. Qed.

Example parse_ex :
  parse "2016-01-02T03:04:05.000250" = mkDatetime 2016 1 2 3 4 5 250.
Proof. reflexivity. Qed.

Example parse_short_fraction_ex :
  parse "2016-01-02T03:04:05.5" = mkDatetime 2016 1 2 3 4 5 500000.
Proof. reflexivity. Qed.

Example split_plus_ex :
  PyStr.split_head "+"%char "2016-01-02T03:04:05+00:00" = "2016-01-02T03:04:05".
Proof. reflexivity. Qed.
